(** * mhtml_converter: the MHTML parser and the size splitter

    A shallow embedding of [mhtml_converter/parser.py] and
    [mhtml_converter/splitter.py], with the properties of the
    specification stated over it.

    Conventions of the embedding.
    - A Python [str] is a list of Unicode code points ([N]); a [bytes]
      object is a list of octets ([N] below 256).  Strings come from file
      decoding, so they hold scalar values (no lone surrogates).
    - A [dict] is an association list in insertion order, as iteration
      order decides the order of the rewrites.
    - An exception is a value of [exn]; a method that can raise returns a
      [result].  Methods that mutate [self] return the new object.
    - The file system is a log of the files written, and, for the size
      lookups of the splitter, a function from paths to sizes.  Writing a
      file is taken to succeed.  A path names a file by its spelling, all
      relative paths being read against one working directory: this is
      so whenever the working directory is not the images directory, the
      one place where two spellings used by the program could meet.
    - Case mapping ([str.lower], [re.IGNORECASE]) follows Python on Basic
      Latin and Latin-1; other code points are left as they are. *)

From Stdlib Require Import Ascii String DecimalString List NArith ZArith Lia Bool.
Import ListNotations.

Set Implicit Arguments.

(** ** Python strings *)

Module PyStr.

Definition str := list N.

(** A literal of the source, written as a Rocq string. *)
Definition lit (s : string) : str := map N_of_ascii (list_ascii_of_string s).

Definition dquote : N := 34.
Definition squote : N := 39.
Definition backslash : N := 92.
Definition newline : N := 10.

Fixpoint str_eqb (a b : str) : bool :=
  match a, b with
  | [], [] => true
  | x :: a', y :: b' => N.eqb x y && str_eqb a' b'
  | _, _ => false
  end.

(** [not s] for a string: true on the empty string. *)
Definition is_empty (s : str) : bool :=
  match s with [] => true | _ => false end.

(** [x or y] on strings. *)
Definition str_or (x y : str) : str := if is_empty x then y else x.

(** [c in chars] for a single character. *)
Definition mem_char (c : N) (chars : str) : bool := existsb (N.eqb c) chars.

(** [str.isspace] on one code point. *)
Definition is_space (c : N) : bool :=
  (((9 <=? c) && (c <=? 13)) || ((28 <=? c) && (c <=? 32))
  || (c =? 133) || (c =? 160) || (c =? 5760)
  || ((8192 <=? c) && (c <=? 8202))
  || (c =? 8232) || (c =? 8233) || (c =? 8239) || (c =? 8287) || (c =? 12288))%N.

(** The line boundaries of [str.splitlines], [\r\n] apart. *)
Definition is_linebreak (c : N) : bool :=
  (((10 <=? c) && (c <=? 13)) || ((28 <=? c) && (c <=? 30))
  || (c =? 133) || (c =? 8232) || (c =? 8233))%N.

(** [s[::-1]], in one pass. *)
Definition reverse (s : str) : str := rev_append s [].

Fixpoint dropwhile (f : N -> bool) (s : str) : str :=
  match s with
  | [] => []
  | c :: r => if f c then dropwhile f r else s
  end.

Definition lstrip_with (f : N -> bool) (s : str) : str := dropwhile f s.
Definition rstrip_with (f : N -> bool) (s : str) : str :=
  reverse (dropwhile f (reverse s)).

(** [s.strip()] *)
Definition strip (s : str) : str := rstrip_with is_space (lstrip_with is_space s).
(** [s.rstrip(chars)] and [s.strip(chars)] *)
Definition rstrip_chars (chars s : str) : str :=
  rstrip_with (fun c => mem_char c chars) s.
Definition strip_chars (chars s : str) : str :=
  rstrip_with (fun c => mem_char c chars)
    (lstrip_with (fun c => mem_char c chars) s).

(** [s.startswith(p)] *)
Fixpoint startswith (p s : str) : bool :=
  match p, s with
  | [], _ => true
  | x :: p', y :: s' => N.eqb x y && startswith p' s'
  | _ :: _, [] => false
  end.

(** [p in s] *)
Fixpoint contains (p s : str) : bool :=
  startswith p s || match s with [] => false | _ :: r => contains p r end.

(** [s.find(p)], [None] for -1. *)
Fixpoint find (p s : str) : option nat :=
  if startswith p s then Some 0
  else match s with
       | [] => None
       | _ :: r => option_map S (find p r)
       end.

(** [s.lower()] on one code point: A-Z, and the capitals of Latin-1. *)
Definition lower_char (c : N) : N :=
  (if ((65 <=? c) && (c <=? 90))
      || ((192 <=? c) && (c <=? 222) && negb (c =? 215))
   then c + 32 else c)%N.
Definition lower (s : str) : str := map lower_char s.

(** [sep.join(parts)] *)
Fixpoint join (sep : str) (parts : list str) : str :=
  match parts with
  | [] => []
  | [p] => p
  | p :: ps => p ++ sep ++ join sep ps
  end.

(** [s.split(sep)] for a non-empty [sep] (every call of the source has
    one): [skip] counts the characters of the separator just matched that
    are still to be passed over, [cur] is the piece being read, reversed. *)
Fixpoint split_from (sep : str) (skip : nat) (cur : str) (s : str) : list str :=
  match s with
  | [] => [reverse cur]
  | c :: r =>
      match skip with
      | S k => split_from sep k cur r
      | O => if startswith sep s
             then reverse cur :: split_from sep (length sep - 1) [] r
             else split_from sep 0 (c :: cur) r
      end
  end.
Definition split (sep s : str) : list str := split_from sep 0 [] s.

(** [s.split(sep, 1)] *)
Definition split1 (sep s : str) : list str :=
  match find sep s with
  | None => [s]
  | Some i => [firstn i s; skipn (i + length sep) s]
  end.

(** [s.split()]: the maximal runs of non-space characters. *)
Fixpoint split_ws_from (cur : str) (s : str) : list str :=
  match s with
  | [] => match cur with [] => [] | _ => [reverse cur] end
  | c :: r =>
      if is_space c
      then match cur with
           | [] => split_ws_from [] r
           | _ => reverse cur :: split_ws_from [] r
           end
      else split_ws_from (c :: cur) r
  end.
Definition split_ws (s : str) : list str := split_ws_from [] s.

(** [s.splitlines()] *)
Fixpoint splitlines_from (cur : str) (s : str) : list str :=
  match s with
  | [] => match cur with [] => [] | _ => [reverse cur] end
  | c :: r =>
      if c =? 13 then
        match r with
        | 10 :: r' => reverse cur :: splitlines_from [] r'
        | _ => reverse cur :: splitlines_from [] r
        end
      else if is_linebreak c then reverse cur :: splitlines_from [] r
      else splitlines_from (c :: cur) r
  end%N.
Definition splitlines (s : str) : list str := splitlines_from [] s.

(** [s.replace(old, new)]: the occurrences of [old] are taken from the
    left and do not overlap; [skip] is as in [split_from].  With an empty
    [old] Python puts [new] around every character. *)
Fixpoint replace_from (old new : str) (skip : nat) (s : str) : str :=
  match s with
  | [] => []
  | c :: r =>
      match skip with
      | S k => replace_from old new k r
      | O => if startswith old s
             then new ++ replace_from old new (length old - 1) r
             else c :: replace_from old new 0 r
      end
  end.
Definition replace (old new s : str) : str :=
  match old with
  | [] => new ++ flat_map (fun c => c :: new) s
  | _ => replace_from old new 0 s
  end.

(** Decimal digits of a number, for messages. *)
Definition decimal (n : nat) : str :=
  lit (NilEmpty.string_of_uint (Nat.to_uint n)).

(** [p] occurs in [s], with what comes before and after it. *)
Definition occurs_in (p s : str) : Prop := exists pre post, s = pre ++ p ++ post.

End PyStr.
Import PyStr.

(** ** The codecs of the standard library *)

Module Codec.

Local Open Scope N_scope.

Definition bytes := list N.

(** [s.encode('utf-8')] *)
Definition utf8_encode_char (c : N) : bytes :=
  if c <? 128 then [c]
  else if c <? 2048 then
    [N.lor 192 (N.shiftr c 6); N.lor 128 (N.land c 63)]
  else if c <? 65536 then
    [N.lor 224 (N.shiftr c 12); N.lor 128 (N.land (N.shiftr c 6) 63);
     N.lor 128 (N.land c 63)]
  else
    [N.lor 240 (N.shiftr c 18); N.lor 128 (N.land (N.shiftr c 12) 63);
     N.lor 128 (N.land (N.shiftr c 6) 63); N.lor 128 (N.land c 63)].
Definition utf8_encode (s : str) : bytes := flat_map utf8_encode_char s.

(** [b.decode('utf-8', errors='ignore')]: a well-formed sequence gives
    its code point; a byte that starts none is dropped. *)
Definition is_cont (b : N) : bool := (128 <=? b) && (b <=? 191).
Definition second_ok3 (b0 b1 : N) : bool :=
  if b0 =? 224 then (160 <=? b1) && (b1 <=? 191)
  else if b0 =? 237 then (128 <=? b1) && (b1 <=? 159)
  else is_cont b1.
Definition second_ok4 (b0 b1 : N) : bool :=
  if b0 =? 240 then (144 <=? b1) && (b1 <=? 191)
  else if b0 =? 244 then (128 <=? b1) && (b1 <=? 143)
  else is_cont b1.
Definition low6 (b : N) : N := N.land b 63.

Fixpoint utf8_decode_ignore (b : bytes) : str :=
  match b with
  | [] => []
  | b0 :: r =>
      if b0 <? 128 then b0 :: utf8_decode_ignore r
      else if (194 <=? b0) && (b0 <=? 223) then
        match r with
        | b1 :: r1 =>
            if is_cont b1
            then (N.land b0 31 * 64 + low6 b1) :: utf8_decode_ignore r1
            else utf8_decode_ignore r
        | _ => utf8_decode_ignore r
        end
      else if (224 <=? b0) && (b0 <=? 239) then
        match r with
        | b1 :: b2 :: r2 =>
            if second_ok3 b0 b1 && is_cont b2
            then (N.land b0 15 * 4096 + low6 b1 * 64 + low6 b2)
                 :: utf8_decode_ignore r2
            else utf8_decode_ignore r
        | _ => utf8_decode_ignore r
        end
      else if (240 <=? b0) && (b0 <=? 244) then
        match r with
        | b1 :: b2 :: b3 :: r3 =>
            if second_ok4 b0 b1 && is_cont b2 && is_cont b3
            then (N.land b0 7 * 262144 + low6 b1 * 4096 + low6 b2 * 64 + low6 b3)
                 :: utf8_decode_ignore r3
            else utf8_decode_ignore r
        | _ => utf8_decode_ignore r
        end
      else utf8_decode_ignore r
  end.

(** *** base64 *)

Inductive b64_error :=
| IncorrectPadding
| InvalidLength (data_chars : nat)
| NonAscii.

Definition b64_error_msg (e : b64_error) : str :=
  match e with
  | IncorrectPadding => lit "Incorrect padding"
  | InvalidLength n =>
      lit "Invalid base64-encoded string: number of data characters ("
      ++ decimal n ++ lit ") cannot be 1 more than a multiple of 4"
  | NonAscii => lit "string argument should contain only ASCII characters"
  end.

(** The alphabet: A-Z, a-z, 0-9, + and /. *)
Definition b64_value (c : N) : option N :=
  if (65 <=? c) && (c <=? 90) then Some (c - 65)
  else if (97 <=? c) && (c <=? 122) then Some (c - 71)
  else if (48 <=? c) && (c <=? 57) then Some (c + 4)
  else if c =? 43 then Some 62
  else if c =? 47 then Some 63
  else None.

(** [binascii.a2b_base64] without strict mode: characters outside the
    alphabet are passed over, a complete pad sequence ends the input, and
    an incomplete last quad is an error. *)
Fixpoint a2b_base64_from (quad_pos : nat) (leftchar : N) (pads : nat)
    (out : bytes) (data : bytes) : b64_error + bytes :=
  match data with
  | [] =>
      match quad_pos with
      | O => inr (reverse out)
      | 1%nat => inl (InvalidLength (length out / 3 * 4 + 1)%nat)
      | _ => inl IncorrectPadding
      end
  | ch :: rest =>
      if ch =? 61 then
        if Nat.leb 2 quad_pos then
          if Nat.leb 4 (quad_pos + S pads)
          then inr (reverse out)
          else a2b_base64_from quad_pos leftchar (S pads) out rest
        else a2b_base64_from quad_pos leftchar pads out rest
      else
        match b64_value ch with
        | None => a2b_base64_from quad_pos leftchar pads out rest
        | Some v =>
            match quad_pos with
            | O => a2b_base64_from 1 v 0 out rest
            | 1%nat =>
                a2b_base64_from 2 (N.land v 15) 0
                  (N.lor (N.shiftl leftchar 2) (N.shiftr v 4) :: out) rest
            | 2%nat =>
                a2b_base64_from 3 (N.land v 3) 0
                  (N.lor (N.shiftl leftchar 4) (N.shiftr v 2) :: out) rest
            | _ =>
                a2b_base64_from 0 0 0
                  (N.lor (N.shiftl leftchar 6) v :: out) rest
            end
        end
  end.
Definition a2b_base64 (data : bytes) : b64_error + bytes :=
  a2b_base64_from 0 0 0 [] data.

(** [base64.b64decode] of a [bytes] object and of a [str]: a string
    must be ASCII. *)
Definition b64decode_bytes (data : bytes) : b64_error + bytes := a2b_base64 data.
Definition b64decode_str (s : str) : b64_error + bytes :=
  if forallb (fun c => c <? 128) s then a2b_base64 s else inl NonAscii.

(** *** quoted-printable: [quopri.decodestring], that is
    [binascii.a2b_qp] with [header=False] *)

Definition is_hex (c : N) : bool :=
  ((48 <=? c) && (c <=? 57)) || ((65 <=? c) && (c <=? 70))
  || ((97 <=? c) && (c <=? 102)).
Definition hex_value (c : N) : N :=
  if c <=? 57 then c - 48 else if c <=? 70 then c - 55 else c - 87.

(** [to_newline] is set while a soft line break that began with a
    carriage return is passed over, up to its line feed. *)
Fixpoint a2b_qp_from (to_newline : bool) (d : bytes) : bytes :=
  match d with
  | [] => []
  | c :: r =>
      if to_newline then a2b_qp_from (negb (c =? 10)) r
      else if c =? 61 then
        match r with
        | [] => []
        | c1 :: r1 =>
            if c1 =? 10 then a2b_qp_from false r1
            else if c1 =? 13 then a2b_qp_from true r1
            else if c1 =? 61 then 61 :: a2b_qp_from false r1
            else
              match r1 with
              | c2 :: r2 =>
                  if is_hex c1 && is_hex c2
                  then (hex_value c1 * 16 + hex_value c2) :: a2b_qp_from false r2
                  else 61 :: a2b_qp_from false r
              | [] => 61 :: a2b_qp_from false r
              end
        end
      else c :: a2b_qp_from false r
  end.
Definition a2b_qp (d : bytes) : bytes := a2b_qp_from false d.

(** A code point that [str.encode] takes: no surrogate, and at most
    [0x10FFFF]. *)
Definition scalar (c : N) : bool :=
  (c <? 55296) || ((57344 <=? c) && (c <? 1114112)).

End Codec.
Import Codec.

(** ** MD5, as [hashlib.md5(b).hexdigest()] *)

Module MD5.

Local Open Scope N_scope.

Definition mask32 : N := 4294967295.
Definition w32 (x : N) : N := N.land x mask32.
Definition add32 (x y : N) : N := w32 (x + y).
Definition not32 (x : N) : N := N.lxor (w32 x) mask32.
Definition rotl32 (x c : N) : N :=
  w32 (N.lor (N.shiftl x c) (N.shiftr (w32 x) (32 - c))).

Definition K : list N :=
  [3614090360; 3905402710; 606105819; 3250441966; 4118548399; 1200080426;
   2821735955; 4249261313; 1770035416; 2336552879; 4294925233; 2304563134;
   1804603682; 4254626195; 2792965006; 1236535329; 4129170786; 3225465664;
   643717713; 3921069994; 3593408605; 38016083; 3634488961; 3889429448;
   568446438; 3275163606; 4107603335; 1163531501; 2850285829; 4243563512;
   1735328473; 2368359562; 4294588738; 2272392833; 1839030562; 4259657740;
   2763975236; 1272893353; 4139469664; 3200236656; 681279174; 3936430074;
   3572445317; 76029189; 3654602809; 3873151461; 530742520; 3299628645;
   4096336452; 1126891415; 2878612391; 4237533241; 1700485571; 2399980690;
   4293915773; 2240044497; 1873313359; 4264355552; 2734768916; 1309151649;
   4149444226; 3174756917; 718787259; 3951481745].

Definition shifts : list N :=
  [7; 12; 17; 22; 7; 12; 17; 22; 7; 12; 17; 22; 7; 12; 17; 22;
   5; 9; 14; 20; 5; 9; 14; 20; 5; 9; 14; 20; 5; 9; 14; 20;
   4; 11; 16; 23; 4; 11; 16; 23; 4; 11; 16; 23; 4; 11; 16; 23;
   6; 10; 15; 21; 6; 10; 15; 21; 6; 10; 15; 21; 6; 10; 15; 21].

Record regs := { ra : N; rb : N; rc : N; rd : N }.

Definition init : regs :=
  {| ra := 1732584193; rb := 4023233417; rc := 2562383102; rd := 271733878 |}.

(** One of the 64 operations on the registers, over the words [m] of a
    block. *)
Definition step (m : list N) (r : regs) (i : nat) : regs :=
  let '(f, g) :=
    match Nat.div i 16 with
    | 0%nat => (N.lor (N.land (rb r) (rc r)) (N.land (not32 (rb r)) (rd r)), i)
    | 1%nat => (N.lor (N.land (rd r) (rb r)) (N.land (not32 (rd r)) (rc r)),
                Nat.modulo (5 * i + 1) 16)
    | 2%nat => (N.lxor (rb r) (N.lxor (rc r) (rd r)), Nat.modulo (3 * i + 5) 16)
    | _ => (N.lxor (rc r) (N.lor (rb r) (not32 (rd r))), Nat.modulo (7 * i) 16)
    end in
  let f' := add32 (add32 (add32 f (ra r)) (nth i K 0)) (nth g m 0) in
  {| ra := rd r; rd := rc r; rc := rb r;
     rb := add32 (rb r) (rotl32 f' (nth i shifts 0)) |}.

(** The 32-bit words of a block, least significant byte first. *)
Fixpoint words (b : list N) : list N :=
  match b with
  | b0 :: b1 :: b2 :: b3 :: r =>
      (b0 + 256 * b1 + 65536 * b2 + 16777216 * b3) :: words r
  | _ => []
  end.

Definition block (r : regs) (b : list N) : regs :=
  let r' := fold_left (step (words b)) (seq 0 64) r in
  {| ra := add32 (ra r) (ra r'); rb := add32 (rb r) (rb r');
     rc := add32 (rc r) (rc r'); rd := add32 (rd r) (rd r') |}.

Fixpoint le_bytes (n : nat) (x : N) : list N :=
  match n with
  | O => []
  | S k => N.land x 255 :: le_bytes k (N.shiftr x 8)
  end.

Definition pad (msg : list N) : list N :=
  let len := length msg in
  msg ++ [128] ++ repeat 0 (Nat.modulo (119 - Nat.modulo len 64) 64)
      ++ le_bytes 8 (N.of_nat len * 8).

Fixpoint blocks (fuel : nat) (r : regs) (b : list N) : regs :=
  match fuel, b with
  | S k, _ :: _ => blocks k (block r (firstn 64 b)) (skipn 64 b)
  | _, _ => r
  end.

Definition digest (msg : list N) : list N :=
  let p := pad msg in
  let r := blocks (length p) init p in
  le_bytes 4 (ra r) ++ le_bytes 4 (rb r) ++ le_bytes 4 (rc r) ++ le_bytes 4 (rd r).

Definition hex_digit (x : N) : N := if x <? 10 then 48 + x else 87 + x.
Definition hex_byte (b : N) : str := [hex_digit (N.shiftr b 4); hex_digit (N.land b 15)].

Definition hexdigest (msg : list N) : str := flat_map hex_byte (digest msg).

End MD5.

(** ** [os.path] (POSIX) *)

Module OsPath.

Definition slash : N := 47.
Definition dot : N := 46.

Fixpoint rfind_char_from (c : N) (i : nat) (acc : option nat) (s : str)
  : option nat :=
  match s with
  | [] => acc
  | x :: r => rfind_char_from c (S i) (if N.eqb x c then Some i else acc) r
  end.
Definition rfind_char (c : N) (s : str) : option nat := rfind_char_from c 0 None s.

Definition endswith_char (c : N) (s : str) : bool :=
  match reverse s with x :: _ => N.eqb x c | [] => false end.

(** [os.path.join(a, b)] *)
Definition path_join (a b : str) : str :=
  if startswith [slash] b then b
  else if is_empty a || endswith_char slash a then a ++ b
  else a ++ [slash] ++ b.

(** [os.path.basename(p)] *)
Definition basename (p : str) : str :=
  match rfind_char slash p with
  | None => p
  | Some i => skipn (S i) p
  end.

(** [os.path.splitext(p)[0]]: the last dot of the last component starts
    the extension, unless only dots come before it. *)
Definition splitext_root (p : str) : str :=
  match rfind_char dot p with
  | None => p
  | Some d =>
      let start := match rfind_char slash p with None => O | Some i => S i end in
      if Nat.leb start d
      then if existsb (fun x => negb (N.eqb x dot)) (firstn (d - start) (skipn start p))
           then firstn d p else p
      else p
  end.

(** A file name without directory part. *)
Definition bare (path : str) : Prop := Forall (fun c => c <> slash) path.

End OsPath.
Import OsPath.

(** ** Exceptions, results and dictionaries *)

Inductive exn :=
| ValueError (msg : str)
| TemplateEscape.
(** [TemplateEscape] stands for [re.sub] called with a replacement
    template that holds a backslash: Python then expands an escape or
    raises [re.error]; the development does not follow the template
    language and gives this outcome instead of a string. *)

Inductive result (A : Type) :=
| Ok (a : A)
| Raise (e : exn).
Arguments Ok {A} a.
Arguments Raise {A} e.

Definition bind {A B} (r : result A) (k : A -> result B) : result B :=
  match r with
  | Ok a => k a
  | Raise e => Raise e
  end.

Module Dict.

Definition dict (V : Type) := list (str * V).

Fixpoint get {V} (k : str) (d : dict V) : option V :=
  match d with
  | [] => None
  | (k', v) :: r => if str_eqb k' k then Some v else get k r
  end.

(** [d[k] = v]: a key already there keeps its place. *)
Fixpoint set {V} (k : str) (v : V) (d : dict V) : dict V :=
  match d with
  | [] => [(k, v)]
  | (k', v') :: r => if str_eqb k' k then (k', v) :: r else (k', v') :: set k v r
  end.

End Dict.

(** ** Regular expressions of the source

    Every pattern of the source is a literal, escaped with [re.escape],
    but for the dot of the [.dat] suffix, which is left as a wildcard. *)

Module Re.

Inductive atom :=
| Ch (c : N)
| AnyChar.

Definition literal (s : str) : list atom := map Ch s.

Definition atom_matches_ci (a : atom) (c : N) : bool :=
  match a with
  | Ch x => N.eqb (lower_char x) (lower_char c)
  | AnyChar => negb (N.eqb c newline)
  end.

Fixpoint matches_at (pat : list atom) (s : str) : bool :=
  match pat, s with
  | [], _ => true
  | a :: pat', c :: s' => atom_matches_ci a c && matches_at pat' s'
  | _ :: _, [] => false
  end.

(** The matches are taken from the left and do not overlap; [skip]
    counts the characters of the current match still to pass over. *)
Fixpoint sub_from (pat : list atom) (repl : str) (skip : nat) (s : str) : str :=
  match s with
  | [] => []
  | c :: r =>
      match skip with
      | S k => sub_from pat repl k r
      | O => if matches_at pat s
             then repl ++ sub_from pat repl (length pat - 1) r
             else c :: sub_from pat repl 0 r
      end
  end.

(** [re.sub(pat, repl, s, flags=re.IGNORECASE)] for the non-empty
    patterns of the source. *)
Definition sub (pat : list atom) (repl : str) (s : str) : result str :=
  if mem_char backslash repl then Raise TemplateEscape
  else Ok (sub_from pat repl 0 s).

End Re.

(** ** [parser.py]: class [MHTMLParser] *)

Module Parser.

Import Dict.

Definition BOUNDARY := lit "boundary".
Definition CHARSET := lit "charset".
Definition CONTENT_TYPE := lit "Content-Type".
Definition CONTENT_TRANSFER_ENCODING := lit "Content-Transfer-Encoding".
Definition CONTENT_LOCATION := lit "Content-Location".
Definition FILENAME := lit "filename=".

(** An entry of the dataset: [(content_type, name, content)]. *)
Definition part := (str * str * str)%type.

Record MHTMLParser := {
  mhtml_content : option str;
  decode_images : bool;
  dataset : list part;
  boundary : option str;
  _missing_images : dict str;
  _image_paths : dict str;
  _image_content_types : dict str
}.

(** [MHTMLParser(mhtml_content, decode_images)] *)
Definition __init__ (content : option str) (decode : bool) : MHTMLParser :=
  {| mhtml_content := content; decode_images := decode; dataset := [];
     boundary := None; _missing_images := []; _image_paths := [];
     _image_content_types := [] |}.

Definition with_dataset (self : MHTMLParser) (d : list part) : MHTMLParser :=
  {| mhtml_content := mhtml_content self; decode_images := decode_images self;
     dataset := d; boundary := boundary self;
     _missing_images := _missing_images self; _image_paths := _image_paths self;
     _image_content_types := _image_content_types self |}.
Definition with_boundary (self : MHTMLParser) (b : option str) : MHTMLParser :=
  {| mhtml_content := mhtml_content self; decode_images := decode_images self;
     dataset := dataset self; boundary := b;
     _missing_images := _missing_images self; _image_paths := _image_paths self;
     _image_content_types := _image_content_types self |}.
Definition with_missing (self : MHTMLParser) (m : dict str) : MHTMLParser :=
  {| mhtml_content := mhtml_content self; decode_images := decode_images self;
     dataset := dataset self; boundary := boundary self;
     _missing_images := m; _image_paths := _image_paths self;
     _image_content_types := _image_content_types self |}.
Definition with_paths (self : MHTMLParser) (m : dict str) : MHTMLParser :=
  {| mhtml_content := mhtml_content self; decode_images := decode_images self;
     dataset := dataset self; boundary := boundary self;
     _missing_images := _missing_images self; _image_paths := m;
     _image_content_types := _image_content_types self |}.
Definition with_types (self : MHTMLParser) (m : dict str) : MHTMLParser :=
  {| mhtml_content := mhtml_content self; decode_images := decode_images self;
     dataset := dataset self; boundary := boundary self;
     _missing_images := _missing_images self; _image_paths := _image_paths self;
     _image_content_types := m |}.

(** [_get_image_extension] *)
Definition type_map : dict str :=
  [(lit "image/jpeg", lit ".jpg"); (lit "image/jpg", lit ".jpg");
   (lit "image/png", lit ".png"); (lit "image/gif", lit ".gif");
   (lit "image/webp", lit ".webp"); (lit "image/bmp", lit ".bmp");
   (lit "image/x-icon", lit ".ico");
   (lit "image/vnd.microsoft.icon", lit ".ico");
   (lit "image/svg+xml", lit ".svg")].
Definition _get_image_extension (content_type : str) : str :=
  match get (lower content_type) type_map with
  | Some ext => ext
  | None => lit ".img"
  end.

(** The first step of [_generate_image_filename]: each of the nine
    characters that are unsafe in a file name (angle brackets, colon,
    double quote, slash, backslash, bar, question mark, star) becomes an
    underscore. *)
Definition unsafe_chars : str := [60; 62; 58; 34; 47; 92; 124; 63; 42]%N.
Definition sanitize (name : str) : str :=
  map (fun c => if mem_char c unsafe_chars then 95%N else c) name.

Definition last_piece (pieces : list str) : str := last pieces [].

(** [_generate_image_filename] *)
Definition content_hash (content : str) : str :=
  firstn 8 (MD5.hexdigest (utf8_encode content)).
Definition _generate_image_filename (original_name content content_type : str)
  : str :=
  let ext := _get_image_extension content_type in
  let safe_name := sanitize original_name in
  let safe_name :=
    last_piece (split [backslash] (last_piece (split [slash] safe_name))) in
  let safe_name := splitext_root safe_name in
  safe_name ++ lit "_" ++ content_hash content ++ ext.

(** [_get_header_value] *)
Definition _get_header_value (header_line : str) : str :=
  match nth_error (split1 (lit ":") header_line) 1 with
  | Some v => strip (rstrip_chars (lit ";") (strip v))
  | None => lit ""
  end.

(** The value after the equals sign, as [_find_boundary] and the
    [filename=] branch of [_process_part] both read it; [None] stands for
    the [IndexError] that both catch. *)
Definition value_after_equals (line : str) : option str :=
  if mem_char dquote line then
    option_map (rstrip_chars [dquote]) (nth_error (split [61%N; dquote] line) 1)
  else if mem_char squote line then
    option_map (rstrip_chars [squote]) (nth_error (split [61%N; squote] line) 1)
  else option_map strip (nth_error (split [61%N] line) 1).

(** [_find_boundary] *)
Fixpoint _find_boundary (lines : list str) : option str :=
  match lines with
  | [] => None
  | l :: rest =>
      let line := strip l in
      if contains BOUNDARY (lower line) then
        match value_after_equals line with
        | Some b => Some b
        | None => _find_boundary rest
        end
      else _find_boundary rest
  end.

(** [_decode_base64]: on an error the text comes back, its white space
    already removed. *)
Definition _decode_base64 (data : str) : str :=
  let data := join [] (split_ws data) in
  match b64decode_bytes (utf8_encode data) with
  | inr b => utf8_decode_ignore b
  | inl _ => data
  end.

(** [_decode_quoted_printable] *)
Definition _decode_quoted_printable (data : str) : str :=
  utf8_decode_ignore (a2b_qp (utf8_encode data)).

(** The local variables of [_process_part]. *)
Record locals := {
  content_type : str;
  content_location : str;
  content_encoding : str;
  filename : str;
  content_id : str;
  charset : str;
  content_lines : list str;
  header_done : bool
}.

Definition locals0 : locals :=
  {| content_type := []; content_location := []; content_encoding := [];
     filename := []; content_id := []; charset := lit "utf-8";
     content_lines := []; header_done := false |}.

(** The body of the loop of [_process_part]. *)
Definition process_line (v : locals) (l : str) : locals :=
  let line := strip l in
  if header_done v then
    {| content_type := content_type v; content_location := content_location v;
       content_encoding := content_encoding v; filename := filename v;
       content_id := content_id v; charset := charset v;
       content_lines := content_lines v ++ [line]; header_done := true |}
  else if is_empty line then
    {| content_type := content_type v; content_location := content_location v;
       content_encoding := content_encoding v; filename := filename v;
       content_id := content_id v; charset := charset v;
       content_lines := content_lines v; header_done := true |}
  else
    let line_lower := lower line in
    if contains (lower CONTENT_TYPE) line_lower then
      {| content_type := _get_header_value line;
         content_location := content_location v;
         content_encoding := content_encoding v; filename := filename v;
         content_id := content_id v; charset := charset v;
         content_lines := content_lines v; header_done := false |}
    else if contains (lower CONTENT_LOCATION) line_lower then
      {| content_type := content_type v;
         content_location := _get_header_value line;
         content_encoding := content_encoding v; filename := filename v;
         content_id := content_id v; charset := charset v;
         content_lines := content_lines v; header_done := false |}
    else if contains (lower CONTENT_TRANSFER_ENCODING) line_lower then
      {| content_type := content_type v; content_location := content_location v;
         content_encoding := _get_header_value line; filename := filename v;
         content_id := content_id v; charset := charset v;
         content_lines := content_lines v; header_done := false |}
    else if contains (lower FILENAME) line_lower then
      match value_after_equals line with
      | Some f =>
          {| content_type := content_type v;
             content_location := content_location v;
             content_encoding := content_encoding v; filename := f;
             content_id := content_id v; charset := charset v;
             content_lines := content_lines v; header_done := false |}
      | None => v
      end
    else if contains (lit "content-id") line_lower then
      match nth_error (split (lit ":") line) 1 with
      | Some i =>
          {| content_type := content_type v;
             content_location := content_location v;
             content_encoding := content_encoding v; filename := filename v;
             content_id := strip_chars (lit "<>") (strip i); charset := charset v;
             content_lines := content_lines v; header_done := false |}
      | None => v
      end
    else if contains (lower CHARSET) line_lower then
      {| content_type := content_type v; content_location := content_location v;
         content_encoding := content_encoding v; filename := filename v;
         content_id := content_id v; charset := _get_header_value line;
         content_lines := content_lines v; header_done := false |}
    else v.

Definition scan (lines : list str) : locals := fold_left process_line lines locals0.

(** The content of a part as its lines give it, before any decoding. *)
Definition raw_content (v : locals) : str := join [newline] (content_lines v).

(** The decoding step of [_process_part]. *)
Definition decode_content (v : locals) : str :=
  let content := raw_content v in
  if str_eqb (lower (content_encoding v)) (lit "base64") then
    if negb (startswith (lit "image/") (content_type v))
    then _decode_base64 content
    else content
  else if str_eqb (lower (content_encoding v)) (lit "quoted-printable") then
    _decode_quoted_printable content
  else content.

Definition resource_id (v : locals) : str :=
  str_or (content_id v) (str_or (filename v) (content_location v)).

(** [_process_part]: the triple it returns, and the parser with the
    content type of an image recorded. *)
Definition part_of (lines : list str) : part :=
  let v := scan lines in
  (content_type v, resource_id v, decode_content v).

Definition _process_part (self : MHTMLParser) (lines : list str)
  : part * MHTMLParser :=
  let v := scan lines in
  let self' :=
    if startswith (lit "image/") (content_type v)
    then with_types self
           (set (resource_id v) (content_type v) (_image_content_types self))
    else self in
  (part_of lines, self').

(** The test at a boundary line and at the end of the input: a part with
    lines is processed, and kept when it has a content type or a name.
    [_process_part] raises nothing, so the handler around the call is
    never entered. *)
Definition close_part (self : MHTMLParser) (current_part : list str)
    (in_content : bool) : MHTMLParser :=
  match current_part with
  | [] => self
  | _ :: _ =>
      if in_content then
        let '(part_data, self') := _process_part self current_part in
        let '(ctype, name, _) := part_data in
        if negb (is_empty ctype) || negb (is_empty name)
        then with_dataset self' (dataset self' ++ [part_data])
        else self'
      else self
  end.

(** The state of the loop of [parse]: the parser, [current_part] and
    [in_content]. *)
Definition parse_line (b : str) (st : MHTMLParser * list str * bool) (line : str)
  : MHTMLParser * list str * bool :=
  let '(self, current_part, in_content) := st in
  if contains b line then (close_part self current_part in_content, [], true)
  else if in_content then (self, current_part ++ [line], in_content)
  else st.

Definition no_content_msg := lit "No MHTML content set".
Definition no_boundary_msg := lit "Could not find boundary in MHTML content".
Definition no_html_msg := lit "No HTML content found in MHTML file".

(** [parse]: the exception raised, if any, and the parser afterwards. *)
Definition parse (self : MHTMLParser) : option exn * MHTMLParser :=
  match mhtml_content self with
  | None => (Some (ValueError no_content_msg), self)
  | Some content =>
      if is_empty content then (Some (ValueError no_content_msg), self)
      else
        let lines := splitlines content in
        let self := with_boundary self (_find_boundary lines) in
        match boundary self with
        | None => (Some (ValueError no_boundary_msg), self)
        | Some b =>
            if is_empty b then (Some (ValueError no_boundary_msg), self)
            else
              let '(self, current_part, in_content) :=
                fold_left (parse_line b) lines (self, [], false) in
              (None, close_part self current_part in_content)
        end
  end.

(** [set_mhtml_content] *)
Definition set_mhtml_content (self : MHTMLParser) (content : str)
  : option exn * MHTMLParser :=
  if is_empty content
  then (Some (ValueError (lit "MHTML content cannot be empty")), self)
  else (None,
        {| mhtml_content := Some content; decode_images := decode_images self;
           dataset := dataset self; boundary := boundary self;
           _missing_images := _missing_images self;
           _image_paths := _image_paths self;
           _image_content_types := _image_content_types self |}).

(** A file written in binary mode. *)
Definition binary_file := (str * bytes)%type.

Definition decode_failed_msg (e : b64_error) : str :=
  lit "Failed to decode/save image: " ++ b64_error_msg e.

(** The body of the loop of [extract_images].  Building the file name
    raises nothing, so only the inner handler is ever entered. *)
Definition extract_image (output_dir : str)
    (st : MHTMLParser * list binary_file) (p : part)
  : MHTMLParser * list binary_file :=
  let '(self, written) := st in
  let '(ctype, name, content) := p in
  if negb (startswith (lit "image/") ctype) || is_empty name then st
  else
    let filename := _generate_image_filename name content ctype in
    let image_path := path_join output_dir filename in
    match b64decode_str (join [] (split_ws content)) with
    | inr img_data =>
        (with_paths self (set name filename (_image_paths self)),
         written ++ [(image_path, img_data)])
    | inl e =>
        (with_missing self (set name (decode_failed_msg e) (_missing_images self)),
         written)
    end.

(** [extract_images]: the registry returned is [_image_paths] of the
    parser afterwards. *)
Definition extract_images (self : MHTMLParser) (output_dir : str)
  : MHTMLParser * list binary_file :=
  fold_left (extract_image output_dir) (dataset self) (with_paths self [], []).

Definition src_dq (target : str) : str :=
  lit "src=" ++ [dquote] ++ target ++ [dquote].

(** The six patterns of [_fix_html_paths] for a name; the dot before
    [dat] is not escaped in the source. *)
Definition path_patterns (name : str) : list (list Re.atom) :=
  let n := Re.literal name in
  let dq := Re.literal [dquote] in
  let sq := Re.literal [squote] in
  let dat := Re.AnyChar :: Re.literal (lit "dat") in
  [Re.literal (lit "src=") ++ dq ++ Re.literal (lit "cid:") ++ n ++ dq;
   Re.literal (lit "src=") ++ dq ++ n ++ dq;
   Re.literal (lit "src=") ++ sq ++ n ++ sq;
   Re.literal (lit "src=") ++ dq ++ Re.literal (lit "cid:") ++ n ++ dat ++ dq;
   Re.literal (lit "src=") ++ dq ++ n ++ dat ++ dq;
   Re.literal (lit "src=") ++ sq ++ n ++ dat ++ sq].

Definition sub_all (patterns : list (list Re.atom)) (repl : str) (html : str)
  : result str :=
  fold_left (fun h pat => bind h (Re.sub pat repl)) patterns (Ok html).

(** [_fix_html_paths] *)
Definition _fix_html_paths (self : MHTMLParser) (html_content : str)
  : result str :=
  fold_left
    (fun h '(name, filename) =>
       bind h (sub_all (path_patterns name) (src_dq (lit "images/" ++ filename))))
    (_image_paths self) (Ok html_content).

(** The first loop of [get_html]: the content of the first part of type
    [text/html], the empty string when there is none. *)
Fixpoint first_html (d : list part) : str :=
  match d with
  | [] => []
  | (ctype, _, content) :: r =>
      if str_eqb ctype (lit "text/html") then content else first_html r
  end.

(** [image_map] of [get_html]. *)
Definition image_map (d : list part) : dict (str * str) :=
  fold_left
    (fun m '(ctype, name, content) =>
       if startswith (lit "image/") ctype then set name (ctype, content) m else m)
    d [].

Definition data_uri (ctype content : str) : str :=
  lit "data:" ++ ctype ++ lit ";base64," ++ content.

(** The two patterns of the embedded mode. *)
Definition embed_patterns (name : str) : list (list Re.atom) :=
  [Re.literal (src_dq (lit "cid:" ++ name)); Re.literal (src_dq name)].

(** The body of the replacement loop of [get_html]. *)
Definition embed_image (decode : bool) (h : result str)
    (entry : str * (str * str)) : result str :=
  let '(name, (ctype, content)) := entry in
  if decode
  then bind h (sub_all (embed_patterns name) (src_dq (data_uri ctype content)))
  else h.

(** [get_html] *)
Definition get_html (self : MHTMLParser) (embedded_images : bool) : result str :=
  let html_content := first_html (dataset self) in
  if is_empty html_content then Raise (ValueError no_html_msg)
  else if embedded_images then
    fold_left (embed_image (decode_images self)) (image_map (dataset self))
      (Ok html_content)
  else _fix_html_paths self html_content.

(** [get_missing_images] *)
Definition get_missing_images (self : MHTMLParser) : dict str :=
  _missing_images self.

(** The parts that a call of [parse] adds to the dataset: what
    [close_part] keeps of a buffer, and the buffers of the loop in turn. *)
Definition kept_part (current_part : list str) (in_content : bool) : list part :=
  match current_part with
  | [] => []
  | _ :: _ =>
      if in_content then
        let '(ctype, name, _) := part_of current_part in
        if negb (is_empty ctype) || negb (is_empty name)
        then [part_of current_part] else []
      else []
  end.

Fixpoint recognized_from (b : str) (current_part : list str) (in_content : bool)
    (lines : list str) : list part :=
  match lines with
  | [] => kept_part current_part in_content
  | line :: r =>
      if contains b line
      then kept_part current_part in_content ++ recognized_from b [] true r
      else if in_content then recognized_from b (current_part ++ [line]) in_content r
      else recognized_from b current_part in_content r
  end.

Definition recognized (content : str) : list part :=
  match _find_boundary (splitlines content) with
  | Some b => recognized_from b [] false (splitlines content)
  | None => []
  end.

(** The loop of [parse], and the test after it. *)
Definition parse_loop (b : str) (lines : list str)
    (st : MHTMLParser * list str * bool) : MHTMLParser :=
  let '(self, current_part, in_content) := fold_left (parse_line b) lines st in
  close_part self current_part in_content.

(** What [parse] reads of the parser and never writes. *)
Definition same_input (a b : MHTMLParser) : Prop :=
  mhtml_content a = mhtml_content b
  /\ decode_images a = decode_images b
  /\ boundary a = boundary b
  /\ _missing_images a = _missing_images b
  /\ _image_paths a = _image_paths b.

(** The test of the first loop of [get_html]. *)
Definition is_html_part (p : part) : bool :=
  let '(ctype, _, _) := p in str_eqb ctype (lit "text/html").

(** [re.sub] raises no [ValueError]. *)
Definition no_value_error (r : result str) : Prop :=
  match r with
  | Raise (ValueError _) => False
  | _ => True
  end.

(** One step of the embedded mode when the template holds no backslash:
    the references to [cid:name] and then those to [name], both in
    double quotes, become the data URI. *)
Definition embedded_in (html : str) (entry : str * (str * str)) : str :=
  let '(name, (ctype, content)) := entry in
  let repl := src_dq (data_uri ctype content) in
  Re.sub_from (Re.literal (src_dq name)) repl 0
    (Re.sub_from (Re.literal (src_dq (lit "cid:" ++ name))) repl 0 html).

Definition backslash_free (m : dict (str * str)) : bool :=
  forallb
    (fun '(_, (ctype, content)) =>
       negb (mem_char backslash ctype) && negb (mem_char backslash content)) m.

(** An entry of the log made by [extract_images] for a payload that
    does not decode. *)
Definition logged (name : str) (self : MHTMLParser) : Prop :=
  exists e, get name (_missing_images self) = Some (decode_failed_msg e).

(** An entry of the registry. *)
Definition registered (name : str) (self : MHTMLParser) : Prop :=
  exists filename, get name (_image_paths self) = Some filename.

(** What [extract_images] keeps true: the registered names are bare and
    the written paths are not. *)
Definition names_apart (st : MHTMLParser * list binary_file) : Prop :=
  Forall (fun entry => bare (snd entry)) (_image_paths (fst st))
  /\ Forall (fun file => mem_char slash (fst file) = true) (snd st).

(** A part that [parse] stores has a content type or a name. *)
Definition identified (p : part) : Prop :=
  let '(ctype, name, _) := p in ctype <> [] \/ name <> [].

(** An entry of the registry that stands for an image part of [parts]:
    the payload of the part decodes, the file name is the one generated
    for it, and its bytes are among the files [written]. *)
Definition extracted_from (output_dir : str) (parts : list part)
    (written : list binary_file) (name filename : str) : Prop :=
  exists ctype content data,
    In (ctype, name, content) parts
    /\ startswith (lit "image/") ctype = true
    /\ name <> []
    /\ filename = _generate_image_filename name content ctype
    /\ b64decode_str (join [] (split_ws content)) = inr data
    /\ In (path_join output_dir filename, data) written.

(** The non-embedded mode for one entry of the registry, when the file
    name holds no backslash: the six patterns in turn, each match replaced
    by the reference to the file under [images/]. *)
Definition paths_fixed_in (html : str) (entry : str * str) : str :=
  let '(name, filename) := entry in
  fold_left
    (fun h pat => Re.sub_from pat (src_dq (lit "images/" ++ filename)) 0 h)
    (path_patterns name) html.

End Parser.

(** ** [utils.py]: [FileUtils.get_safe_filename] *)

Module Utils.

Import Parser.

(** The substitution is that of [_generate_image_filename]; an empty
    result becomes [unnamed_file]. *)
Definition get_safe_filename (filename : str) : str :=
  let safe_name := sanitize filename in
  if is_empty safe_name then lit "unnamed_file" else safe_name.

(** A character that is none of the nine unsafe ones. *)
Definition safe_char (c : N) : Prop := mem_char c unsafe_chars = false.

End Utils.

(** *** A document of two parts *)

Module Sample.

Import Parser.

Definition nl : str := [newline].
Definition lines (ls : list str) : str := join nl ls.

(** Boundary [AAA], an HTML part that refers to [cid:img1], and a PNG
    part named [img1]. *)
Definition doc : str :=
  lines
    [lit "MIME-Version: 1.0";
     lit "Content-Type: multipart/related; boundary=" ++ [dquote] ++ lit "AAA" ++ [dquote];
     lit "";
     lit "--AAA";
     lit "Content-Type: text/html";
     lit "";
     lit "<html><body><img src=" ++ [dquote] ++ lit "cid:img1" ++ [dquote] ++ lit "></body></html>";
     lit "--AAA";
     lit "Content-Type: image/png";
     lit "Content-Transfer-Encoding: base64";
     lit "Content-ID: <img1>";
     lit "";
     lit "iVBORw0K";
     lit "--AAA--"].

Definition parsed : MHTMLParser := snd (parse (__init__ (Some doc) true)).

End Sample.

(** ** [splitter.py]: class [MHTMLSplitter] *)

Module Splitter.

Import Dict Parser.

(** A file written in text mode. *)
Definition text_file := (str * str)%type.

Record MHTMLSplitter := {
  max_size_mb : Z;
  missing_images : dict (list str)
}.

(** [max_size_mb * 1024 * 1024] *)
Definition limit (self : MHTMLSplitter) : Z := (max_size_mb self * 1024 * 1024)%Z.

(** [re.search] of a literal, letter case apart: the index of the first
    match. *)
Fixpoint search_ci (pat : list Re.atom) (s : str) : option nat :=
  if Re.matches_at pat s then Some O
  else match s with
       | [] => None
       | _ :: r => option_map S (search_ci pat r)
       end.

(** [_extract_header_template].  The pattern is [<html], anything, [<body],
    anything, [>], the two gaps as short as can be and the dot matching
    line breaks too: the match runs from the first [<html] to the first
    [>] after the first [<body] that follows it. *)
Definition _extract_header_template (html_content : str) : str :=
  match search_ci (Re.literal (lit "<html")) html_content with
  | None => lit "<html><body>"
  | Some i =>
      let after_html := skipn (i + 5) html_content in
      match search_ci (Re.literal (lit "<body")) after_html with
      | None => lit "<html><body>"
      | Some j =>
          let after_body := skipn (j + 5) after_html in
          match find (lit ">") after_body with
          | None => lit "<html><body>"
          | Some k => firstn (5 + j + 5 + k + 1) (skipn i html_content)
          end
      end
  end.

(** [_build_html_content]: the lines are joined with nothing between. *)
Definition _build_html_content (header : str) (content : list str) : str :=
  header ++ [newline] ++ join [] content ++ [newline] ++ lit "</body></html>".

(** The rewrite of [_save_html_file] for one entry of the registry. *)
Definition rewrite_entry (content : str) (entry : str * str) : str :=
  let '(img_name, img_path) := entry in
  let relative_path := path_join (lit "images") (basename img_path) in
  let content := replace (lit "cid:" ++ img_name) relative_path content in
  replace ([dquote] ++ img_name ++ [dquote])
          ([dquote] ++ relative_path ++ [dquote]) content.

(** The content that [_save_html_file] writes. *)
Definition rewrite_references (image_paths : dict str) (content : str) : str :=
  fold_left rewrite_entry image_paths content.

(** [_save_html_file]: the file written. *)
Definition _save_html_file (output_path content : str) (image_paths : dict str)
  : text_file :=
  (output_path, rewrite_references image_paths content).

(** A content mentions an entry of the registry when it holds a
    reference that [rewrite_entry] replaces. *)
Definition mentions (content : str) (entry : str * str) : bool :=
  let '(img_name, _) := entry in
  contains (lit "cid:" ++ img_name) content
  || contains ([dquote] ++ img_name ++ [dquote]) content.

Definition no_references (image_paths : dict str) (content : str) : bool :=
  forallb (fun entry => negb (mentions content entry)) image_paths.

Section Split.

(** The file system as [_split_large_file] sees it: the size of the file
    at a path ([os.path.getsize]), [None] where [os.path.exists] is
    false.  The HTML files written meanwhile are no image files. *)
Variable getsize : str -> option N.

(** [_calculate_line_images_size] *)
Definition _calculate_line_images_size (line : str) (image_paths : dict str) : Z :=
  fold_left
    (fun total '(img_name, img_path) =>
       if contains img_name line then
         match getsize img_path with
         | Some n => (total + Z.of_N n)%Z
         | None => total
         end
       else total)
    image_paths 0%Z.

Variable self : MHTMLSplitter.
Variables base_name output_dir : str.
Variable image_paths : dict str.

(** The variables of the loop of [_split_large_file], and the files
    written so far. *)
Record split_state := {
  output_files : list str;
  written : list text_file;
  current_size : Z;
  current_content : list str;
  file_counter : nat
}.

Definition part_path (counter : nat) : str :=
  path_join output_dir (base_name ++ lit "_" ++ decimal counter ++ lit ".html").

Definition line_size (line : str) : Z := Z.of_nat (length (utf8_encode line)).

(** Saving the buffer as the next file. *)
Definition save_current (header_template : str) (st : split_state)
  : list str * list text_file :=
  let output_path := part_path (file_counter st) in
  (output_files st ++ [output_path],
   written st
   ++ [_save_html_file output_path
         (_build_html_content header_template (current_content st)) image_paths]).

(** The body of the loop. *)
Definition split_line (header_template : str) (st : split_state) (line : str)
  : split_state :=
  let image_size := _calculate_line_images_size line image_paths in
  let st :=
    if (limit self <? current_size st + line_size line + image_size)%Z then
      let '(files, files_written) := save_current header_template st in
      {| output_files := files; written := files_written; current_size := 0%Z;
         current_content := []; file_counter := S (file_counter st) |}
    else st in
  {| output_files := output_files st; written := written st;
     current_size := (current_size st + line_size line + image_size)%Z;
     current_content := current_content st ++ [line];
     file_counter := file_counter st |}.

(** [_split_large_file]: the list returned and the files written. *)
Definition _split_large_file (html_content : str) : list str * list text_file :=
  let header_template := _extract_header_template html_content in
  let st :=
    fold_left (split_line header_template) (split [newline] html_content)
      {| output_files := []; written := []; current_size := 0%Z;
         current_content := []; file_counter := 1 |} in
  match current_content st with
  | [] => (output_files st, written st)
  | _ :: _ => save_current header_template st
  end.

End Split.

(** [_update_missing_images] *)
Definition _update_missing_images (self : MHTMLSplitter) (missing : dict str)
    (file_name : str) : MHTMLSplitter :=
  match missing with
  | [] => self
  | _ :: _ =>
      {| max_size_mb := max_size_mb self;
         missing_images :=
           set file_name
             (map (fun '(name, error) => name ++ lit ": " ++ error) missing)
             (missing_images self) |}
  end.

(** What a call of [split_file] leaves behind. *)
Record outcome := {
  returned : result (list str);
  splitter : MHTMLSplitter;
  images_written : list binary_file;
  html_written : list text_file
}.

Definition raised (self : MHTMLSplitter) (e : exn) : outcome :=
  {| returned := Raise e; splitter := self; images_written := [];
     html_written := [] |}.

(** The sizes on disk once the images are written: a file written last
    under a path is the file at that path. *)
Definition disk_after (disk : str -> option N) (images : list binary_file)
    (path : str) : option N :=
  match List.find (fun '(p, _) => str_eqb p path) (rev images) with
  | Some (_, data) => Some (N.of_nat (length data))
  | None => disk path
  end.

(** [split_file].  [read_file] is [FileUtils.read_file], the text of the
    file at a path, and [disk] gives the sizes of the files there are
    before the call.  The test on the size divides the number of
    characters of the text by [1024 * 1024]: the quotient is exact, so
    the test compares the number with the limit. *)
Definition split_file (read_file : str -> str) (disk : str -> option N)
    (self : MHTMLSplitter) (input_path output_dir : str) : outcome :=
  let images_dir := path_join output_dir (lit "images") in
  let mhtml_content := read_file input_path in
  let parser := __init__ (Some mhtml_content) true in
  match parse parser with
  | (Some e, _) => raised self e
  | (None, parser) =>
      let base_name := splitext_root (basename input_path) in
      match get_html parser false with
      | Raise e => raised self e
      | Ok html_content =>
          let '(parser, images) := extract_images parser images_dir in
          let image_paths := _image_paths parser in
          let self := _update_missing_images self (get_missing_images parser) base_name in
          if (Z.of_nat (length mhtml_content) <=? limit self)%Z then
            let output_path := path_join output_dir (base_name ++ lit ".html") in
            {| returned := Ok [output_path]; splitter := self;
               images_written := images;
               html_written := [_save_html_file output_path html_content image_paths] |}
          else
            let '(files, files_written) :=
              _split_large_file (disk_after disk images) self base_name
                output_dir image_paths html_content in
            {| returned := Ok files; splitter := self; images_written := images;
               html_written := files_written |}
      end
  end.

(** Equality of lists of files, as a test. *)
Fixpoint files_eqb (a b : list (str * str)) : bool :=
  match a, b with
  | [], [] => true
  | (p, c) :: a', (q, d) :: b' => str_eqb p q && str_eqb c d && files_eqb a' b'
  | _, _ => false
  end.

Fixpoint strs_eqb (a b : list str) : bool :=
  match a, b with
  | [], [] => true
  | x :: a', y :: b' => str_eqb x y && strs_eqb a' b'
  | _, _ => false
  end.

(** The test that a call returned the paths [paths] and wrote the files
    [images] and [html]. *)
Definition outcome_is (r : outcome) (paths : list str)
    (images : list binary_file) (html : list text_file) : bool :=
  match returned r with
  | Ok l => strs_eqb l paths
  | Raise _ => false
  end
  && files_eqb (images_written r) images
  && files_eqb (html_written r) html.

End Splitter.

(** ** [__main__.py]: [process_single_file] *)

Module Main.

Import Dict Parser Splitter.

(** The command line as [parse_args] returns it, the input path apart. *)
Record Namespace := {
  output : str;
  split_size : Z;
  no_split : bool;
  no_images : bool;
  embed_images : bool;
  verbose : bool;
  debug : bool
}.

(** How a call ends: it returns [True] or [False], or it raises the
    [UnboundLocalError] of a local variable read on a path that has not
    assigned it.  [Not_followed] stands for a replacement template with a
    backslash, see [TemplateEscape]. *)
Inductive ending :=
| Returns (ok : bool)
| UnboundLocalError (variable : str)
| Not_followed.

(** What a call leaves behind: the image files and the HTML files
    written, in the order of writing, and the paths of the debug files. *)
Record run := {
  ended : ending;
  images_saved : list binary_file;
  html_saved : list text_file;
  debug_saved : list str
}.

(** The path that [save_debug_info] writes to. *)
Definition debug_path (output_dir filename : str) : str :=
  path_join output_dir (splitext_root filename ++ lit "_debug.json").

(** [process_single_file].  What is printed is left out, and with it
    [verbose], which only chooses what is printed.  Every exception
    raised inside the [try] makes the call return [False].  [images_dir]
    is assigned only where the images are extracted, and [output_path]
    only in the direct mode: [None] and the ending [UnboundLocalError]
    stand for their being read unassigned, the first inside the [try],
    the second after it. *)
Definition process_single_file (read_file : str -> str) (disk : str -> option N)
    (input_path : str) (args : Namespace) : run :=
  let content := read_file input_path in
  if no_split args then
    let parser := __init__ (Some content) (negb (no_images args)) in
    match parse parser with
    | (Some _, _) =>
        {| ended := Returns false; images_saved := []; html_saved := [];
           debug_saved := [] |}
    | (None, parser) =>
        let base_name := splitext_root (basename input_path) in
        let output_path := path_join (output args) (base_name ++ lit ".html") in
        let '(parser, images, images_dir) :=
          if negb (embed_images args) && negb (no_images args) then
            let images_dir := path_join (output args) (lit "images") in
            let '(parser, images) := extract_images parser images_dir in
            (parser, images, Some images_dir)
          else (parser, [], None) in
        match get_html parser (embed_images args) with
        | Raise (ValueError _) =>
            {| ended := Returns false; images_saved := images; html_saved := [];
               debug_saved := [] |}
        | Raise TemplateEscape =>
            {| ended := Not_followed; images_saved := images; html_saved := [];
               debug_saved := [] |}
        | Ok html_content =>
            if debug args then
              match images_dir with
              | None =>
                  {| ended := Returns false; images_saved := images;
                     html_saved := [(output_path, html_content)];
                     debug_saved := [] |}
              | Some images_dir =>
                  let '(_, again) := extract_images parser images_dir in
                  {| ended := Returns true; images_saved := images ++ again;
                     html_saved := [(output_path, html_content)];
                     debug_saved :=
                       [debug_path (output args) (basename input_path)] |}
              end
            else
              {| ended := Returns true; images_saved := images;
                 html_saved := [(output_path, html_content)];
                 debug_saved := [] |}
        end
    end
  else
    let splitter := {| max_size_mb := split_size args; missing_images := [] |} in
    let r := split_file read_file disk splitter input_path (output args) in
    {| ended :=
         match returned r with
         | Raise (ValueError _) => Returns false
         | Raise TemplateEscape => Not_followed
         | Ok _ =>
             if debug args then UnboundLocalError (lit "output_path")
             else Returns true
         end;
       images_saved := images_written r;
       html_saved := html_written r;
       debug_saved := [] |}.

(** The command line [--no-split -o out], with [--debug] or without. *)
Definition direct (with_debug : bool) : Namespace :=
  {| output := lit "out"; split_size := 40; no_split := true; no_images := false;
     embed_images := false; verbose := false; debug := with_debug |}.

(** The command line [--no-split --no-images --embed-images -o out]. *)
Definition text_only (with_debug : bool) : Namespace :=
  {| output := lit "out"; split_size := 40; no_split := true; no_images := true;
     embed_images := true; verbose := false; debug := with_debug |}.

(** The command line [-o out], with [--debug] or without. *)
Definition splitting (with_debug : bool) : Namespace :=
  {| output := lit "out"; split_size := 40; no_split := false; no_images := false;
     embed_images := false; verbose := false; debug := with_debug |}.

End Main.

(** ** The partition made by [_split_large_file] *)

Module SplitFacts.

Import Dict Parser Splitter.

Local Open Scope Z_scope.

Section Accounting.

Variable getsize : str -> option N.
Variable self : MHTMLSplitter.
Variables base_name output_dir : str.
Variable image_paths : dict str.

(** What a line adds to [current_size]. *)
Definition line_cost (line : str) : Z :=
  line_size line + _calculate_line_images_size getsize line image_paths.

(** The accounted size of the lines of a file. *)
Definition accounted (lines : list str) : Z :=
  fold_right (fun l total => line_cost l + total) 0 lines.

(** A file is within the limit, or is one line that is over it alone. *)
Definition fits (file_lines : list str) : Prop :=
  accounted file_lines <= limit self
  \/ exists l, file_lines = [l] /\ limit self < line_cost l.

(** Each file but the first starts with the line that did not fit into
    the file before it. *)
Inductive flushed_when_full : list (list str) -> Prop :=
| fwf_nil : flushed_when_full []
| fwf_one : forall f, flushed_when_full [f]
| fwf_cons : forall f l rest more,
    limit self < accounted f + line_cost l ->
    flushed_when_full ((l :: rest) :: more) ->
    flushed_when_full (f :: (l :: rest) :: more).

(** The buffers the loop saves, from the buffer [cur] on. *)
Fixpoint buffers (cur : list str) (lines : list str) : list (list str) :=
  match lines with
  | [] => match cur with [] => [] | _ :: _ => [cur] end
  | l :: r =>
      if limit self <? accounted cur + line_cost l
      then cur :: buffers [l] r
      else buffers (cur ++ [l]) r
  end.

(** The file that holds the lines [file_lines] as number [counter]. *)
Definition file_of (header : str) (counter : nat) (file_lines : list str)
  : text_file :=
  _save_html_file (part_path base_name output_dir counter)
    (_build_html_content header file_lines) image_paths.

Fixpoint files_from (header : str) (counter : nat) (bufs : list (list str))
  : list text_file :=
  match bufs with
  | [] => []
  | b :: r => file_of header counter b :: files_from header (S counter) r
  end.

(** The loop writes the files of [buffers]. *)
Definition finish (header : str) (st : split_state) : list str * list text_file :=
  match current_content st with
  | [] => (output_files st, written st)
  | _ :: _ => save_current base_name output_dir image_paths header st
  end.

End Accounting.

End SplitFacts.

(** Three lines, two of which name an image of 600000 bytes, under a
    limit of one megabyte. *)
Module SplitSample.

Import Dict Parser Splitter.

Definition sizes (p : str) : option N :=
  if str_eqb p (lit "a_0.png") || str_eqb p (lit "b_0.png")
  then Some 600000%N else None.
Definition registry : dict str :=
  [(lit "a", lit "a_0.png"); (lit "b", lit "b_0.png")].
Definition one_mb : MHTMLSplitter := {| max_size_mb := 1; missing_images := [] |}.
Definition html : str :=
  lit "<p>cid:a</p>" ++ [newline] ++ lit "<p>cid:b</p>" ++ [newline] ++ lit "<p>end</p>".

End SplitSample.

(** A document whose only part is an HTML part without content. *)
Module EmptyHtml.

Import Parser.

Definition doc : str :=
  Sample.lines
    [lit "Content-Type: multipart/related; boundary=B";
     lit "--B";
     lit "Content-Type: text/html";
     lit "";
     lit "--B--"].

Definition parsed : MHTMLParser := snd (parse (__init__ (Some doc) true)).

End EmptyHtml.

(** The document of [Sample] with the reference in single quotes. *)
Module SingleQuoted.

Import Parser.

Definition html : str :=
  lit "<html><body><img src='cid:img1'><img src='img1'></body></html>".

Definition doc : str :=
  Sample.lines
    [lit "Content-Type: multipart/related; boundary=AAA";
     lit "--AAA";
     lit "Content-Type: text/html";
     lit "";
     html;
     lit "--AAA";
     lit "Content-Type: image/png";
     lit "Content-Transfer-Encoding: base64";
     lit "Content-ID: <img1>";
     lit "";
     lit "iVBORw0K";
     lit "--AAA--"].

Definition parsed : MHTMLParser := snd (parse (__init__ (Some doc) true)).

End SingleQuoted.

(** An image named [i], and a content in which a reference to it
    follows the letters [cid:]. *)
Module ShortName.

Import Dict Parser Splitter.

Definition doc : str :=
  Sample.lines
    [lit "Content-Type: multipart/related; boundary=AAA";
     lit "--AAA";
     lit "Content-Type: image/png";
     lit "Content-Transfer-Encoding: base64";
     lit "Content-ID: <i>";
     lit "";
     lit "iVBORw0K";
     lit "--AAA--"].

Definition registry : dict str :=
  _image_paths
    (fst (extract_images (snd (parse (__init__ (Some doc) true))) (lit "out/images"))).

Definition content : str := lit "<a href=cid:cid:i>".

End ShortName.

(** A document with an HTML part under a transfer encoding that the
    parser does not know, a text part and an image whose base64 text is
    one character too long, and a sound image. *)
Module Mixed.

Import Dict Parser.

Definition html_part : list str :=
  [lit "Content-Type: text/html";
   lit "Content-Transfer-Encoding: x-unknown";
   lit "Content-Location: page.html";
   lit "";
   lit "<html><body>hello</body></html>"].

Definition text_part : list str :=
  [lit "Content-Type: text/plain";
   lit "Content-Transfer-Encoding: base64";
   lit "Content-Location: notes.txt";
   lit "";
   lit "SGVsbG8hX"].

Definition bad_image_part : list str :=
  [lit "Content-Type: image/png";
   lit "Content-Transfer-Encoding: base64";
   lit "Content-ID: <bad>";
   lit "";
   lit "iVBORw0KX"].

Definition good_image_part : list str :=
  [lit "Content-Type: image/png";
   lit "Content-Transfer-Encoding: base64";
   lit "Content-ID: <good>";
   lit "";
   lit "iVBORw0K"].

Definition doc : str :=
  Sample.lines
    ([lit "Content-Type: multipart/related; boundary=ZZZ"; lit "--ZZZ"]
     ++ html_part ++ [lit "--ZZZ"] ++ text_part ++ [lit "--ZZZ"]
     ++ bad_image_part ++ [lit "--ZZZ"] ++ good_image_part ++ [lit "--ZZZ--"]).

Definition parsed : MHTMLParser := snd (parse (__init__ (Some doc) true)).

Definition extracted : MHTMLParser * list binary_file :=
  extract_images parsed (lit "out/images").

End Mixed.

(** Inputs of [split_file] under a limit of one megabyte: a file that
    holds the document of [Sample], an empty file, and a file whose
    document has an image part and no HTML part. *)
Module Files.

Import Dict Parser Splitter.

Definition image_only : str :=
  Sample.lines
    [lit "Content-Type: multipart/related; boundary=AAA";
     lit "--AAA";
     lit "Content-Type: image/png";
     lit "Content-Transfer-Encoding: base64";
     lit "Content-ID: <img1>";
     lit "";
     lit "iVBORw0K";
     lit "--AAA--"].

Definition read_file (path : str) : str :=
  if str_eqb path (lit "in/page.mht") then Sample.doc
  else if str_eqb path (lit "in/image.mht") then image_only
  else lit "".

Definition no_files (path : str) : option N := None.

Definition one_mb : MHTMLSplitter := {| max_size_mb := 1; missing_images := [] |}.

End Files.

(** A document over one megabyte: an HTML part of a thousand lines that
    each show the image [pic], the image, of 1050 bytes, and a
    stylesheet that makes up most of the document.  The working
    directory holds no file. *)
Module Oversized.

Import Dict Parser Splitter SplitFacts.

Definition image_line : str :=
  lit "<img src=" ++ [dquote] ++ lit "cid:pic" ++ [dquote] ++ lit ">".

Definition html_lines : list str :=
  [lit "<html><body>"] ++ repeat image_line 1000 ++ [lit "</body></html>"].

Definition payload : str := concat (repeat (lit "AAAA") 350).

Definition stylesheet : str := repeat 97%N 1050000.

Definition doc : str :=
  Sample.lines
    ([lit "Content-Type: multipart/related; boundary=ZZZ";
      lit "--ZZZ";
      lit "Content-Type: text/html";
      lit ""]
     ++ html_lines
     ++ [lit "--ZZZ";
         lit "Content-Type: image/png";
         lit "Content-Transfer-Encoding: base64";
         lit "Content-ID: <pic>";
         lit "";
         payload;
         lit "--ZZZ";
         lit "Content-Type: text/css";
         lit "Content-Location: style.css";
         lit "";
         stylesheet;
         lit "--ZZZ--"]).

Definition read_file (path : str) : str := doc.

Definition empty_disk (path : str) : option N := None.

Definition one_mb : MHTMLSplitter := {| max_size_mb := 1; missing_images := [] |}.

(** What [extract_images] registers and writes for this document. *)
Definition registry : dict str := [(lit "pic", lit "pic_90b01bf3.png")].

Definition images : list binary_file :=
  [(lit "out/images/pic_90b01bf3.png", repeat 0%N 1050)].

(** The disk when the split runs. *)
Definition disk : str -> option N := disk_after empty_disk images.

(** The size of an extracted image, by its file name: the file is in
    the images directory. *)
Definition extracted_size (filename : str) : option N :=
  disk (path_join (lit "out/images") filename).

End Oversized.

(** * Properties *)

Import Dict Parser Splitter SplitFacts.

Local Open Scope Z_scope.

(** ** Samples of the library functions *)

Example split_eq : split (lit "=") (lit "a=b=") = [lit "a"; lit "b"; lit ""].
Proof. reflexivity. Qed.

Example split_two : split (lit "XX") (lit "aXXXb") = [lit "a"; lit "Xb"].
Proof. reflexivity. Qed.

Example replace_left : replace (lit "aa") (lit "b") (lit "aaa") = lit "ba".
Proof. reflexivity. Qed.

Example splitlines_crlf :
  splitlines [97; 13; 10; 98; 10; 10; 99; 13]%N = [lit "a"; lit "b"; lit ""; lit "c"].
Proof. reflexivity. Qed.

Example b64_hello : b64decode_bytes (lit "SGVsbG8=") = inr (lit "Hello").
Proof. reflexivity. Qed.

Example b64_skips : b64decode_bytes (lit "AA=x=") = inr [0; 12]%N.
Proof. reflexivity. Qed.

Example b64_one_char :
  b64decode_bytes (lit "AAAAA") = inl (InvalidLength 5).
Proof. reflexivity. Qed.

Example b64_no_padding : b64decode_bytes (lit "AAA") = inl IncorrectPadding.
Proof. reflexivity. Qed.

Example qp_sample :
  a2b_qp (lit "a=3Db=" ++ [10] ++ lit "c=" ++ [13; 10] ++ lit "d=4g==")%N
  = lit "a=bcd=4g=".
Proof. reflexivity. Qed.

Example utf8_ignore_sample :
  utf8_decode_ignore [97; 228; 184; 98; 228; 184; 173; 237; 160; 128]%N
  = [97; 98; 20013]%N.
Proof. reflexivity. Qed.

Example md5_empty : MD5.hexdigest [] = lit "d41d8cd98f00b204e9800998ecf8427e".
Proof. vm_compute. reflexivity. Qed.

Example md5_abc : MD5.hexdigest (lit "abc") = lit "900150983cd24fb0d6963f7d28e17f72".
Proof. vm_compute. reflexivity. Qed.

Example md5_two_blocks :
  MD5.hexdigest
    (lit "12345678901234567890123456789012345678901234567890123456789012345678901234567890")
  = lit "57edf4a22be3c955ac49da2e2107b67a".
Proof. vm_compute. reflexivity. Qed.

Example splitext_samples :
  map splitext_root [lit "a.b.c"; lit ".hid"; lit "..."; lit "a."; lit "..a.b"; lit "x/.a"]
  = [lit "a.b"; lit ".hid"; lit "..."; lit "a"; lit "..a"; lit "x/.a"].
Proof. reflexivity. Qed.

Example join_samples :
  map (fun '(a, b) => path_join a b)
    [(lit "images", lit "x"); (lit "", lit "x"); (lit "a/", lit "x"); (lit "a", lit "/x")]
  = [lit "images/x"; lit "x"; lit "a/x"; lit "/x"].
Proof. reflexivity. Qed.

(** ** A document of two parts *)

Example sample_dataset :
  Parser.dataset Sample.parsed
  = [(lit "text/html", lit "",
      lit "<html><body><img src=" ++ [dquote] ++ lit "cid:img1" ++ [dquote]
      ++ lit "></body></html>");
     (lit "image/png", lit "img1", lit "iVBORw0K")].
Proof. vm_compute. reflexivity. Qed.

Example sample_embedded :
  Parser.get_html Sample.parsed true
  = Ok (lit "<html><body><img src=" ++ [dquote]
        ++ lit "data:image/png;base64,iVBORw0K" ++ [dquote]
        ++ lit "></body></html>").
Proof. vm_compute. reflexivity. Qed.

(** ** The partition made by [_split_large_file] *)

Section AccountingFacts.

Variable getsize : str -> option N.
Variable self : MHTMLSplitter.
Variables base_name output_dir : str.
Variable image_paths : dict str.

Local Abbreviation line_cost := (line_cost getsize image_paths).
Local Abbreviation accounted := (accounted getsize image_paths).
Local Abbreviation fits := (fits getsize self image_paths).
Local Abbreviation flushed_when_full := (flushed_when_full getsize self image_paths).
Local Abbreviation buffers := (buffers getsize self image_paths).
Local Abbreviation files_from := (files_from base_name output_dir image_paths).
Local Abbreviation finish := (finish base_name output_dir image_paths).

Lemma images_size_from (line : str) (paths : dict str) (acc : Z) :
  acc <= fold_left
           (fun total '(img_name, img_path) =>
              if contains img_name line then
                match getsize img_path with
                | Some n => total + Z.of_N n
                | None => total
                end
              else total) paths acc.
Proof.
  revert acc; induction paths as [|[name path] paths IH]; intros acc; simpl.
  - lia.
  - destruct (contains name line); [|apply IH].
    destruct (getsize path) as [n|]; [|apply IH].
    specialize (IH (acc + Z.of_N n)). lia.
Qed.

Lemma line_cost_nonneg (line : str) : 0 <= line_cost line.
Proof.
  unfold line_cost, line_size, _calculate_line_images_size.
  pose proof (images_size_from line image_paths 0). lia.
Qed.

Lemma accounted_nonneg (ls : list str) : 0 <= accounted ls.
Proof.
  induction ls as [|l ls IH]; simpl; [lia|].
  pose proof (line_cost_nonneg l). lia.
Qed.

Lemma accounted_app (a b : list str) :
  accounted (a ++ b) = accounted a + accounted b.
Proof.
  induction a as [|l a IH]; simpl; [reflexivity|]. rewrite IH. lia.
Qed.

Lemma accounted_member (l : str) (ls : list str) :
  In l ls -> line_cost l <= accounted ls.
Proof.
  induction ls as [|x ls IH]; simpl; [tauto|].
  intros [->|Hin].
  - pose proof (accounted_nonneg ls). lia.
  - specialize (IH Hin). pose proof (line_cost_nonneg x). lia.
Qed.

Lemma buffers_concat (lines cur : list str) :
  concat (buffers cur lines) = cur ++ lines.
Proof.
  revert cur; induction lines as [|l r IH]; intros cur; simpl.
  - destruct cur; simpl; [reflexivity|]. now rewrite !app_nil_r.
  - destruct (limit self <? accounted cur + line_cost l); simpl.
    + now rewrite IH.
    + rewrite IH, <- app_assoc. reflexivity.
Qed.

Lemma buffers_fit (lines cur : list str) :
  fits cur -> Forall fits (buffers cur lines).
Proof.
  revert cur; induction lines as [|l r IH]; intros cur Hcur; simpl.
  - destruct cur; constructor; auto.
  - destruct (limit self <? accounted cur + line_cost l) eqn:E.
    + constructor; [assumption|]. apply IH.
      destruct (Z_le_gt_dec (line_cost l) (limit self)) as [Hle|Hgt].
      * left. simpl. lia.
      * right. exists l. split; [reflexivity|lia].
    + apply IH. left. rewrite accounted_app. simpl.
      apply Z.ltb_ge in E. lia.
Qed.

Lemma buffers_head (lines cur : list str) :
  cur <> [] -> exists more rest, buffers cur lines = (cur ++ more) :: rest.
Proof.
  revert cur; induction lines as [|l r IH]; intros cur Hne; simpl.
  - destruct cur; [congruence|]. exists [], []. now rewrite app_nil_r.
  - destruct (limit self <? accounted cur + line_cost l).
    + exists [], (buffers [l] r). now rewrite app_nil_r.
    + destruct (IH (cur ++ [l])) as (more & rest & E).
      { destruct cur; discriminate. }
      exists (l :: more), rest. rewrite E, <- app_assoc. reflexivity.
Qed.

Lemma buffers_flushed_when_full (lines cur : list str) :
  flushed_when_full (buffers cur lines).
Proof.
  revert cur; induction lines as [|l r IH]; intros cur; simpl.
  - destruct cur; constructor.
  - destruct (limit self <? accounted cur + line_cost l) eqn:E; [|apply IH].
    destruct (buffers_head r (cur := [l])) as (more & rest & Eb); [discriminate|].
    specialize (IH [l]). rewrite Eb in *. simpl.
    constructor; [|exact IH]. now apply Z.ltb_lt.
Qed.

Lemma loop_writes_buffers (header : str) (lines : list str) (st : split_state) :
  current_size st = accounted (current_content st) ->
  output_files st = map fst (written st) ->
  let files :=
    written st
    ++ files_from header (file_counter st) (buffers (current_content st) lines) in
  finish header
    (fold_left (split_line getsize self base_name output_dir image_paths header)
       lines st)
  = (map fst files, files).
Proof.
  revert st; induction lines as [|l r IH]; intros st Hsize Hfiles; simpl.
  - unfold finish, save_current. destruct (current_content st) eqn:Ec; simpl.
    + now rewrite app_nil_r, Hfiles.
    + rewrite map_app, Hfiles. reflexivity.
  - unfold split_line at 2. rewrite Hsize.
    replace (accounted (current_content st) + line_size l
             + _calculate_line_images_size getsize l image_paths)
      with (accounted (current_content st) + line_cost l)
      by (unfold line_cost; lia).
    destruct (limit self <? accounted (current_content st) + line_cost l) eqn:E.
    + simpl. rewrite IH; simpl.
      * rewrite <- app_assoc. reflexivity.
      * unfold line_cost. lia.
      * rewrite map_app, Hfiles. reflexivity.
    + rewrite IH; simpl.
      * reflexivity.
      * rewrite accounted_app. simpl. unfold line_cost. lia.
      * assumption.
Qed.

End AccountingFacts.

Example split_sample_files :
  _split_large_file SplitSample.sizes SplitSample.one_mb (lit "doc") (lit "out")
    SplitSample.registry SplitSample.html
  = ([lit "out/doc_1.html"; lit "out/doc_2.html"],
     [(lit "out/doc_1.html",
       lit "<html><body>" ++ [newline] ++ lit "<p>images/a_0.png</p>"
       ++ [newline] ++ lit "</body></html>");
      (lit "out/doc_2.html",
       lit "<html><body>" ++ [newline] ++ lit "<p>images/b_0.png</p><p>end</p>"
       ++ [newline] ++ lit "</body></html>")]).
Proof. vm_compute. reflexivity. Qed.


(** ** [parse] *)

Lemma close_part_dataset (self : MHTMLParser) (cur : list str) (inc : bool) :
  dataset (close_part self cur inc) = dataset self ++ kept_part cur inc.
Proof.
  unfold close_part, kept_part, _process_part.
  destruct cur as [|l cur]; [now rewrite app_nil_r|].
  destruct inc; [|now rewrite app_nil_r].
  destruct (part_of (l :: cur)) as [[ctype name] content].
  destruct (startswith (lit "image/") (Parser.content_type (scan (l :: cur))));
    destruct (negb (is_empty ctype) || negb (is_empty name));
    simpl; now rewrite ?app_nil_r.
Qed.

Lemma close_part_same_input (self : MHTMLParser) (cur : list str) (inc : bool) :
  same_input (close_part self cur inc) self.
Proof.
  unfold close_part, _process_part, same_input.
  destruct cur as [|l cur]; [tauto|].
  destruct inc; [|tauto].
  destruct (part_of (l :: cur)) as [[ctype name] content].
  destruct (startswith (lit "image/") (Parser.content_type (scan (l :: cur))));
    destruct (negb (is_empty ctype) || negb (is_empty name));
    simpl; tauto.
Qed.

Lemma parse_loop_appends (b : str) (lines : list str) :
  forall (self : MHTMLParser) (cur : list str) (inc : bool),
    dataset (parse_loop b lines (self, cur, inc))
    = dataset self ++ recognized_from b cur inc lines
    /\ same_input (parse_loop b lines (self, cur, inc)) self.
Proof.
  unfold parse_loop.
  induction lines as [|line r IH]; intros self cur inc; simpl.
  - split; [apply close_part_dataset|apply close_part_same_input].
  - destruct (contains b line).
    + destruct (IH (close_part self cur inc) [] true) as [Hd Hs].
      rewrite Hd, close_part_dataset, <- app_assoc. split; [reflexivity|].
      pose proof (close_part_same_input self cur inc) as Hc.
      unfold same_input in *.
      repeat split; (etransitivity; [apply Hs|apply Hc]).
    + destruct inc; apply IH.
Qed.

Lemma parse_success (self : MHTMLParser) (content b : str) :
  mhtml_content self = Some content -> content <> [] ->
  _find_boundary (splitlines content) = Some b -> b <> [] ->
  parse self
  = (None, parse_loop b (splitlines content) (with_boundary self (Some b), [], false)).
Proof.
  intros Hc Hne Hb Hbne. unfold parse, parse_loop. rewrite Hc.
  destruct content as [|c content]; [congruence|]. simpl is_empty. cbv iota.
  cbv zeta. simpl boundary. rewrite Hb.
  destruct b as [|x b]; [congruence|]. simpl is_empty. cbv iota.
  destruct (fold_left _ _ _) as [[s cur] inc]. reflexivity.
Qed.

Lemma parse_success_inv (self : MHTMLParser) :
  fst (parse self) = None ->
  exists content b,
    mhtml_content self = Some content /\ content <> []
    /\ _find_boundary (splitlines content) = Some b /\ b <> [].
Proof.
  unfold parse. destruct (mhtml_content self) as [content|]; [|discriminate].
  destruct content as [|c content]; [discriminate|]. simpl is_empty. cbv iota zeta.
  simpl boundary.
  destruct (_find_boundary (splitlines (c :: content))) as [b|] eqn:Hb;
    [|discriminate].
  destruct b as [|x b]; [discriminate|]. intros _.
  exists (c :: content), (x :: b). repeat split; congruence.
Qed.

Lemma recognized_found (content b : str) :
  _find_boundary (splitlines content) = Some b ->
  recognized content = recognized_from b [] false (splitlines content).
Proof. intros H. unfold recognized. now rewrite H. Qed.

(** C10. [parse] never empties the dataset: the parts it recognizes go
    after those already stored, so a second call on the same content
    stores every recognized part a second time, the second run of them
    after the first. *)
Theorem parse_twice_appends_twice (self : MHTMLParser) :
  fst (parse self) = None ->
  exists content,
    mhtml_content self = Some content
    /\ dataset (snd (parse self)) = dataset self ++ recognized content
    /\ fst (parse (snd (parse self))) = None
    /\ dataset (snd (parse (snd (parse self))))
       = dataset self ++ recognized content ++ recognized content.
Proof.
  intros Hok.
  destruct (parse_success_inv self Hok) as (content & b & Hc & Hne & Hb & Hbne).
  exists content. split; [exact Hc|].
  rewrite (parse_success self Hc Hne Hb Hbne). simpl snd.
  set (self1 := parse_loop b (splitlines content) (with_boundary self (Some b), [], false)).
  destruct (parse_loop_appends b (splitlines content) (with_boundary self (Some b)) [] false)
    as [Hd1 (Hm1 & _)].
  fold self1 in Hd1, Hm1. simpl in Hd1, Hm1.
  assert (Hc1 : mhtml_content self1 = Some content) by congruence.
  rewrite (parse_success self1 Hc1 Hne Hb Hbne). simpl.
  destruct (parse_loop_appends b (splitlines content) (with_boundary self1 (Some b)) [] false)
    as [Hd2 _].
  simpl in Hd2. rewrite Hd2, Hd1, (recognized_found content Hb), <- app_assoc.
  repeat split; reflexivity.
Qed.

Lemma parse_twice_appends_twice_witness :
  exists content,
    mhtml_content (__init__ (Some Sample.doc) true) = Some content
    /\ dataset (snd (parse (__init__ (Some Sample.doc) true)))
       = [] ++ recognized content
    /\ fst (parse (snd (parse (__init__ (Some Sample.doc) true)))) = None
    /\ dataset (snd (parse (snd (parse (__init__ (Some Sample.doc) true)))))
       = [] ++ recognized content ++ recognized content.
Proof.
  apply (parse_twice_appends_twice (__init__ (Some Sample.doc) true)).
  vm_compute. reflexivity.
Defined.

Example sample_parsed_twice :
  map fst (dataset (snd (parse Sample.parsed)))
  = [(lit "text/html", lit ""); (lit "image/png", lit "img1");
     (lit "text/html", lit ""); (lit "image/png", lit "img1")].
Proof. vm_compute. reflexivity. Qed.

(** C5. When no boundary value is found in any line (or only an empty
    one), [parse] raises its [ValueError] and appends no part: the dataset
    is as it was, empty for a new parser. *)
Theorem parse_without_boundary (self : MHTMLParser) (content : str) :
  mhtml_content self = Some content ->
  (forall b, _find_boundary (splitlines content) = Some b -> b = []) ->
  fst (parse self)
  = Some (ValueError (if is_empty content then no_content_msg else no_boundary_msg))
  /\ dataset (snd (parse self)) = dataset self
  /\ dataset (snd (parse (__init__ (Some content) (decode_images self)))) = [].
Proof.
  intros Hc Hnone.
  assert (Hgen : forall p, mhtml_content p = Some content ->
            fst (parse p)
            = Some (ValueError
                      (if is_empty content then no_content_msg else no_boundary_msg))
            /\ dataset (snd (parse p)) = dataset p).
  { intros p Hp. unfold parse. rewrite Hp.
    destruct content as [|c content]; [split; reflexivity|].
    simpl is_empty. cbv iota zeta. simpl boundary.
    destruct (_find_boundary (splitlines (c :: content))) as [b|] eqn:Hb.
    - rewrite (Hnone b eq_refl). split; reflexivity.
    - split; reflexivity. }
  destruct (Hgen self Hc) as [H1 H2].
  destruct (Hgen (__init__ (Some content) (decode_images self)) eq_refl) as [_ H3].
  repeat split; assumption.
Qed.

Lemma parse_without_boundary_witness :
  fst (parse (__init__ (Some (lit "Content-Type: text/html")) true))
  = Some (ValueError no_boundary_msg)
  /\ dataset (snd (parse (__init__ (Some (lit "Content-Type: text/html")) true))) = []
  /\ dataset (snd (parse (__init__ (Some (lit "Content-Type: text/html")) true))) = [].
Proof.
  apply (parse_without_boundary (__init__ (Some (lit "Content-Type: text/html")) true)
           (content := lit "Content-Type: text/html")).
  - reflexivity.
  - vm_compute. discriminate.
Defined.

(** ** [get_html] *)

Lemma str_eqb_eq (a b : str) : str_eqb a b = true <-> a = b.
Proof.
  revert b; induction a as [|x a IH]; intros [|y b]; simpl;
    try (split; [discriminate|congruence]); try tauto.
  rewrite andb_true_iff, N.eqb_eq, IH. split.
  - intros [-> ->]. reflexivity.
  - intros H; injection H; auto.
Qed.

Lemma str_eqb_refl (a : str) : str_eqb a a = true.
Proof. now apply str_eqb_eq. Qed.

Lemma is_empty_true (s : str) : is_empty s = true <-> s = [].
Proof. destruct s; simpl; split; congruence. Qed.

Lemma first_html_find (d : list part) :
  first_html d
  = match List.find is_html_part d with
    | Some (_, _, content) => content
    | None => []
    end.
Proof.
  induction d as [|[[ctype name] content] d IH]; simpl; [reflexivity|].
  destruct (str_eqb ctype (lit "text/html")); [reflexivity|exact IH].
Qed.

Lemma sub_no_value_error (pat : list Re.atom) (repl : str) (r : result str) :
  no_value_error r -> no_value_error (bind r (Re.sub pat repl)).
Proof.
  destruct r as [h|e]; simpl; [|tauto]. intros _. unfold Re.sub.
  destruct (mem_char backslash repl); exact I.
Qed.

Lemma sub_all_no_value_error (pats : list (list Re.atom)) (repl : str)
    (r : result str) :
  no_value_error r ->
  no_value_error (fold_left (fun h pat => bind h (Re.sub pat repl)) pats r).
Proof.
  revert r; induction pats as [|pat pats IH]; intros r Hr; simpl; [exact Hr|].
  apply IH, sub_no_value_error, Hr.
Qed.

Lemma bind_sub_all_no_value_error (pats : list (list Re.atom)) (repl : str)
    (r : result str) :
  no_value_error r -> no_value_error (bind r (sub_all pats repl)).
Proof.
  destruct r as [h|e]; simpl; [|tauto]. intros _.
  apply sub_all_no_value_error. exact I.
Qed.

Lemma fix_html_paths_no_value_error (self : MHTMLParser) (html : str) :
  no_value_error (_fix_html_paths self html).
Proof.
  unfold _fix_html_paths.
  assert (H : no_value_error (Ok html)) by exact I.
  revert H. generalize (Ok html). generalize (_image_paths self).
  induction d as [|[name filename] d IH]; intros r Hr; simpl; [exact Hr|].
  apply IH, bind_sub_all_no_value_error, Hr.
Qed.

Lemma embed_no_value_error (decode : bool) (m : dict (str * str)) (r : result str) :
  no_value_error r -> no_value_error (fold_left (embed_image decode) m r).
Proof.
  revert r; induction m as [|[name [ctype content]] m IH]; intros r Hr; simpl;
    [exact Hr|].
  apply IH. destruct decode; [|exact Hr].
  apply bind_sub_all_no_value_error, Hr.
Qed.

(** C4, as the code has it. [get_html] raises its [ValueError] exactly when
    the dataset has no part of type [text/html] or the first such part
    has an empty content, in both modes; otherwise the result is built
    from the content of the first part of type [text/html]: the paths
    fixed in it, or the images embedded in it. *)
Theorem get_html_no_html_content (self : MHTMLParser) :
  (forall embedded : bool,
     get_html self embedded = Raise (ValueError no_html_msg)
     <-> match List.find is_html_part (dataset self) with
         | None => True
         | Some (_, _, content) => content = []
         end)
  /\ (forall ctype name content,
        List.find is_html_part (dataset self) = Some (ctype, name, content) ->
        content <> [] ->
        get_html self false = _fix_html_paths self content
        /\ get_html self true
           = fold_left (embed_image (decode_images self))
               (image_map (dataset self)) (Ok content)).
Proof.
  split.
  - intros embedded. unfold get_html. rewrite first_html_find.
    destruct (List.find is_html_part (dataset self)) as [[[ctype name] content]|].
    + destruct content as [|c content]; simpl is_empty; cbv iota.
      * tauto.
      * split; [|discriminate]. destruct embedded; intros H; exfalso.
        -- pose proof (embed_no_value_error (decode_images self)
                         (image_map (dataset self)) (@Ok str (c :: content)) I) as Hn.
           rewrite H in Hn. exact Hn.
        -- pose proof (fix_html_paths_no_value_error self (c :: content)) as Hn.
           rewrite H in Hn. exact Hn.
    + simpl. tauto.
  - intros ctype name content Hfind Hne. unfold get_html.
    rewrite first_html_find, Hfind.
    destruct content as [|c content]; [congruence|]. split; reflexivity.
Qed.

(** The claim C4 fails on a part of type [text/html] that is empty:
    the part is in the dataset and [get_html] raises all the same. *)
Lemma get_html_empty_html_part :
  In (lit "text/html", lit "", lit "") (dataset EmptyHtml.parsed)
  /\ get_html EmptyHtml.parsed true = Raise (ValueError no_html_msg)
  /\ get_html EmptyHtml.parsed false = Raise (ValueError no_html_msg).
Proof. vm_compute. repeat split. left. reflexivity. Qed.

(** ** [_process_part] *)

Lemma process_line_content (v : locals) (l : str) :
  header_done v = true ->
  header_done (process_line v l) = true
  /\ content_lines (process_line v l) = content_lines v ++ [strip l]
  /\ Parser.content_type (process_line v l) = Parser.content_type v
  /\ content_encoding (process_line v l) = content_encoding v.
Proof. intros H. unfold process_line. rewrite H. simpl. tauto. Qed.

Lemma scan_content (body : list str) (v : locals) :
  header_done v = true ->
  content_lines (fold_left process_line body v) = content_lines v ++ map strip body
  /\ Parser.content_type (fold_left process_line body v) = Parser.content_type v
  /\ content_encoding (fold_left process_line body v) = content_encoding v.
Proof.
  revert v; induction body as [|l body IH]; intros v Hv; simpl.
  - now rewrite app_nil_r.
  - destruct (process_line_content v l Hv) as (Hd & Hc & Ht & He).
    destruct (IH _ Hd) as (IHc & IHt & IHe).
    rewrite IHc, IHt, IHe, Hc, Ht, He, <- app_assoc. tauto.
Qed.

Lemma process_line_header (v : locals) (l : str) :
  header_done v = false -> strip l <> [] ->
  header_done (process_line v l) = false
  /\ content_lines (process_line v l) = content_lines v.
Proof.
  intros H Hl. unfold process_line. rewrite H.
  destruct (strip l) as [|c s] eqn:E; [congruence|]. simpl is_empty. cbv iota.
  repeat match goal with
         | |- context [if ?b then _ else _] => destruct b
         | |- context [match ?o with Some _ => _ | None => _ end] => destruct o
         end; simpl; auto.
Qed.

(** The split of a part: the lines up to the first blank one are
    headers, the lines after it, stripped, are the content. *)
Lemma scan_splits_at_blank_line (headers : list str) (blank : str) (body : list str) :
  Forall (fun l => strip l <> []) headers -> strip blank = [] ->
  content_lines (scan (headers ++ blank :: body)) = map strip body.
Proof.
  intros Hh Hb. unfold scan. rewrite fold_left_app. simpl.
  assert (Hinv : header_done (fold_left process_line headers locals0) = false
                 /\ content_lines (fold_left process_line headers locals0) = []).
  { assert (H0 : header_done locals0 = false /\ content_lines locals0 = [])
      by (split; reflexivity).
    revert H0. generalize locals0.
    induction Hh as [|l hs Hl Hhs IH]; intros v [Hd Hc]; simpl; [tauto|].
    apply IH. destruct (process_line_header v l Hd Hl) as [Hd' Hc'].
    split; congruence. }
  destruct Hinv as [Hd Hc].
  set (v := fold_left process_line headers locals0) in *.
  assert (Hv : header_done (process_line v blank) = true
               /\ content_lines (process_line v blank) = []).
  { unfold process_line. rewrite Hd, Hb. simpl. auto. }
  destruct Hv as [Hd' Hc'].
  destruct (scan_content body _ Hd') as [H _]. rewrite H, Hc'. reflexivity.
Qed.


Example base64_text_part :
  part_of [lit "Content-Type: text/plain"; lit "Content-Transfer-Encoding: BASE64";
           lit "Content-Location: a.txt"; lit ""; lit "SGVs"; lit "bG8="]
  = (lit "text/plain", lit "a.txt", lit "Hello").
Proof. vm_compute. reflexivity. Qed.

Example base64_image_part :
  part_of [lit "Content-Type: image/gif"; lit "Content-Transfer-Encoding: base64";
           lit "Content-ID: <pic>"; lit ""; lit "R0lG"; lit "ODlh"]
  = (lit "image/gif", lit "pic", lit "R0lG" ++ [newline] ++ lit "ODlh").
Proof. vm_compute. reflexivity. Qed.

Example quoted_printable_part :
  part_of [lit "Content-Type: text/html"; lit "Content-Transfer-Encoding: quoted-printable";
           lit ""; lit "<p class=3Dx>caf=C3=A9</p>"]
  = (lit "text/html", lit "", lit "<p class=x>caf" ++ [233%N] ++ lit "</p>").
Proof. vm_compute. reflexivity. Qed.

Example seven_bit_part :
  part_of [lit "Content-Type: text/html"; lit "Content-Transfer-Encoding: 7bit";
           lit ""; lit "<p>=3D</p>"]
  = (lit "text/html", lit "", lit "<p>=3D</p>").
Proof. vm_compute. reflexivity. Qed.

(** ** [_generate_image_filename] *)

Lemma le_bytes_length (n : nat) (x : N) : length (MD5.le_bytes n x) = n.
Proof. revert x; induction n as [|n IH]; intros x; simpl; [reflexivity|]. now rewrite IH. Qed.

Lemma hexdigest_length (msg : list N) : length (MD5.hexdigest msg) = 32%nat.
Proof.
  unfold MD5.hexdigest, MD5.digest.
  set (r := MD5.blocks _ _ _).
  assert (H : forall bs : list N, length (flat_map MD5.hex_byte bs) = (2 * length bs)%nat).
  { induction bs as [|b bs IH]; simpl; [reflexivity|]. rewrite IH. lia. }
  rewrite H, !length_app, !le_bytes_length. reflexivity.
Qed.

Lemma content_hash_length (content : str) : length (content_hash content) = 8%nat.
Proof.
  unfold content_hash. rewrite length_firstn, hexdigest_length. reflexivity.
Qed.

Lemma app_same_length_inv (a b c d : str) :
  length a = length b -> a ++ c = b ++ d -> a = b.
Proof.
  intros Hl H. apply (f_equal (firstn (length a))) in H.
  rewrite firstn_app, Nat.sub_diag, firstn_all, firstn_O, app_nil_r in H.
  rewrite Hl, firstn_app, Nat.sub_diag, firstn_all, firstn_O, app_nil_r in H.
  exact H.
Qed.

(** C6, as the code has it. The file name is a function of the name, the
    stored content and the content type: for two image parts of the same
    name, the same content and the same extension give the same file
    name, and contents whose hashes (the first eight hexadecimal digits
    of the MD5 digest) differ give different file names. *)
Theorem image_filename_by_hash (name c1 c2 t1 t2 : str) :
  (c1 = c2 -> _get_image_extension t1 = _get_image_extension t2 ->
   _generate_image_filename name c1 t1 = _generate_image_filename name c2 t2)
  /\ (content_hash c1 <> content_hash c2 ->
      _generate_image_filename name c1 t1 <> _generate_image_filename name c2 t2).
Proof.
  unfold _generate_image_filename. split.
  - intros -> ->. reflexivity.
  - intros Hh Heq. apply Hh.
    apply app_inv_head in Heq. apply app_inv_head in Heq.
    apply (app_same_length_inv _ _ _ _) in Heq; [exact Heq|].
    now rewrite !content_hash_length.
Qed.

(** The claim C6 fails on two payloads whose MD5 digests start with the
    same eight digits, [807ac151]: different stored bytes, one file name.
    It fails too on one payload under two content types: identical
    stored bytes, two file names. *)
Lemma image_filename_collision :
  lit "AAi3" <> lit "AMHR"
  /\ _generate_image_filename (lit "img1") (lit "AAi3") (lit "image/png")
     = lit "img1_807ac151.png"
  /\ _generate_image_filename (lit "img1") (lit "AMHR") (lit "image/png")
     = lit "img1_807ac151.png"
  /\ _generate_image_filename (lit "img1") (lit "AAi3") (lit "image/png")
     <> _generate_image_filename (lit "img1") (lit "AAi3") (lit "image/gif").
Proof.
  vm_compute. repeat split; try discriminate.
Qed.

Example image_filename_samples :
  map (fun n => _generate_image_filename n (lit "") (lit "image/jpeg"))
    [lit "http://host/a/pic.old.jpeg"; lit "{1234}.dat"; lit "photo"]
  = [lit "http___host_a_pic.old_d41d8cd9.jpg"; lit "{1234}_d41d8cd9.jpg";
     lit "photo_d41d8cd9.jpg"].
Proof. vm_compute. reflexivity. Qed.

(** ** [re.sub] with a literal pattern *)

Lemma sub_from_skip (pat : list Re.atom) (repl : str) (k : nat) (s : str) :
  Re.sub_from pat repl k s = Re.sub_from pat repl 0 (skipn k s).
Proof.
  revert k; induction s as [|c s IH]; intros [|k]; try reflexivity.
  simpl skipn. rewrite <- IH. reflexivity.
Qed.

(** Without a match nothing is replaced. *)
Lemma sub_from_no_match (pat : list Re.atom) (repl : str) (s : str) :
  (forall k, Re.matches_at pat (skipn k s) = false) ->
  Re.sub_from pat repl 0 s = s.
Proof.
  induction s as [|c s IH]; intros H; [reflexivity|].
  pose proof (H 0%nat) as H0. simpl in H0. simpl. rewrite H0. f_equal. apply IH.
  intros k. exact (H (S k)).
Qed.

(** The first match is replaced, and the search goes on after it. *)
Lemma sub_from_first_match (pat : list Re.atom) (repl pre m post : str) :
  pat <> [] -> length m = length pat ->
  Re.matches_at pat (m ++ post) = true ->
  (forall k, (k < length pre)%nat ->
             Re.matches_at pat (skipn k (pre ++ m ++ post)) = false) ->
  Re.sub_from pat repl 0 (pre ++ m ++ post)
  = pre ++ repl ++ Re.sub_from pat repl 0 post.
Proof.
  intros Hpat Hlen Hm. induction pre as [|c pre IH]; intros Hpre.
  - simpl app. destruct m as [|x m].
    + destruct pat; [congruence|discriminate].
    + simpl. simpl in Hm. rewrite Hm. f_equal.
      rewrite sub_from_skip. f_equal.
      simpl in Hlen. rewrite <- Hlen. simpl. rewrite Nat.sub_0_r.
      rewrite skipn_app, skipn_all, Nat.sub_diag. reflexivity.
  - simpl. pose proof (Hpre 0%nat) as H0. simpl in H0. rewrite H0 by lia.
    f_equal. apply IH. intros k Hk. apply (Hpre (S k)). simpl. lia.
Qed.

Lemma mem_char_app (c : N) (a b : str) :
  mem_char c (a ++ b) = mem_char c a || mem_char c b.
Proof. apply existsb_app. Qed.

Lemma embed_image_literal (ctype content name : str) (h : str) :
  mem_char backslash ctype = false -> mem_char backslash content = false ->
  embed_image true (Ok h) (name, (ctype, content))
  = Ok (embedded_in h (name, (ctype, content))).
Proof.
  intros Ht Hc.
  assert (E : mem_char backslash (src_dq (data_uri ctype content)) = false).
  { unfold src_dq, data_uri. rewrite !mem_char_app, Ht, Hc. reflexivity. }
  unfold embed_image, embedded_in, sub_all, embed_patterns.
  cbn [fold_left bind]. unfold Re.sub. rewrite E. reflexivity.
Qed.




(** ** The rewrite of [_save_html_file] *)

Lemma replace_from_absent (old new s : str) :
  contains old s = false -> replace_from old new 0 s = s.
Proof.
  induction s as [|c s IH]; intros H; [reflexivity|].
  simpl in H. apply orb_false_iff in H. destruct H as [H1 H2].
  cbn [replace_from]. rewrite H1. f_equal. apply IH, H2.
Qed.

Lemma replace_absent (old new s : str) :
  contains old s = false -> replace old new s = s.
Proof.
  destruct old as [|x old]; intros H.
  - destruct s; discriminate.
  - apply replace_from_absent, H.
Qed.

Lemma rewrite_entry_absent (content : str) (entry : str * str) :
  mentions content entry = false -> rewrite_entry content entry = content.
Proof.
  destruct entry as [name path]. unfold mentions, rewrite_entry.
  intros H. apply orb_false_iff in H. destruct H as [H1 H2].
  rewrite (replace_absent _ _ _ H1). apply replace_absent, H2.
Qed.

Lemma rewrite_references_absent (image_paths : dict str) (content : str) :
  no_references image_paths content = true ->
  rewrite_references image_paths content = content.
Proof.
  unfold rewrite_references, no_references.
  induction image_paths as [|entry d IH]; intros H; [reflexivity|].
  simpl in H. apply andb_true_iff in H. destruct H as [H1 H2].
  apply negb_true_iff in H1. simpl.
  rewrite (rewrite_entry_absent _ _ H1). apply IH, H2.
Qed.




(** ** Failures of single parts *)

Example mixed_parse :
  fst (parse (__init__ (Some Mixed.doc) true)) = None
  /\ dataset Mixed.parsed
     = [(lit "text/html", lit "page.html", lit "<html><body>hello</body></html>");
        (lit "text/plain", lit "notes.txt", lit "SGVsbG8hX");
        (lit "image/png", lit "bad", lit "iVBORw0KX");
        (lit "image/png", lit "good", lit "iVBORw0K")].
Proof. vm_compute. split; reflexivity. Qed.

Example mixed_extract :
  _missing_images (fst Mixed.extracted)
  = [(lit "bad",
      lit "Failed to decode/save image: Invalid base64-encoded string: number of data characters (9) cannot be 1 more than a multiple of 4")]
  /\ _image_paths (fst Mixed.extracted) = [(lit "good", lit "good_9b90526b.png")]
  /\ snd Mixed.extracted
     = [(lit "out/images/good_9b90526b.png", [137; 80; 78; 71; 13; 10]%N)].
Proof. vm_compute. repeat split. Qed.

Lemma get_set_same {V} (k : str) (v : V) (d : dict V) :
  get k (set k v d) = Some v.
Proof.
  induction d as [|[k' v'] d IH]; simpl.
  - now rewrite str_eqb_refl.
  - destruct (str_eqb k' k) eqn:E; simpl; rewrite E; [reflexivity|exact IH].
Qed.

Lemma get_set_other {V} (k k2 : str) (v : V) (d : dict V) :
  str_eqb k2 k = false -> get k (set k2 v d) = get k d.
Proof.
  intros Hne. induction d as [|[k' v'] d IH]; simpl.
  - now rewrite Hne.
  - destruct (str_eqb k' k2) eqn:E; simpl.
    + apply str_eqb_eq in E. subst k'. now rewrite Hne.
    + destruct (str_eqb k' k); [reflexivity|exact IH].
Qed.

Section ExtractImages.

Variable output_dir : str.

Abbreviation step := (extract_image output_dir).

(** What a step of the loop of [extract_images] never undoes. *)
Lemma extract_image_keeps (name : str) (file : binary_file)
    (st : MHTMLParser * list binary_file) (p : part) :
  (logged name (fst st) -> logged name (fst (step st p)))
  /\ (registered name (fst st) -> registered name (fst (step st p)))
  /\ (In file (snd st) -> In file (snd (step st p))).
Proof.
  destruct st as [self written]. destruct p as [[ctype pname] content].
  unfold extract_image.
  destruct (negb (startswith (lit "image/") ctype) || is_empty pname);
    [tauto|].
  destruct (b64decode_str _) as [e|data]; simpl; repeat split; auto.
  - intros [e' He']. unfold logged. simpl.
    destruct (str_eqb pname name) eqn:E.
    + apply str_eqb_eq in E. subst pname. exists e. apply get_set_same.
    + exists e'. rewrite get_set_other; assumption.
  - intros [f Hf]. unfold registered. simpl.
    destruct (str_eqb pname name) eqn:E.
    + apply str_eqb_eq in E. subst pname. eexists. apply get_set_same.
    + exists f. rewrite get_set_other; assumption.
  - intros H. apply in_or_app. now left.
Qed.

Lemma extract_images_keep (name : str) (file : binary_file) (parts : list part) :
  forall st : MHTMLParser * list binary_file,
    (logged name (fst st) -> logged name (fst (fold_left step parts st)))
    /\ (registered name (fst st) -> registered name (fst (fold_left step parts st)))
    /\ (In file (snd st) -> In file (snd (fold_left step parts st))).
Proof.
  induction parts as [|p parts IH]; intros st; simpl; [tauto|].
  destruct (IH (step st p)) as (H1 & H2 & H3).
  destruct (extract_image_keeps name file st p) as (K1 & K2 & K3).
  repeat split; auto.
Qed.

(** What a step does with an image part that has a name. *)
Lemma extract_image_does (ctype name content : str)
    (st : MHTMLParser * list binary_file) :
  startswith (lit "image/") ctype = true -> name <> [] ->
  match b64decode_str (join [] (split_ws content)) with
  | inl _ => logged name (fst (step st (ctype, name, content)))
  | inr data =>
      registered name (fst (step st (ctype, name, content)))
      /\ In (path_join output_dir (_generate_image_filename name content ctype), data)
            (snd (step st (ctype, name, content)))
  end.
Proof.
  intros Himg Hname. destruct st as [self written]. unfold extract_image.
  rewrite Himg. destruct name as [|c name]; [congruence|]. simpl negb. simpl orb.
  cbv iota.
  destruct (b64decode_str _) as [e|data]; simpl.
  - exists e. apply get_set_same.
  - split; [eexists; apply get_set_same|].
    apply in_or_app. right. now left.
Qed.

Lemma extract_images_each (ctype name content : str) (parts : list part) :
  forall st : MHTMLParser * list binary_file,
    In (ctype, name, content) parts ->
    startswith (lit "image/") ctype = true -> name <> [] ->
    match b64decode_str (join [] (split_ws content)) with
    | inl _ => logged name (fst (fold_left step parts st))
    | inr data =>
        registered name (fst (fold_left step parts st))
        /\ In (path_join output_dir (_generate_image_filename name content ctype), data)
              (snd (fold_left step parts st))
    end.
Proof.
  induction parts as [|p parts IH]; intros st Hin Himg Hname; [destruct Hin|].
  destruct Hin as [->|Hin]; [|apply IH; assumption].
  simpl fold_left.
  pose proof (@extract_image_does ctype name content st Himg Hname) as Hdo.
  destruct (b64decode_str _) as [e|data].
  - exact (proj1 (extract_images_keep name (output_dir, []) parts _) Hdo).
  - destruct Hdo as [Hr Hf]. split.
    + exact (proj1 (proj2 (extract_images_keep name (output_dir, []) parts _)) Hr).
    + exact (proj2 (proj2 (extract_images_keep name _ parts _)) Hf).
Qed.

End ExtractImages.

Lemma parse_raises_only (self : MHTMLParser) (e : exn) :
  fst (parse self) = Some e ->
  e = ValueError no_content_msg \/ e = ValueError no_boundary_msg.
Proof.
  unfold parse. destruct (mhtml_content self) as [content|]; simpl;
    [|intros H; injection H; auto].
  destruct (is_empty content); simpl; [intros H; injection H; auto|].
  destruct (_find_boundary (splitlines content)) as [b|]; simpl;
    [|intros H; injection H; auto].
  destruct (is_empty b); simpl; [intros H; injection H; auto|].
  destruct (fold_left _ _ _) as [[s cur] inc]. discriminate.
Qed.

Lemma parse_keeps_log (self : MHTMLParser) :
  _missing_images (snd (parse self)) = _missing_images self
  /\ _image_paths (snd (parse self)) = _image_paths self.
Proof.
  unfold parse. destruct (mhtml_content self) as [content|]; simpl; [|tauto].
  destruct (is_empty content); simpl; [tauto|].
  destruct (_find_boundary (splitlines content)) as [b|] eqn:Hb; simpl; [|tauto].
  destruct (is_empty b); simpl; [tauto|].
  destruct (parse_loop_appends b (splitlines content)
              (with_boundary self (Some b)) [] false) as [_ (_ & _ & _ & Hm & Hp)].
  unfold parse_loop in Hm, Hp.
  destruct (fold_left _ _ _) as [[s cur] inc]. simpl in *. tauto.
Qed.

Lemma get_html_before_extraction (self : MHTMLParser) :
  _image_paths self = [] ->
  get_html self false
  = if is_empty (first_html (dataset self)) then Raise (ValueError no_html_msg)
    else Ok (first_html (dataset self)).
Proof.
  intros H. unfold get_html, _fix_html_paths. rewrite H. reflexivity.
Qed.

Lemma parse_new_no_paths (content : option str) (decode : bool) :
  _image_paths (snd (parse (__init__ content decode))) = [].
Proof. now destruct (parse_keeps_log (__init__ content decode)) as [_ ->]. Qed.

Lemma split_file_raises_only (read_file : str -> str) (getsize : str -> option N)
    (splitter : MHTMLSplitter) (input_path output_dir : str) (e : exn) :
  returned (split_file read_file getsize splitter input_path output_dir) = Raise e ->
  e = ValueError no_content_msg \/ e = ValueError no_boundary_msg
  \/ e = ValueError no_html_msg.
Proof.
  unfold split_file.
  pose proof (parse_raises_only (__init__ (Some (read_file input_path)) true)) as Hp.
  pose proof (parse_new_no_paths (Some (read_file input_path)) true) as Hn.
  destruct (parse _) as [[e'|] parser]; simpl in *.
  - intros H. injection H as <-. destruct (Hp e' eq_refl); auto.
  - rewrite (get_html_before_extraction parser Hn).
    destruct (is_empty (first_html (dataset parser))); simpl.
    + intros H. injection H as <-. auto.
    + destruct (extract_images parser _) as [parser' images].
      destruct (Z.of_nat _ <=? _); simpl; [discriminate|].
      destruct (_split_large_file _ _ _ _ _ _); simpl. discriminate.
Qed.



(** ** [split_file] *)

Lemma update_missing_images_limit (self : MHTMLSplitter) (missing : dict str)
    (file_name : str) :
  limit (_update_missing_images self missing file_name) = limit self.
Proof. destruct missing; reflexivity. Qed.



Example split_file_sample :
  html_written (split_file Files.read_file Files.no_files Files.one_mb
                  (lit "in/page.mht") (lit "out"))
  = [(lit "out/page.html",
      lit "<html><body><img src=" ++ [dquote] ++ lit "images/img1_9b90526b.png"
      ++ [dquote] ++ lit "></body></html>")]
  /\ images_written (split_file Files.read_file Files.no_files Files.one_mb
                       (lit "in/page.mht") (lit "out"))
     = [(lit "out/images/img1_9b90526b.png", [137; 80; 78; 71; 13; 10]%N)].
Proof. vm_compute. split; reflexivity. Qed.


(** ** The registered names and the written paths *)

Lemma reverse_rev (s : str) : reverse s = rev s.
Proof. unfold reverse. now rewrite rev_append_rev, app_nil_r. Qed.

Lemma forall_firstn (P : N -> Prop) (n : nat) (s : str) :
  Forall P s -> Forall P (firstn n s).
Proof.
  intros H. revert n. induction H as [|c r Hc Hr IH]; intros [|n]; simpl;
    constructor; auto.
Qed.

Lemma split_from_pieces (P : N -> Prop) (sep : str) (s : str) :
  forall (skip : nat) (cur : str),
    Forall P cur -> Forall P s -> Forall (Forall P) (split_from sep skip cur s).
Proof.
  induction s as [|c r IH]; intros skip cur Hcur Hs; simpl.
  - constructor; [|constructor]. rewrite reverse_rev. now apply Forall_rev.
  - inversion Hs as [|? ? Hc Hr]; subst.
    destruct skip as [|k]; [|now apply IH].
    destruct (startswith sep (c :: r)).
    + constructor; [rewrite reverse_rev; now apply Forall_rev|].
      apply IH; [constructor|assumption].
    + apply IH; [constructor|]; assumption.
Qed.

Lemma last_piece_of (P : N -> Prop) (pieces : list str) :
  Forall (Forall P) pieces -> Forall P (last_piece pieces).
Proof.
  unfold last_piece. induction 1 as [|p ps Hp Hps IH]; simpl; [constructor|].
  destruct ps; assumption.
Qed.

Lemma splitext_root_of (P : N -> Prop) (path : str) :
  Forall P path -> Forall P (splitext_root path).
Proof.
  intros H. unfold splitext_root.
  destruct (rfind_char dot path) as [d|]; [|exact H].
  destruct (Nat.leb _ d); [|exact H].
  destruct (existsb _ _); [|exact H].
  now apply forall_firstn.
Qed.

Lemma sanitize_bare (name : str) : bare (sanitize name).
Proof.
  unfold bare, sanitize. apply Forall_map, Forall_forall. intros c _.
  destruct (mem_char c unsafe_chars) eqn:E; [discriminate|].
  intros ->. discriminate.
Qed.

Lemma content_hash_bare (content : str) : bare (content_hash content).
Proof.
  unfold bare, content_hash, MD5.hexdigest. apply forall_firstn.
  apply Forall_flat_map, Forall_forall. intros b _.
  assert (H : forall x, MD5.hex_digit x <> slash).
  { intros x. unfold MD5.hex_digit, slash. destruct (x <? 10)%N; lia. }
  repeat constructor; apply H.
Qed.

Lemma image_extension_bare (ctype : str) : bare (_get_image_extension ctype).
Proof.
  unfold _get_image_extension, type_map, get.
  repeat match goal with
         | |- context [if ?b then _ else _] => destruct b
         end;
    unfold bare; repeat constructor; discriminate.
Qed.

(** The generated file name has no directory part. *)
Lemma generated_filename_bare (name content ctype : str) :
  bare (_generate_image_filename name content ctype).
Proof.
  unfold _generate_image_filename, bare. rewrite !Forall_app. repeat split.
  - apply splitext_root_of, last_piece_of, split_from_pieces; [constructor|].
    apply last_piece_of, split_from_pieces; [constructor|].
    apply sanitize_bare.
  - repeat constructor. discriminate.
  - apply content_hash_bare.
  - apply image_extension_bare.
Qed.

Lemma bare_no_slash (path : str) : bare path -> mem_char slash path = false.
Proof.
  unfold mem_char. induction 1 as [|c r Hc Hr IH]; [reflexivity|].
  cbn [existsb]. rewrite IH, orb_false_r. apply N.eqb_neq. congruence.
Qed.

Lemma endswith_char_mem (c : N) (s : str) :
  endswith_char c s = true -> mem_char c s = true.
Proof.
  unfold endswith_char, mem_char. rewrite reverse_rev.
  destruct (rev s) as [|x r] eqn:E; [discriminate|]. intros H.
  apply existsb_exists. exists x. split.
  - apply in_rev. rewrite E. now left.
  - apply N.eqb_eq in H. subst. apply N.eqb_refl.
Qed.

(** A path made with a directory is not bare. *)
Lemma path_join_not_bare (dir filename : str) :
  dir <> [] -> mem_char slash (path_join dir filename) = true.
Proof.
  intros Hdir. unfold path_join.
  destruct (startswith [slash] filename) eqn:Es.
  - destruct filename as [|c r]; [discriminate|]. cbn [startswith] in Es.
    rewrite andb_true_r in Es. apply N.eqb_eq in Es. subst c.
    unfold mem_char. cbn [existsb]. now rewrite N.eqb_refl.
  - destruct dir as [|d dir]; [congruence|]. simpl is_empty. simpl orb.
    destruct (endswith_char slash (d :: dir)) eqn:Ee.
    + rewrite mem_char_app, (endswith_char_mem _ _ Ee). reflexivity.
    + rewrite !mem_char_app. simpl. now rewrite orb_true_r.
Qed.

Lemma images_dir_not_empty (output_dir : str) :
  path_join output_dir (lit "images") <> [].
Proof.
  unfold path_join. simpl startswith. cbv iota.
  destruct (is_empty output_dir || endswith_char slash output_dir);
    destruct output_dir; discriminate.
Qed.

Section BareNames.

Variable images_dir : str.
Hypothesis images_dir_given : images_dir <> [].

Lemma set_bare (name filename : str) (d : dict str) :
  bare filename ->
  Forall (fun entry => bare (snd entry)) d ->
  Forall (fun entry => bare (snd entry)) (set name filename d).
Proof.
  intros Hf. induction 1 as [|[k v] d Hk Hd IH]; simpl.
  - repeat constructor. exact Hf.
  - destruct (str_eqb k name); constructor; assumption.
Qed.

Lemma extract_image_names_apart (st : MHTMLParser * list binary_file) (p : part) :
  names_apart st -> names_apart (extract_image images_dir st p).
Proof.
  destruct st as [self written]. destruct p as [[ctype name] content].
  intros [Hr Hw]. unfold extract_image.
  destruct (negb _ || _); [split; assumption|].
  destruct (b64decode_str _) as [e|data]; split; simpl; try assumption.
  - apply set_bare; [apply generated_filename_bare|exact Hr].
  - apply Forall_app. split; [exact Hw|]. repeat constructor.
    apply path_join_not_bare, images_dir_given.
Qed.

Lemma extract_images_names_apart (self : MHTMLParser) :
  names_apart (extract_images self images_dir).
Proof.
  unfold extract_images.
  assert (H0 : names_apart (with_paths self [], [])) by (split; constructor).
  revert H0. generalize (with_paths self [], @nil binary_file).
  induction (dataset self) as [|p parts IH]; intros st Hst; simpl; [exact Hst|].
  apply IH, extract_image_names_apart, Hst.
Qed.

(** The size lookup at a bare name does not see the files written into
    the images directory. *)
Lemma disk_after_bare (disk : str -> option N) (images : list binary_file)
    (path : str) :
  Forall (fun file => mem_char slash (fst file) = true) images ->
  bare path -> disk_after disk images path = disk path.
Proof.
  intros Hw Hp. unfold disk_after.
  destruct (List.find (fun '(p, _) => str_eqb p path) (rev images))
    as [[q data]|] eqn:E; [|reflexivity].
  apply find_some in E. destruct E as [Hin Heq].
  apply str_eqb_eq in Heq. subst q.
  apply in_rev in Hin. rewrite Forall_forall in Hw.
  specialize (Hw _ Hin). simpl in Hw.
  rewrite (bare_no_slash Hp) in Hw. discriminate.
Qed.

(** With no file in the working directory itself, no image is counted
    for any line, whatever the document. *)
Lemma extracted_images_are_not_counted (disk : str -> option N)
    (self : MHTMLParser) (line : str) :
  (forall path, bare path -> disk path = None) ->
  let '(after, images) := extract_images self images_dir in
  _calculate_line_images_size (disk_after disk images) line (_image_paths after)
  = 0.
Proof.
  intros Hdisk. pose proof (extract_images_names_apart self) as Hn.
  destruct (extract_images self images_dir) as [after images].
  destruct Hn as [Hr Hw]. simpl in Hr, Hw.
  unfold _calculate_line_images_size.
  enough (H : forall acc,
             fold_left
               (fun total '(img_name, img_path) =>
                  if contains img_name line then
                    match disk_after disk images img_path with
                    | Some n => total + Z.of_N n
                    | None => total
                    end
                  else total) (_image_paths after) acc = acc) by apply H.
  induction Hr as [|[name f] d Hf Hd IH]; intros acc; simpl; [reflexivity|].
  simpl in Hf. rewrite (disk_after_bare disk Hw Hf), (Hdisk f Hf).
  destruct (contains name line); apply IH.
Qed.

End BareNames.

(** So it is in [split_file], where the images go to the directory
    [images] of the output directory. *)
Lemma split_file_images_are_not_counted (disk : str -> option N)
    (self : MHTMLParser) (output_dir line : str) :
  (forall path, bare path -> disk path = None) ->
  let '(after, images) :=
    extract_images self (path_join output_dir (lit "images")) in
  _calculate_line_images_size (disk_after disk images) line (_image_paths after)
  = 0.
Proof.
  apply extracted_images_are_not_counted, images_dir_not_empty.
Qed.

(** ** The images in the accounting of [split_file] *)

Lemma files_eqb_eq (a b : list (str * str)) : files_eqb a b = true -> a = b.
Proof.
  revert b; induction a as [|[p c] a IH]; intros [|[q d] b]; simpl;
    try discriminate; [reflexivity|].
  rewrite !andb_true_iff, !str_eqb_eq. intros [[-> ->] H].
  now rewrite (IH b H).
Qed.

Lemma strs_eqb_eq (a b : list str) : strs_eqb a b = true -> a = b.
Proof.
  revert b; induction a as [|x a IH]; intros [|y b]; simpl;
    try discriminate; [reflexivity|].
  rewrite andb_true_iff, str_eqb_eq. intros [-> H]. now rewrite (IH b H).
Qed.

Lemma outcome_is_true (r : outcome) (paths : list str)
    (images : list binary_file) (html : list text_file) :
  outcome_is r paths images html = true ->
  returned r = Ok paths /\ images_written r = images /\ html_written r = html.
Proof.
  unfold outcome_is. rewrite !andb_true_iff. intros [[H1 H2] H3].
  repeat split; try (now apply files_eqb_eq).
  destruct (returned r) as [l|e]; [|discriminate].
  now rewrite (strs_eqb_eq l paths H1).
Qed.

(** C1 fails on the code. [extract_images] registers the images under
    their bare file names and writes them into the images directory;
    [_calculate_line_images_size] asks for the size of the file at the
    registered name, finds none and adds nothing for any line.  On the
    document of [Oversized], under a limit of one megabyte, the call
    takes the path of several files, and all 1002 lines go into one
    file, whose accounted size, the image of 1050 bytes counted for each
    line that shows it, is over the limit. *)
Theorem split_file_counts_no_image :
  let run :=
    split_file Oversized.read_file Oversized.empty_disk Oversized.one_mb
      (lit "in/big.mht") (lit "out") in
  Z.of_nat (length Oversized.doc) > limit Oversized.one_mb
  /\ _image_paths
       (fst (extract_images (snd (parse (__init__ (Some Oversized.doc) true)))
               (lit "out/images")))
     = Oversized.registry
  /\ returned run = Ok [lit "out/big_1.html"]
  /\ images_written run = Oversized.images
  /\ html_written run
     = [file_of (lit "big") (lit "out") Oversized.registry
          (lit "<html><body>") 1 Oversized.html_lines]
  /\ Oversized.extracted_size (lit "pic_90b01bf3.png") = Some 1050%N
  /\ (forall line,
        _calculate_line_images_size Oversized.disk line Oversized.registry = 0)
  /\ length Oversized.html_lines = 1002%nat
  /\ accounted Oversized.extracted_size Oversized.registry Oversized.html_lines
     = 1069026
  /\ limit Oversized.one_mb = 1048576.
Proof.
  cbv zeta.
  split; [vm_compute; reflexivity|].
  split; [apply files_eqb_eq; vm_compute; reflexivity|].
  assert (Hrun : outcome_is
                   (split_file Oversized.read_file Oversized.empty_disk
                      Oversized.one_mb (lit "in/big.mht") (lit "out"))
                   [lit "out/big_1.html"] Oversized.images
                   [file_of (lit "big") (lit "out") Oversized.registry
                      (lit "<html><body>") 1 Oversized.html_lines] = true)
    by (vm_compute; reflexivity).
  destruct (outcome_is_true _ _ _ _ Hrun) as (H1 & H2 & H3).
  split; [exact H1|]. split; [exact H2|]. split; [exact H3|].
  split; [vm_compute; reflexivity|].
  split.
  - intros line.
    assert (E : Oversized.disk (lit "pic_90b01bf3.png") = None)
      by (vm_compute; reflexivity).
    unfold _calculate_line_images_size, Oversized.registry.
    cbn [fold_left]. rewrite E.
    destruct (contains (lit "pic") line); reflexivity.
  - repeat split; vm_compute; reflexivity.
Qed.

(** * Further properties of the code *)

(** ** [_split_large_file] *)

Lemma split_from_not_nil (sep : str) (s : str) :
  forall (skip : nat) (cur : str), split_from sep skip cur s <> [].
Proof.
  induction s as [|c r IH]; intros skip cur; simpl; [discriminate|].
  destruct skip as [|k]; [|apply IH].
  destruct (startswith sep (c :: r)); [discriminate|apply IH].
Qed.

Lemma split_large_file_files (getsize : str -> option N) (self : MHTMLSplitter)
    (base_name output_dir : str) (image_paths : dict str) (html_content : str) :
  let files :=
    files_from base_name output_dir image_paths
      (_extract_header_template html_content) 1
      (buffers getsize self image_paths [] (split [newline] html_content)) in
  _split_large_file getsize self base_name output_dir image_paths html_content
  = (map fst files, files).
Proof.
  unfold _split_large_file.
  apply (loop_writes_buffers getsize self base_name output_dir image_paths
           (_extract_header_template html_content) (split [newline] html_content)
           {| output_files := []; written := []; current_size := 0;
              current_content := []; file_counter := 1 |});
    reflexivity.
Qed.

(** X2. [_split_large_file] returns the paths of the files it has
    written, in the order of writing, and writes at least one file,
    whatever the HTML and the limit. *)
Theorem split_large_file_returns_written_paths
    (getsize : str -> option N) (self : MHTMLSplitter)
    (base_name output_dir : str) (image_paths : dict str) (html_content : str) :
  let r :=
    _split_large_file getsize self base_name output_dir image_paths html_content in
  fst r = map fst (snd r) /\ snd r <> [].
Proof.
  cbv zeta. rewrite split_large_file_files. simpl fst. simpl snd.
  split; [reflexivity|].
  pose proof (buffers_concat getsize self image_paths
                (split [newline] html_content) []) as Hcat.
  pose proof (@split_from_not_nil [newline] html_content 0 []) as Hne.
  fold (split [newline] html_content) in Hne.
  destruct (buffers getsize self image_paths [] (split [newline] html_content));
    simpl in *; [congruence|discriminate].
Qed.

(** X3. When the first line of the HTML is over the limit alone, the
    buffer is saved while it is still empty: the first file written is
    the wrapper around nothing, the header template and the closing
    tags. *)
Theorem split_large_file_empty_first_file
    (getsize : str -> option N) (self : MHTMLSplitter)
    (base_name output_dir : str) (image_paths : dict str) (html_content : str) :
  limit self
  < line_cost getsize image_paths (hd [] (split [newline] html_content)) ->
  exists more,
    snd (_split_large_file getsize self base_name output_dir image_paths
           html_content)
    = (part_path base_name output_dir 1,
       rewrite_references image_paths
         (_extract_header_template html_content ++ [newline] ++ [newline]
          ++ lit "</body></html>"))
      :: more.
Proof.
  intros Hover. rewrite split_large_file_files. simpl snd.
  destruct (split [newline] html_content) as [|l rest] eqn:E.
  - exfalso. revert E. apply split_from_not_nil.
  - simpl hd in Hover. simpl buffers.
    apply Z.ltb_lt in Hover. rewrite Hover. simpl.
    eexists. reflexivity.
Qed.

Lemma split_large_file_empty_first_file_witness :
  exists more,
    snd (_split_large_file (fun _ => None)
           {| max_size_mb := 0; missing_images := [] |} (lit "doc") (lit "out") []
           (lit "x"))
    = (part_path (lit "doc") (lit "out") 1,
       rewrite_references []
         (_extract_header_template (lit "x") ++ [newline] ++ [newline]
          ++ lit "</body></html>"))
      :: more.
Proof.
  apply (split_large_file_empty_first_file (fun _ => None)
           {| max_size_mb := 0; missing_images := [] |} (lit "doc") (lit "out") []
           (lit "x")).
  vm_compute. reflexivity.
Defined.

Example split_empty_first_file :
  snd (_split_large_file (fun _ => None)
         {| max_size_mb := 0; missing_images := [] |} (lit "doc") (lit "out") []
         (lit "x"))
  = [(lit "out/doc_1.html",
      lit "<html><body>" ++ [newline; newline] ++ lit "</body></html>");
     (lit "out/doc_2.html",
      lit "<html><body>" ++ [newline] ++ lit "x" ++ [newline] ++ lit "</body></html>")].
Proof. vm_compute. reflexivity. Qed.

(** ** File names *)

Import Utils.

Lemma unsafe_chars_are (c : N) :
  mem_char c unsafe_chars = true ->
  In c [60; 62; 58; 34; 47; 92; 124; 63; 42]%N.
Proof.
  unfold mem_char. intros H. apply existsb_exists in H.
  destruct H as (u & Hin & Hu). apply N.eqb_eq in Hu. now subst u.
Qed.

Lemma sanitize_safe (name : str) : Forall safe_char (sanitize name).
Proof.
  unfold sanitize. apply Forall_map, Forall_forall. intros c _.
  destruct (mem_char c unsafe_chars) eqn:E; [reflexivity|exact E].
Qed.

Lemma hex_digit_safe (x : N) : (x < 16)%N -> safe_char (MD5.hex_digit x).
Proof.
  intros Hx. unfold safe_char. apply not_true_is_false. intros H.
  apply unsafe_chars_are in H. unfold MD5.hex_digit in H.
  destruct (x <? 10)%N eqn:E.
  - apply N.ltb_lt in E. cbn [In] in H. lia.
  - apply N.ltb_ge in E. cbn [In] in H. lia.
Qed.

Lemma le_bytes_octets (n : nat) (x : N) :
  Forall (fun b => (b < 256)%N) (MD5.le_bytes n x).
Proof.
  revert x; induction n as [|n IH]; intros x; simpl; constructor; [|apply IH].
  change 255%N with (N.ones 8). rewrite N.land_ones.
  apply N.mod_lt. discriminate.
Qed.

Lemma hex_byte_safe (b : N) : (b < 256)%N -> Forall safe_char (MD5.hex_byte b).
Proof.
  intros Hb. unfold MD5.hex_byte. repeat constructor; apply hex_digit_safe.
  - rewrite N.shiftr_div_pow2. change (2 ^ 4)%N with 16%N.
    apply N.Div0.div_lt_upper_bound. lia.
  - change 15%N with (N.ones 4). rewrite N.land_ones.
    apply N.mod_lt. discriminate.
Qed.

Lemma content_hash_safe (content : str) : Forall safe_char (content_hash content).
Proof.
  unfold content_hash, MD5.hexdigest, MD5.digest. apply forall_firstn.
  apply Forall_flat_map.
  rewrite !Forall_app. repeat split;
    (eapply Forall_impl; [|apply le_bytes_octets]); intros b Hb;
    now apply hex_byte_safe.
Qed.

Lemma image_extension_safe (ctype : str) :
  Forall safe_char (_get_image_extension ctype).
Proof.
  unfold _get_image_extension, type_map, get.
  repeat match goal with
         | |- context [if ?b then _ else _] => destruct b
         end;
    repeat constructor.
Qed.

Lemma generated_filename_safe_chars (name content ctype : str) :
  Forall safe_char (_generate_image_filename name content ctype).
Proof.
  unfold _generate_image_filename. rewrite !Forall_app. repeat split.
  - apply splitext_root_of, last_piece_of, split_from_pieces; [constructor|].
    apply last_piece_of, split_from_pieces; [constructor|].
    apply sanitize_safe.
  - repeat constructor.
  - apply content_hash_safe.
  - apply image_extension_safe.
Qed.

(** X4. The file name that [_generate_image_filename] makes is not empty
    and holds none of the nine characters that the substitution takes
    out of the original name, the slash and the backslash among them,
    whatever the name, the content and the content type. *)
Theorem generated_filename_is_safe (name content ctype : str) :
  _generate_image_filename name content ctype <> []
  /\ Forall safe_char (_generate_image_filename name content ctype).
Proof.
  split; [|apply generated_filename_safe_chars].
  unfold _generate_image_filename.
  intros H. apply app_eq_nil in H. destruct H as [_ H]. discriminate.
Qed.

Lemma sanitize_idempotent (name : str) : sanitize (sanitize name) = sanitize name.
Proof.
  unfold sanitize. rewrite map_map. apply map_ext. intros c.
  destruct (mem_char c unsafe_chars) eqn:E; [reflexivity|now rewrite E].
Qed.

(** X5. [get_safe_filename] gives a name that is not empty and holds no
    unsafe character; a name that is not empty keeps its length; and the
    function changes nothing in a name it has made. *)
Theorem get_safe_filename_safe (filename : str) :
  get_safe_filename filename <> []
  /\ Forall safe_char (get_safe_filename filename)
  /\ (filename <> [] -> length (get_safe_filename filename) = length filename)
  /\ get_safe_filename (get_safe_filename filename) = get_safe_filename filename.
Proof.
  unfold get_safe_filename.
  destruct filename as [|c r].
  - simpl. repeat split; try discriminate; try congruence. repeat constructor.
  - assert (E : is_empty (sanitize (c :: r)) = false) by reflexivity.
    rewrite E. repeat split.
    + discriminate.
    + apply sanitize_safe.
    + intros _. unfold sanitize. now rewrite length_map.
    + rewrite sanitize_idempotent. now rewrite E.
Qed.

Example get_safe_filename_samples :
  map get_safe_filename [lit "a/b:c?.txt"; lit ""; lit "plain.html"]
  = [lit "a_b_c_.txt"; lit "unnamed_file"; lit "plain.html"].
Proof. vm_compute. reflexivity. Qed.

(** ** [parse]: what is stored *)

Lemma kept_part_identified (cur : list str) (inc : bool) :
  Forall identified (kept_part cur inc).
Proof.
  unfold kept_part. destruct cur as [|l cur]; [constructor|].
  destruct inc; [|constructor].
  destruct (part_of (l :: cur)) as [[ctype name] content].
  destruct ctype as [|c ctype]; destruct name as [|n name]; simpl;
    [constructor
    |constructor; [right; discriminate|constructor]
    |constructor; [left; discriminate|constructor]
    |constructor; [left; discriminate|constructor]].
Qed.

Lemma recognized_from_identified (b : str) (lines : list str) :
  forall (cur : list str) (inc : bool),
    Forall identified (recognized_from b cur inc lines).
Proof.
  induction lines as [|line r IH]; intros cur inc; simpl.
  - apply kept_part_identified.
  - destruct (contains b line).
    + apply Forall_app. split; [apply kept_part_identified|apply IH].
    + destruct inc; apply IH.
Qed.

(** X6. [parse] only appends to the dataset: the parts stored before the
    call stay, in their order; every part the call adds has a content
    type or a name; and a call that raises adds none. *)
Theorem parse_stores_identified_parts (self : MHTMLParser) :
  exists new : list part,
    dataset (snd (parse self)) = dataset self ++ new
    /\ Forall identified new
    /\ (fst (parse self) <> None -> new = []).
Proof.
  assert (Hnone : forall r : option exn * MHTMLParser,
            dataset (snd r) = dataset self ->
            exists new : list part,
              dataset (snd r) = dataset self ++ new
              /\ Forall identified new /\ (fst r <> None -> new = [])).
  { intros r Hr. exists []. rewrite app_nil_r.
    split; [exact Hr|]. split; [constructor|reflexivity]. }
  unfold parse. destruct (mhtml_content self) as [content|]; [|now apply Hnone].
  destruct (is_empty content); [now apply Hnone|]. cbv zeta. simpl boundary.
  destruct (_find_boundary (splitlines content)) as [b|] eqn:Hb;
    [|now apply Hnone].
  destruct (is_empty b); [now apply Hnone|].
  destruct (parse_loop_appends b (splitlines content)
              (with_boundary self (Some b)) [] false) as [Hd _].
  unfold parse_loop in Hd.
  destruct (fold_left _ _ _) as [[s cur] inc]. simpl in *.
  exists (recognized_from b [] false (splitlines content)).
  split; [exact Hd|]. split; [apply recognized_from_identified|congruence].
Qed.

(** X7. A parser that has parsed one document and is given a second one
    with [set_mhtml_content] holds, after the second [parse], the parts
    of the first document followed by those of the second, and the
    boundary of the second. *)
Theorem parse_second_document (self : MHTMLParser) (content : str) :
  let first := snd (parse self) in
  let second := snd (set_mhtml_content first content) in
  fst (parse self) = None -> content <> [] -> fst (parse second) = None ->
  exists before,
    mhtml_content self = Some before
    /\ fst (set_mhtml_content first content) = None
    /\ dataset (snd (parse second))
       = dataset self ++ recognized before ++ recognized content
    /\ boundary (snd (parse second)) = _find_boundary (splitlines content).
Proof.
  cbv zeta. intros Hok Hne Hok2.
  destruct (parse_success_inv self Hok) as (c1 & b1 & Hc1 & Hne1 & Hb1 & Hbne1).
  exists c1. split; [exact Hc1|].
  destruct content as [|c content]; [congruence|].
  unfold set_mhtml_content in *. simpl is_empty in *. cbv iota in *.
  simpl fst. simpl snd in *. split; [reflexivity|].
  match type of Hok2 with fst (parse ?s) = None => set (second := s) in * end.
  assert (Hc2 : mhtml_content second = Some (c :: content)) by reflexivity.
  destruct (parse_success_inv second Hok2) as (c2 & b2 & Hc2' & Hne2 & Hb2 & Hbne2).
  assert (c2 = c :: content) by congruence. subst c2.
  rewrite (parse_success second Hc2 Hne2 Hb2 Hbne2). simpl snd.
  destruct (parse_loop_appends b2 (splitlines (c :: content))
              (with_boundary second (Some b2)) [] false)
    as [Hd (_ & _ & Hbd & _)].
  rewrite Hd, Hbd, Hb2, (recognized_found (c :: content) Hb2).
  split; [|reflexivity].
  simpl dataset at 1.
  rewrite (parse_success self Hc1 Hne1 Hb1 Hbne1). simpl snd.
  destruct (parse_loop_appends b1 (splitlines c1)
              (with_boundary self (Some b1)) [] false) as [Hd1 _].
  rewrite Hd1, (recognized_found c1 Hb1), <- app_assoc. reflexivity.
Qed.

Lemma parse_second_document_witness :
  exists before,
    mhtml_content (__init__ (Some Sample.doc) true) = Some before
    /\ fst (set_mhtml_content Sample.parsed Mixed.doc) = None
    /\ dataset (snd (parse (snd (set_mhtml_content Sample.parsed Mixed.doc))))
       = [] ++ recognized before ++ recognized Mixed.doc
    /\ boundary (snd (parse (snd (set_mhtml_content Sample.parsed Mixed.doc))))
       = _find_boundary (splitlines Mixed.doc).
Proof.
  apply (parse_second_document (__init__ (Some Sample.doc) true) (content := Mixed.doc)).
  - vm_compute. reflexivity.
  - vm_compute. discriminate.
  - vm_compute. reflexivity.
Defined.

Example two_documents_parsed :
  map fst (dataset (snd (parse (snd (set_mhtml_content Sample.parsed Mixed.doc)))))
  = [(lit "text/html", lit ""); (lit "image/png", lit "img1");
     (lit "text/html", lit "page.html"); (lit "text/plain", lit "notes.txt");
     (lit "image/png", lit "bad"); (lit "image/png", lit "good")].
Proof. vm_compute. reflexivity. Qed.

(** ** [extract_images]: the registry *)

Lemma get_set_inv {V} (k k2 : str) (v x : V) (d : dict V) :
  get k (set k2 v d) = Some x -> (k2 = k /\ x = v) \/ get k d = Some x.
Proof.
  destruct (str_eqb k2 k) eqn:E.
  - apply str_eqb_eq in E. subst k2. rewrite get_set_same.
    intros H. injection H as <-. left. split; reflexivity.
  - rewrite (@get_set_other V k k2 v d E). auto.
Qed.

Lemma extracted_from_more (output_dir : str) (parts parts' : list part)
    (written written' : list binary_file) (name filename : str) :
  extracted_from output_dir parts written name filename ->
  extracted_from output_dir (parts ++ parts') (written ++ written') name filename.
Proof.
  intros (ctype & content & data & Hin & Himg & Hname & Hf & Hdec & Hw).
  exists ctype, content, data.
  repeat split; try assumption; apply in_or_app; now left.
Qed.

Lemma extract_image_sound (output_dir : str) (done : list part)
    (st : MHTMLParser * list binary_file) (p : part) :
  (forall name f, get name (_image_paths (fst st)) = Some f ->
                  extracted_from output_dir done (snd st) name f) ->
  forall name f,
    get name (_image_paths (fst (extract_image output_dir st p))) = Some f ->
    extracted_from output_dir (done ++ [p]) (snd (extract_image output_dir st p))
      name f.
Proof.
  destruct st as [self written]. destruct p as [[ctype pname] content].
  intros Hinv name f. unfold extract_image.
  destruct (negb (startswith (lit "image/") ctype) || is_empty pname) eqn:E.
  - intros H. rewrite <- (app_nil_r written).
    apply extracted_from_more, Hinv, H.
  - apply orb_false_iff in E. destruct E as [Himg Hname].
    apply negb_false_iff in Himg.
    destruct (b64decode_str (join [] (split_ws content))) as [e|data] eqn:D;
      simpl.
    + intros H. rewrite <- (app_nil_r written).
      apply extracted_from_more, Hinv, H.
    + intros H. apply get_set_inv in H. destruct H as [[-> ->]|H].
      * exists ctype, content, data. repeat split; try assumption.
        -- apply in_or_app. right. now left.
        -- intros ->. discriminate.
        -- apply in_or_app. right. now left.
      * apply extracted_from_more, Hinv, H.
Qed.

Lemma extract_images_sound_from (output_dir : str) (parts : list part) :
  forall (done : list part) (st : MHTMLParser * list binary_file),
    (forall name f, get name (_image_paths (fst st)) = Some f ->
                    extracted_from output_dir done (snd st) name f) ->
    forall name f,
      get name (_image_paths (fst (fold_left (extract_image output_dir) parts st)))
      = Some f ->
      extracted_from output_dir (done ++ parts)
        (snd (fold_left (extract_image output_dir) parts st)) name f.
Proof.
  induction parts as [|p parts IH]; intros done st Hinv name f; simpl.
  - rewrite app_nil_r. apply Hinv.
  - replace (done ++ p :: parts) with ((done ++ [p]) ++ parts)
      by (rewrite <- app_assoc; reflexivity).
    apply IH. now apply extract_image_sound.
Qed.

(** X8. Every entry of the registry that [extract_images] returns
    stands for an image part of the dataset with that name: the payload
    of the part decodes, the file name is the one generated from the
    name, the payload and the content type of the part, and the bytes are
    written under that file name in the output directory.  What the
    registry held before the call plays no part. *)
Theorem extract_images_registry_sound (self : MHTMLParser)
    (output_dir name filename : str) :
  get name (_image_paths (fst (extract_images self output_dir))) = Some filename ->
  extracted_from output_dir (dataset self) (snd (extract_images self output_dir))
    name filename.
Proof.
  unfold extract_images.
  apply (@extract_images_sound_from output_dir (dataset self) []
           (with_paths self [], [])).
  simpl. discriminate.
Qed.

Lemma extract_images_registry_sound_witness :
  extracted_from (lit "out/images") (dataset Mixed.parsed)
    (snd (extract_images Mixed.parsed (lit "out/images")))
    (lit "good") (lit "good_9b90526b.png").
Proof.
  apply (@extract_images_registry_sound Mixed.parsed (lit "out/images")
           (lit "good") (lit "good_9b90526b.png")).
  vm_compute. reflexivity.
Defined.

Lemma extract_image_dataset (output_dir : str)
    (st : MHTMLParser * list binary_file) (p : part) :
  dataset (fst (extract_image output_dir st p)) = dataset (fst st).
Proof.
  destruct st as [self written]. destruct p as [[ctype name] content].
  unfold extract_image. destruct (negb _ || _); [reflexivity|].
  destruct (b64decode_str _); reflexivity.
Qed.

Lemma extract_image_same_paths (output_dir : str) (s1 s2 : MHTMLParser)
    (written : list binary_file) (p : part) :
  _image_paths s1 = _image_paths s2 ->
  _image_paths (fst (extract_image output_dir (s1, written) p))
  = _image_paths (fst (extract_image output_dir (s2, written) p))
  /\ snd (extract_image output_dir (s1, written) p)
     = snd (extract_image output_dir (s2, written) p).
Proof.
  intros H. destruct p as [[ctype name] content]. unfold extract_image.
  destruct (negb _ || _); [split; [exact H|reflexivity]|].
  destruct (b64decode_str _); simpl; rewrite H; split; reflexivity.
Qed.

Lemma extract_images_same_paths (output_dir : str) (parts : list part) :
  forall (st1 st2 : MHTMLParser * list binary_file),
    _image_paths (fst st1) = _image_paths (fst st2) -> snd st1 = snd st2 ->
    _image_paths (fst (fold_left (extract_image output_dir) parts st1))
    = _image_paths (fst (fold_left (extract_image output_dir) parts st2))
    /\ snd (fold_left (extract_image output_dir) parts st1)
       = snd (fold_left (extract_image output_dir) parts st2).
Proof.
  induction parts as [|p parts IH]; intros [s1 w1] [s2 w2] Hp Hw; simpl in *.
  - split; assumption.
  - subst w2.
    destruct (extract_image_same_paths output_dir s1 s2 w1 p Hp) as [H1 H2].
    apply IH; assumption.
Qed.

Lemma extract_images_dataset (output_dir : str) (parts : list part) :
  forall st : MHTMLParser * list binary_file,
    dataset (fst (fold_left (extract_image output_dir) parts st)) = dataset (fst st).
Proof.
  induction parts as [|p parts IH]; intros st; simpl; [reflexivity|].
  rewrite IH. apply extract_image_dataset.
Qed.

(** X9. [extract_images] leaves the dataset as it is and starts from an
    empty registry, so a second call on the parser that the first call
    left registers the same names under the same file names and writes
    the same files again. *)
Theorem extract_images_again (self : MHTMLParser) (output_dir : str) :
  let once := extract_images self output_dir in
  let twice := extract_images (fst once) output_dir in
  dataset (fst once) = dataset self
  /\ _image_paths (fst twice) = _image_paths (fst once)
  /\ snd twice = snd once.
Proof.
  cbv zeta.
  assert (Hd : dataset (fst (extract_images self output_dir)) = dataset self)
    by (unfold extract_images; now rewrite extract_images_dataset).
  split; [exact Hd|].
  set (once := extract_images self output_dir) in *.
  change (extract_images (fst once) output_dir)
    with (fold_left (extract_image output_dir) (dataset (fst once))
            (with_paths (fst once) [], @nil binary_file)).
  rewrite Hd. subst once. unfold extract_images.
  apply extract_images_same_paths; reflexivity.
Qed.

(** ** [get_html] without decoding *)

Lemma embed_nothing (m : dict (str * str)) (r : result str) :
  fold_left (embed_image false) m r = r.
Proof.
  revert r; induction m as [|[name [ctype content]] m IH]; intros r; simpl;
    [reflexivity|apply IH].
Qed.

(** X10. A parser made with [decode_images=False] embeds nothing: in the
    embedded mode [get_html] returns the content of the first HTML part
    as it is stored, whatever images the dataset holds. *)
Theorem get_html_without_decoding (self : MHTMLParser) :
  decode_images self = false ->
  get_html self true
  = if is_empty (first_html (dataset self))
    then Raise (ValueError no_html_msg)
    else Ok (first_html (dataset self)).
Proof.
  intros H. unfold get_html. rewrite H, embed_nothing. reflexivity.
Qed.

Lemma get_html_without_decoding_witness :
  get_html (snd (parse (__init__ (Some Sample.doc) false))) true
  = if is_empty (first_html (dataset (snd (parse (__init__ (Some Sample.doc) false)))))
    then Raise (ValueError no_html_msg)
    else Ok (first_html (dataset (snd (parse (__init__ (Some Sample.doc) false))))).
Proof.
  apply (get_html_without_decoding (snd (parse (__init__ (Some Sample.doc) false)))).
  vm_compute. reflexivity.
Defined.

Example sample_not_embedded :
  get_html (snd (parse (__init__ (Some Sample.doc) false))) true
  = Ok (lit "<html><body><img src=" ++ [dquote] ++ lit "cid:img1" ++ [dquote]
        ++ lit "></body></html>").
Proof. vm_compute. reflexivity. Qed.

(** ** [_process_part]: headers and content *)

Lemma process_line_body (v : locals) (l : str) :
  header_done v = true ->
  header_done (process_line v l) = true
  /\ Parser.content_type (process_line v l) = Parser.content_type v
  /\ content_encoding (process_line v l) = content_encoding v
  /\ resource_id (process_line v l) = resource_id v.
Proof. intros H. unfold process_line. rewrite H. simpl. tauto. Qed.

Lemma scan_body (body : list str) (v : locals) :
  header_done v = true ->
  Parser.content_type (fold_left process_line body v) = Parser.content_type v
  /\ content_encoding (fold_left process_line body v) = content_encoding v
  /\ resource_id (fold_left process_line body v) = resource_id v.
Proof.
  revert v; induction body as [|l body IH]; intros v Hv; simpl; [tauto|].
  destruct (process_line_body v l Hv) as (Hd & Ht & He & Hr).
  destruct (IH _ Hd) as (IHt & IHe & IHr).
  rewrite IHt, IHe, IHr. tauto.
Qed.

Lemma scan_headers (headers : list str) (v : locals) :
  Forall (fun l => strip l <> []) headers ->
  header_done v = false ->
  header_done (fold_left process_line headers v) = false
  /\ content_lines (fold_left process_line headers v) = content_lines v.
Proof.
  intros Hh. revert v.
  induction Hh as [|l hs Hl Hhs IH]; intros v Hd; simpl; [tauto|].
  destruct (process_line_header v l Hd Hl) as [Hd' Hc'].
  destruct (IH _ Hd') as [H1 H2]. split; congruence.
Qed.

(** X11. [_process_part] reads the headers of a part up to its first
    blank line only.  The lines after it, each stripped, are the content,
    joined with line feeds; a line there that looks like a header changes
    neither the content type, nor the encoding, nor the name of the part.
    A part without a blank line has no content. *)
Theorem part_content_after_blank_line (headers : list str) (blank : str)
    (body : list str) :
  Forall (fun l => strip l <> []) headers -> strip blank = [] ->
  let v := scan (headers ++ blank :: body) in
  raw_content v = join [newline] (map strip body)
  /\ Parser.content_type v = Parser.content_type (scan headers)
  /\ content_encoding v = content_encoding (scan headers)
  /\ resource_id v = resource_id (scan headers)
  /\ raw_content (scan headers) = [].
Proof.
  intros Hh Hb. cbv zeta. unfold raw_content.
  rewrite (@scan_splits_at_blank_line headers blank body Hh Hb).
  split; [reflexivity|].
  destruct (@scan_headers headers locals0 Hh eq_refl) as [Hd Hc].
  fold (scan headers) in Hd, Hc. rewrite Hc.
  unfold scan at 1 3 5. rewrite !fold_left_app. simpl fold_left.
  fold (scan headers).
  assert (Hv : process_line (scan headers) blank
               = {| Parser.content_type := Parser.content_type (scan headers);
                    content_location := content_location (scan headers);
                    content_encoding := content_encoding (scan headers);
                    filename := filename (scan headers);
                    content_id := content_id (scan headers);
                    charset := charset (scan headers);
                    content_lines := content_lines (scan headers);
                    header_done := true |}).
  { unfold process_line. rewrite Hd, Hb. reflexivity. }
  rewrite Hv.
  destruct (@scan_body body
              {| Parser.content_type := Parser.content_type (scan headers);
                 content_location := content_location (scan headers);
                 content_encoding := content_encoding (scan headers);
                 filename := filename (scan headers);
                 content_id := content_id (scan headers);
                 charset := charset (scan headers);
                 content_lines := content_lines (scan headers);
                 header_done := true |} eq_refl) as (Ht & He & Hr).
  rewrite Ht, He, Hr. repeat split; reflexivity.
Qed.

Lemma part_content_after_blank_line_witness :
  let v := scan ([lit "Content-Type: text/html"; lit "Content-Location: a.html"]
                 ++ lit "  " :: [lit " <p>one</p> "; lit "Content-Type: image/png";
                                 lit ""; lit "<p>two</p>"]) in
  raw_content v
  = join [newline]
      (map strip [lit " <p>one</p> "; lit "Content-Type: image/png"; lit "";
                  lit "<p>two</p>"])
  /\ Parser.content_type v
     = Parser.content_type
         (scan [lit "Content-Type: text/html"; lit "Content-Location: a.html"])
  /\ content_encoding v
     = content_encoding
         (scan [lit "Content-Type: text/html"; lit "Content-Location: a.html"])
  /\ resource_id v
     = resource_id
         (scan [lit "Content-Type: text/html"; lit "Content-Location: a.html"])
  /\ raw_content
       (scan [lit "Content-Type: text/html"; lit "Content-Location: a.html"]) = [].
Proof.
  apply (@part_content_after_blank_line
           [lit "Content-Type: text/html"; lit "Content-Location: a.html"]
           (lit "  ")
           [lit " <p>one</p> "; lit "Content-Type: image/png"; lit "";
            lit "<p>two</p>"]).
  - repeat constructor; vm_compute; discriminate.
  - vm_compute. reflexivity.
Defined.

Example part_with_header_like_content :
  part_of [lit "Content-Type: text/html"; lit "Content-Location: a.html"; lit "  ";
           lit " <p>one</p> "; lit "Content-Type: image/png"; lit ""; lit "<p>two</p>"]
  = (lit "text/html", lit "a.html",
     lit "<p>one</p>" ++ [newline] ++ lit "Content-Type: image/png" ++ [newline]
     ++ [newline] ++ lit "<p>two</p>").
Proof. vm_compute. reflexivity. Qed.

(** ** [split_file]: the sizes on disk, the failures and the report *)

Lemma accounted_ext (g1 g2 : str -> option N) (paths : dict str) :
  (forall line, _calculate_line_images_size g1 line paths
                = _calculate_line_images_size g2 line paths) ->
  forall lines, accounted g1 paths lines = accounted g2 paths lines.
Proof.
  intros H. induction lines as [|l r IH]; simpl; [reflexivity|].
  unfold line_cost. now rewrite H, IH.
Qed.

Lemma buffers_ext (g1 g2 : str -> option N) (self : MHTMLSplitter)
    (paths : dict str) :
  (forall line, _calculate_line_images_size g1 line paths
                = _calculate_line_images_size g2 line paths) ->
  forall lines cur, buffers g1 self paths cur lines = buffers g2 self paths cur lines.
Proof.
  intros H. induction lines as [|l r IH]; intros cur; simpl; [reflexivity|].
  rewrite (accounted_ext g1 g2 paths H cur). unfold line_cost. rewrite H.
  now rewrite !IH.
Qed.





Lemma get_in {V} (k : str) (v : V) (d : dict V) : get k d = Some v -> In (k, v) d.
Proof.
  induction d as [|[k' v'] d IH]; simpl; [discriminate|].
  destruct (str_eqb k' k) eqn:E.
  - apply str_eqb_eq in E. subst k'. intros H. injection H as ->. now left.
  - intros H. right. now apply IH.
Qed.

(** X14. [split_file] reports every image that could not be extracted.
    When the document parses and has an HTML content, an image part with
    a name whose payload does not decode gives a line in the report that
    the splitter keeps under the base name of the input: the name of the
    part, a colon, and the message of a decoding error. *)
Theorem split_file_reports_undecodable (read_file : str -> str)
    (disk : str -> option N) (self : MHTMLSplitter) (input_path output_dir : str)
    (ctype name content : str) (e : b64_error) :
  let parsed := parse (__init__ (Some (read_file input_path)) true) in
  let r := split_file read_file disk self input_path output_dir in
  fst parsed = None ->
  first_html (dataset (snd parsed)) <> [] ->
  In (ctype, name, content) (dataset (snd parsed)) ->
  startswith (lit "image/") ctype = true -> name <> [] ->
  b64decode_str (join [] (split_ws content)) = inl e ->
  exists e' report,
    get (splitext_root (basename input_path)) (missing_images (splitter r))
    = Some report
    /\ In (name ++ lit ": " ++ decode_failed_msg e') report.
Proof.
  cbv zeta. intros Hok Hhtml Hin Himg Hname Hdec. unfold split_file.
  pose proof (parse_new_no_paths (Some (read_file input_path)) true) as Hn.
  destruct (parse _) as [[e0|] parser]; simpl in *; [discriminate|].
  rewrite (get_html_before_extraction parser Hn).
  destruct (first_html (dataset parser)) as [|c html] eqn:Eh; [congruence|].
  simpl is_empty. cbv iota.
  pose proof (@extract_images_each (path_join output_dir (lit "images"))
                ctype name content (dataset parser) (with_paths parser [], [])
                Hin Himg Hname) as Hlog.
  rewrite Hdec in Hlog. fold (extract_images parser (path_join output_dir (lit "images"))) in Hlog.
  destruct (extract_images parser _) as [parser' images]. simpl in Hlog.
  destruct Hlog as [e' He']. exists e'.
  assert (Hrep : exists report,
            get (splitext_root (basename input_path))
              (missing_images
                 (_update_missing_images self (get_missing_images parser')
                    (splitext_root (basename input_path)))) = Some report
            /\ In (name ++ lit ": " ++ decode_failed_msg e') report).
  { unfold get_missing_images, _update_missing_images.
    apply get_in in He'.
    destruct (_missing_images parser') as [|entry log] eqn:El; [destruct He'|].
    simpl missing_images. eexists. split; [apply get_set_same|].
    apply (in_map (fun '(name, error) => name ++ lit ": " ++ error)) in He'.
    exact He'. }
  destruct (Z.of_nat _ <=? _); [exact Hrep|].
  destruct (_split_large_file _ _ _ _ _ _). exact Hrep.
Qed.

Lemma split_file_reports_undecodable_witness :
  exists e' report,
    get (splitext_root (basename (lit "in/mixed.mht")))
      (missing_images
         (splitter (split_file (fun _ => Mixed.doc) Files.no_files Files.one_mb
                      (lit "in/mixed.mht") (lit "out"))))
    = Some report
    /\ In (lit "bad" ++ lit ": " ++ decode_failed_msg e') report.
Proof.
  apply (@split_file_reports_undecodable (fun _ => Mixed.doc) Files.no_files
           Files.one_mb (lit "in/mixed.mht") (lit "out")
           (lit "image/png") (lit "bad") (lit "iVBORw0KX") (InvalidLength 9)).
  - vm_compute. reflexivity.
  - vm_compute. discriminate.
  - vm_compute. right. right. left. reflexivity.
  - vm_compute. reflexivity.
  - vm_compute. discriminate.
  - vm_compute. reflexivity.
Defined.

Example mixed_report :
  missing_images
    (splitter (split_file (fun _ => Mixed.doc) Files.no_files Files.one_mb
                 (lit "in/mixed.mht") (lit "out")))
  = [(lit "mixed",
      [lit "bad: Failed to decode/save image: Invalid base64-encoded string: number of data characters (9) cannot be 1 more than a multiple of 4"])].
Proof. vm_compute. reflexivity. Qed.

(** ** The line feeds of the HTML *)

Lemma join_nil_concat (ls : list str) : join [] ls = concat ls.
Proof.
  induction ls as [|p ps IH]; [reflexivity|].
  destruct ps as [|q ps]; [simpl; now rewrite app_nil_r|].
  change (join [] (p :: q :: ps)) with (p ++ [] ++ join [] (q :: ps)).
  rewrite IH. reflexivity.
Qed.

Lemma split_newline_concat (s : str) :
  forall cur : str,
    concat (split_from [newline] 0 cur s)
    = rev cur ++ filter (fun c => negb (c =? newline)%N) s.
Proof.
  induction s as [|c r IH]; intros cur.
  - simpl. now rewrite reverse_rev, !app_nil_r.
  - cbn [split_from startswith length Nat.sub filter]. rewrite andb_true_r.
    rewrite (N.eqb_sym newline c).
    destruct (c =? newline)%N; cbn [negb concat].
    + rewrite IH, reverse_rev. reflexivity.
    + rewrite IH. cbn [rev]. rewrite <- app_assoc. reflexivity.
Qed.

Lemma concat_map_concat (bufs : list (list str)) :
  concat (map (join []) bufs) = concat (concat bufs).
Proof.
  induction bufs as [|b bufs IH]; simpl; [reflexivity|].
  now rewrite concat_app, IH, join_nil_concat.
Qed.

(** X15. [_split_large_file] joins the lines of a file with nothing
    between them: the bodies of the files written, one after the other,
    are the HTML with every line feed taken out. *)
Theorem split_large_file_drops_line_feeds
    (getsize : str -> option N) (self : MHTMLSplitter)
    (base_name output_dir : str) (image_paths : dict str) (html_content : str) :
  exists file_lines : list (list str),
    snd (_split_large_file getsize self base_name output_dir image_paths
           html_content)
    = files_from base_name output_dir image_paths
        (_extract_header_template html_content) 1 file_lines
    /\ concat (map (join []) file_lines)
       = filter (fun c => negb (c =? newline)%N) html_content.
Proof.
  exists (buffers getsize self image_paths [] (split [newline] html_content)).
  rewrite split_large_file_files. split; [reflexivity|].
  rewrite concat_map_concat, buffers_concat. unfold split. cbn [app].
  rewrite split_newline_concat. reflexivity.
Qed.

Example split_sample_bodies :
  map snd
    (snd (_split_large_file SplitSample.sizes SplitSample.one_mb (lit "doc")
            (lit "out") [] SplitSample.html))
  = [lit "<html><body>" ++ [newline] ++ lit "<p>cid:a</p><p>cid:b</p><p>end</p>"
     ++ [newline] ++ lit "</body></html>"].
Proof. vm_compute. reflexivity. Qed.

(** ** The boundary and the line that declares it *)

Lemma contains_unfold (p s : str) :
  contains p s
  = startswith p s || match s with [] => false | _ :: r => contains p r end.
Proof. destruct s; reflexivity. Qed.

Lemma startswith_app (p post : str) : startswith p (p ++ post) = true.
Proof. induction p as [|x p IH]; simpl; [reflexivity|]. now rewrite N.eqb_refl. Qed.

Lemma occurs_contains (p s : str) : occurs_in p s -> contains p s = true.
Proof.
  intros (pre & post & ->). induction pre as [|c pre IH].
  - rewrite contains_unfold. simpl app. now rewrite startswith_app.
  - simpl app. rewrite contains_unfold, IH. apply orb_true_r.
Qed.

Lemma occurs_in_refl (s : str) : occurs_in s s.
Proof. exists [], []. now rewrite app_nil_r. Qed.

Lemma occurs_in_trans (a b c : str) :
  occurs_in a b -> occurs_in b c -> occurs_in a c.
Proof.
  intros (p1 & q1 & ->) (p2 & q2 & ->).
  exists (p2 ++ p1), (q1 ++ q2). now rewrite <- !app_assoc.
Qed.

Lemma occurs_in_cons (p s : str) (c : N) : occurs_in p s -> occurs_in p (c :: s).
Proof. intros (pre & post & ->). now exists (c :: pre), post. Qed.

Lemma occurs_in_app_l (p s pre : str) : occurs_in p s -> occurs_in p (pre ++ s).
Proof.
  intros (a & b & ->). exists (pre ++ a), b. now rewrite <- app_assoc.
Qed.

Lemma dropwhile_suffix (f : N -> bool) (s : str) :
  exists pre, s = pre ++ dropwhile f s.
Proof.
  induction s as [|c s (pre & IH)]; simpl.
  - now exists [].
  - destruct (f c); [|now exists []].
    exists (c :: pre). simpl. now rewrite <- IH.
Qed.

Lemma rstrip_with_prefix (f : N -> bool) (s : str) :
  exists post, s = rstrip_with f s ++ post.
Proof.
  unfold rstrip_with. rewrite !reverse_rev.
  destruct (dropwhile_suffix f (rev s)) as (pre & H).
  exists (rev pre). rewrite <- rev_app_distr, <- H. now rewrite rev_involutive.
Qed.

Lemma rstrip_with_occurs (f : N -> bool) (s : str) : occurs_in (rstrip_with f s) s.
Proof. destruct (rstrip_with_prefix f s) as (post & H). now exists [], post. Qed.

Lemma lstrip_with_occurs (f : N -> bool) (s : str) : occurs_in (lstrip_with f s) s.
Proof.
  destruct (dropwhile_suffix f s) as (pre & H). exists pre, [].
  now rewrite app_nil_r.
Qed.

Lemma strip_occurs (s : str) : occurs_in (strip s) s.
Proof.
  unfold strip.
  exact (occurs_in_trans (rstrip_with_occurs _ _) (lstrip_with_occurs _ s)).
Qed.

(** The pieces of a split are pieces of the string. *)
Lemma split_from_occurs (sep : str) (s : str) :
  forall (skip : nat) (cur : str),
    skip = O \/ cur = [] ->
    Forall (fun piece => occurs_in piece (rev cur ++ s)) (split_from sep skip cur s).
Proof.
  induction s as [|c r IH]; intros skip cur Hinv.
  - simpl. constructor; [|constructor]. rewrite reverse_rev, app_nil_r.
    apply occurs_in_refl.
  - cbn [split_from]. destruct skip as [|k].
    + destruct (startswith sep (c :: r)).
      * constructor.
        -- rewrite reverse_rev. exists [], (c :: r). reflexivity.
        -- specialize (IH (length sep - 1)%nat [] (or_intror eq_refl)).
           simpl in IH. eapply Forall_impl; [|exact IH].
           intros piece Hp. apply occurs_in_app_l, occurs_in_cons, Hp.
      * specialize (IH O (c :: cur) (or_introl eq_refl)).
        simpl rev in IH. rewrite <- app_assoc in IH. exact IH.
    + destruct Hinv as [Hk| ->]; [discriminate|].
      specialize (IH k [] (or_intror eq_refl)). simpl in *.
      eapply Forall_impl; [|exact IH].
      intros piece Hp. apply occurs_in_cons, Hp.
Qed.

Lemma split_piece_occurs (sep s piece : str) (i : nat) :
  nth_error (split sep s) i = Some piece -> occurs_in piece s.
Proof.
  intros H. apply nth_error_In in H.
  pose proof (@split_from_occurs sep s O [] (or_introl eq_refl)) as Hall.
  rewrite Forall_forall in Hall. exact (Hall piece H).
Qed.

Lemma value_after_equals_occurs (line b : str) :
  value_after_equals line = Some b -> occurs_in b line.
Proof.
  unfold value_after_equals.
  destruct (mem_char dquote line); [|destruct (mem_char squote line)];
    (destruct (nth_error _ 1) as [piece|] eqn:E; [|discriminate]);
    simpl; intros H; injection H as <-;
    apply split_piece_occurs in E;
    (eapply occurs_in_trans; [|exact E]).
  - apply rstrip_with_occurs.
  - apply rstrip_with_occurs.
  - apply strip_occurs.
Qed.

(** X16. The boundary that [_find_boundary] returns is read off one of
    the lines: that line, stripped and in lower case, holds the word
    [boundary], and the value returned occurs in the line as it is
    written.  So the loop of [parse], which takes every line that holds
    the boundary for a delimiter, takes the declaring line for one too. *)
Theorem find_boundary_occurs (lines : list str) (b : str) :
  _find_boundary lines = Some b ->
  exists l,
    In l lines
    /\ contains BOUNDARY (lower (strip l)) = true
    /\ value_after_equals (strip l) = Some b
    /\ contains b l = true.
Proof.
  induction lines as [|l rest IH]; [discriminate|].
  cbn [_find_boundary]. cbv zeta.
  destruct (contains BOUNDARY (lower (strip l))) eqn:Eb.
  - destruct (value_after_equals (strip l)) as [v|] eqn:Ev.
    + intros H. injection H as ->. exists l.
      split; [now left|]. split; [exact Eb|]. split; [exact Ev|].
      apply occurs_contains.
      exact (occurs_in_trans (value_after_equals_occurs _ Ev) (strip_occurs l)).
    + intros H. destruct (IH H) as (l' & Hin & Hl'). exists l'.
      split; [now right|exact Hl'].
  - intros H. destruct (IH H) as (l' & Hin & Hl'). exists l'.
    split; [now right|exact Hl'].
Qed.

Lemma find_boundary_occurs_witness :
  exists l,
    In l (splitlines Sample.doc)
    /\ contains BOUNDARY (lower (strip l)) = true
    /\ value_after_equals (strip l) = Some (lit "AAA")
    /\ contains (lit "AAA") l = true.
Proof.
  apply (@find_boundary_occurs (splitlines Sample.doc) (lit "AAA")).
  vm_compute. reflexivity.
Defined.

(** ** [get_html] after [extract_images] *)

Lemma set_safe (name filename : str) (d : dict str) :
  Forall safe_char filename ->
  Forall (fun entry => Forall safe_char (snd entry)) d ->
  Forall (fun entry => Forall safe_char (snd entry)) (set name filename d).
Proof.
  intros Hf. induction 1 as [|[k v] d Hk Hd IH]; simpl.
  - repeat constructor. exact Hf.
  - destruct (str_eqb k name); constructor; assumption.
Qed.

Lemma extract_images_safe_names (output_dir : str) (parts : list part) :
  forall st : MHTMLParser * list binary_file,
    Forall (fun entry => Forall safe_char (snd entry)) (_image_paths (fst st)) ->
    Forall (fun entry => Forall safe_char (snd entry))
      (_image_paths (fst (fold_left (extract_image output_dir) parts st))).
Proof.
  induction parts as [|p parts IH]; intros st Hst; simpl; [exact Hst|].
  apply IH. destruct st as [self written]. destruct p as [[ctype name] content].
  unfold extract_image. destruct (negb _ || _); [exact Hst|].
  destruct (b64decode_str _); simpl; [exact Hst|].
  apply set_safe; [|exact Hst].
  apply generated_filename_safe_chars.
Qed.

Lemma safe_no_backslash (s : str) :
  Forall safe_char s -> mem_char backslash s = false.
Proof.
  unfold mem_char. induction 1 as [|c r Hc Hr IH]; [reflexivity|].
  cbn [existsb]. rewrite IH, orb_false_r. apply N.eqb_neq. intros <-.
  discriminate Hc.
Qed.

Lemma sub_all_literal (pats : list (list Re.atom)) (repl : str) :
  mem_char backslash repl = false ->
  forall h : str,
    fold_left (fun h pat => bind h (Re.sub pat repl)) pats (Ok h)
    = Ok (fold_left (fun h pat => Re.sub_from pat repl 0 h) pats h).
Proof.
  intros Hr. induction pats as [|pat pats IH]; intros h; [reflexivity|].
  cbn [fold_left bind]. unfold Re.sub at 2. rewrite Hr. apply IH.
Qed.

Lemma fix_html_paths_literal (registry : dict str) :
  Forall (fun entry => Forall safe_char (snd entry)) registry ->
  forall h : str,
    fold_left
      (fun h '(name, filename) =>
         bind h (sub_all (path_patterns name) (src_dq (lit "images/" ++ filename))))
      registry (Ok h)
    = Ok (fold_left paths_fixed_in registry h).
Proof.
  induction 1 as [|[name filename] d Hf Hd IH]; intros h; [reflexivity|].
  cbn [fold_left bind]. unfold sub_all at 2.
  rewrite sub_all_literal.
  - apply IH.
  - unfold src_dq. rewrite !mem_char_app.
    simpl in Hf. rewrite (safe_no_backslash Hf). reflexivity.
Qed.

Lemma get_html_extracted (self : MHTMLParser) (output_dir : str) :
  get_html (fst (extract_images self output_dir)) false
  = if is_empty (first_html (dataset self))
    then Raise (ValueError no_html_msg)
    else Ok (fold_left paths_fixed_in
               (_image_paths (fst (extract_images self output_dir)))
               (first_html (dataset self))).
Proof.
  unfold get_html.
  assert (Hd : dataset (fst (extract_images self output_dir)) = dataset self)
    by (unfold extract_images; now rewrite extract_images_dataset).
  rewrite Hd.
  destruct (first_html (dataset self)) as [|c html]; [reflexivity|].
  simpl is_empty. cbv iota. unfold _fix_html_paths.
  apply fix_html_paths_literal.
  unfold extract_images. apply extract_images_safe_names. constructor.
Qed.



Example sample_paths_fixed :
  get_html (fst (extract_images Sample.parsed (lit "out/images"))) false
  = Ok (lit "<html><body><img src=" ++ [dquote] ++ lit "images/img1_9b90526b.png"
        ++ [dquote] ++ lit "></body></html>").
Proof. vm_compute. reflexivity. Qed.

(** ** UTF-8 and quoted-printable *)

Section Utf8.

Local Open Scope N_scope.

Lemma below_checked (P : N -> bool) (n : nat) (q : N) :
  forallb P (map N.of_nat (seq 0 n)) = true -> q < N.of_nat n -> P q = true.
Proof.
  intros Hall Hq. rewrite forallb_forall in Hall. apply Hall.
  rewrite <- (N2Nat.id q). apply in_map, in_seq. lia.
Qed.

Lemma lead2 (q : N) : q < 32 -> N.lor 192 q = 192 + q /\ N.land (192 + q) 31 = q.
Proof.
  intros H. rewrite <- !N.eqb_eq, <- andb_true_iff.
  apply (below_checked (fun q => (N.lor 192 q =? 192 + q) && (N.land (192 + q) 31 =? q)) 32);
    [reflexivity|exact H].
Qed.
Lemma lead3 (q : N) : q < 16 -> N.lor 224 q = 224 + q /\ N.land (224 + q) 15 = q.
Proof.
  intros H. rewrite <- !N.eqb_eq, <- andb_true_iff.
  apply (below_checked (fun q => (N.lor 224 q =? 224 + q) && (N.land (224 + q) 15 =? q)) 16);
    [reflexivity|exact H].
Qed.
Lemma lead4 (q : N) : q < 8 -> N.lor 240 q = 240 + q /\ N.land (240 + q) 7 = q.
Proof.
  intros H. rewrite <- !N.eqb_eq, <- andb_true_iff.
  apply (below_checked (fun q => (N.lor 240 q =? 240 + q) && (N.land (240 + q) 7 =? q)) 8);
    [reflexivity|exact H].
Qed.
Lemma cont6 (q : N) : q < 64 -> N.lor 128 q = 128 + q /\ low6 (128 + q) = q.
Proof.
  intros H. rewrite <- !N.eqb_eq, <- andb_true_iff.
  apply (below_checked (fun q => (N.lor 128 q =? 128 + q) && (low6 (128 + q) =? q)) 64);
    [reflexivity|exact H].
Qed.

Lemma div64 (c : N) : c = 64 * (c / 64) + c mod 64 /\ c mod 64 < 64.
Proof.
  split; [apply N.div_mod; discriminate|apply N.mod_lt; discriminate].
Qed.

(** The bytes of a code point. *)
Lemma utf8_encode_char_shape (c : N) :
  scalar c = true ->
  (c < 128 /\ utf8_encode_char c = [c])
  \/ (exists q m, c = 64 * q + m /\ 2 <= q < 32 /\ m < 64
                  /\ utf8_encode_char c = [192 + q; 128 + m])
  \/ (exists a b m, c = 4096 * a + 64 * b + m /\ a < 16 /\ b < 64 /\ m < 64
                    /\ 2048 <= c /\ (c < 55296 \/ 57344 <= c)
                    /\ utf8_encode_char c = [224 + a; 128 + b; 128 + m])
  \/ (exists a b d m, c = 262144 * a + 4096 * b + 64 * d + m
                      /\ a < 8 /\ b < 64 /\ d < 64 /\ m < 64
                      /\ 65536 <= c < 1114112
                      /\ utf8_encode_char c = [240 + a; 128 + b; 128 + d; 128 + m]).
Proof.
  intros Hs. unfold scalar in Hs.
  assert (Hc : c < 55296 \/ 57344 <= c < 1114112).
  { apply orb_true_iff in Hs. destruct Hs as [H|H].
    - left. now apply N.ltb_lt.
    - right. apply andb_true_iff in H. destruct H as [H1 H2].
      apply N.leb_le in H1. apply N.ltb_lt in H2. lia. }
  clear Hs. unfold utf8_encode_char.
  rewrite !N.shiftr_div_pow2. change 63 with (N.ones 6). rewrite !N.land_ones.
  change (2 ^ 6) with 64. change (2 ^ 12) with (64 * 64).
  change (2 ^ 18) with (64 * 64 * 64).
  rewrite <- !N.Div0.div_div.
  destruct (div64 c) as [E1 M1]. destruct (div64 (c / 64)) as [E2 M2].
  destruct (div64 (c / 64 / 64)) as [E3 M3].
  set (q1 := c / 64) in *. set (m1 := c mod 64) in *.
  set (q2 := q1 / 64) in *. set (m2 := q1 mod 64) in *.
  set (q3 := q2 / 64) in *. set (m3 := q2 mod 64) in *.
  clearbody q1 m1 q2 m2 q3 m3.
  destruct (c <? 128) eqn:T1.
  { apply N.ltb_lt in T1. left. split; [exact T1|reflexivity]. }
  apply N.ltb_ge in T1. right.
  destruct (c <? 2048) eqn:T2.
  { apply N.ltb_lt in T2. left. exists q1, m1.
    assert (Hq : q1 < 32) by lia.
    rewrite (proj1 (lead2 Hq)), (proj1 (cont6 M1)).
    repeat split; try lia. }
  apply N.ltb_ge in T2. right.
  destruct (c <? 65536) eqn:T3.
  { apply N.ltb_lt in T3. left. exists q2, m2, m1.
    assert (Hq : q2 < 16) by lia.
    rewrite (proj1 (lead3 Hq)), (proj1 (cont6 M1)), (proj1 (cont6 M2)).
    repeat split; try lia. }
  apply N.ltb_ge in T3. right. exists q3, m3, m2, m1.
  assert (Hq : q3 < 8) by lia.
  rewrite (proj1 (lead4 Hq)), (proj1 (cont6 M1)), (proj1 (cont6 M2)),
    (proj1 (cont6 M3)).
  repeat split; try lia.
Qed.

Ltac settle :=
  repeat match goal with
    | |- context [(?a <? ?b)] =>
        first [ replace (a <? b) with true by (symmetry; apply N.ltb_lt; lia)
              | replace (a <? b) with false by (symmetry; apply N.ltb_ge; lia) ]
    | |- context [(?a <=? ?b)] =>
        first [ replace (a <=? b) with true by (symmetry; apply N.leb_le; lia)
              | replace (a <=? b) with false by (symmetry; apply N.leb_gt; lia) ]
    | |- context [(?a =? ?b)] =>
        first [ replace (a =? b) with true by (symmetry; apply N.eqb_eq; lia)
              | replace (a =? b) with false by (symmetry; apply N.eqb_neq; lia) ]
    end.

Lemma utf8_decode_ignore_cons (b0 : N) (r : bytes) :
  utf8_decode_ignore (b0 :: r)
  = if b0 <? 128 then b0 :: utf8_decode_ignore r
    else if (194 <=? b0) && (b0 <=? 223) then
      match r with
      | b1 :: r1 =>
          if is_cont b1
          then (N.land b0 31 * 64 + low6 b1) :: utf8_decode_ignore r1
          else utf8_decode_ignore r
      | _ => utf8_decode_ignore r
      end
    else if (224 <=? b0) && (b0 <=? 239) then
      match r with
      | b1 :: b2 :: r2 =>
          if second_ok3 b0 b1 && is_cont b2
          then (N.land b0 15 * 4096 + low6 b1 * 64 + low6 b2)
               :: utf8_decode_ignore r2
          else utf8_decode_ignore r
      | _ => utf8_decode_ignore r
      end
    else if (240 <=? b0) && (b0 <=? 244) then
      match r with
      | b1 :: b2 :: b3 :: r3 =>
          if second_ok4 b0 b1 && is_cont b2 && is_cont b3
          then (N.land b0 7 * 262144 + low6 b1 * 4096 + low6 b2 * 64 + low6 b3)
               :: utf8_decode_ignore r3
          else utf8_decode_ignore r
      | _ => utf8_decode_ignore r
      end
    else utf8_decode_ignore r.
Proof. reflexivity. Qed.

Lemma utf8_decode_encode_char (c : N) (r : bytes) :
  scalar c = true ->
  utf8_decode_ignore (utf8_encode_char c ++ r) = c :: utf8_decode_ignore r.
Proof.
  intros Hs.
  destruct (utf8_encode_char_shape c Hs)
    as [[Hc ->]|[(q & m & Hc & Hq & Hm & ->)
       |[(a & b & m & Hc & Ha & Hb & Hm & Hlo & Hsur & ->)
        |(a & b & d & m & Hc & Ha & Hb & Hd & Hm & Hr & ->)]]];
    cbn [app]; rewrite utf8_decode_ignore_cons; cbv beta iota.
  - settle. reflexivity.
  - assert (Hval : q * 64 + m = c) by lia.
    assert (Hq' : q < 32) by lia. clear Hc Hs.
    rewrite (proj2 (lead2 Hq')), (proj2 (cont6 Hm)), Hval.
    unfold is_cont. settle. reflexivity.
  - assert (Hval : a * 4096 + b * 64 + m = c) by lia.
    assert (H0 : a = 0 -> 32 <= b) by lia.
    assert (H13 : a = 13 -> b < 32) by lia.
    clear Hc Hlo Hsur Hs.
    rewrite (proj2 (lead3 Ha)), (proj2 (cont6 Hb)), (proj2 (cont6 Hm)), Hval.
    unfold second_ok3, is_cont.
    destruct (N.eq_dec a 0) as [Ha0|Ha0];
      [|destruct (N.eq_dec a 13) as [Ha13|Ha13]];
      [specialize (H0 Ha0)|specialize (H13 Ha13)|];
      settle; reflexivity.
  - assert (Hval : a * 262144 + b * 4096 + d * 64 + m = c) by lia.
    assert (Ha4 : a <= 4) by lia.
    assert (H0 : a = 0 -> 16 <= b) by lia.
    assert (H4 : a = 4 -> b < 16) by lia.
    clear Hc Hr Hs.
    rewrite (proj2 (lead4 Ha)), (proj2 (cont6 Hb)), (proj2 (cont6 Hd)),
      (proj2 (cont6 Hm)), Hval.
    unfold second_ok4, is_cont.
    destruct (N.eq_dec a 0) as [Ha0|Ha0];
      [|destruct (N.eq_dec a 4) as [Ha4'|Ha4']];
      [specialize (H0 Ha0)|specialize (H4 Ha4')|];
      settle; reflexivity.
Qed.

Lemma utf8_decode_encode (s : str) :
  forallb scalar s = true -> utf8_decode_ignore (utf8_encode s) = s.
Proof.
  induction s as [|c s IH]; [reflexivity|]. simpl forallb.
  intros H. apply andb_true_iff in H. destruct H as [Hc Hs].
  unfold utf8_encode. cbn [flat_map]. fold (utf8_encode s).
  rewrite (@utf8_decode_encode_char c (utf8_encode s) Hc), (IH Hs). reflexivity.
Qed.

Lemma utf8_encode_char_no_ascii (c x : N) :
  scalar c = true -> x < 128 -> c <> x -> ~ In x (utf8_encode_char c).
Proof.
  intros Hs Hx Hne.
  destruct (utf8_encode_char_shape c Hs)
    as [[Hc ->]|[(q & m & Hc & Hq & Hm & ->)
       |[(a & b & m & Hc & Ha & Hb & Hm & Hlo & Hsur & ->)
        |(a & b & d & m & Hc & Ha & Hb & Hd & Hm & Hr & ->)]]];
    cbn [In]; lia.
Qed.

Lemma a2b_qp_plain (d : bytes) : ~ In 61 d -> a2b_qp d = d.
Proof.
  unfold a2b_qp. induction d as [|c r IH]; [reflexivity|].
  intros H. cbn [a2b_qp_from].
  destruct (c =? 61) eqn:E.
  - apply N.eqb_eq in E. subst c. exfalso. apply H. now left.
  - f_equal. apply IH. intros Hin. apply H. now right.
Qed.

(** X18. [_decode_quoted_printable] leaves a text without equals sign
    as it is, whatever its characters: the text is encoded in UTF-8,
    nothing in the bytes is an escape or a soft line break, and the bytes
    decode to the text again. *)
Theorem decode_quoted_printable_plain (data : str) :
  forallb scalar data = true -> mem_char 61 data = false ->
  _decode_quoted_printable data = data.
Proof.
  intros Hs He. unfold _decode_quoted_printable.
  rewrite a2b_qp_plain; [now apply utf8_decode_encode|].
  clear - Hs He. induction data as [|c s IH]; [tauto|].
  cbn [forallb] in Hs. unfold mem_char in He. cbn [existsb] in He. fold (mem_char 61 s) in He. apply andb_true_iff in Hs. destruct Hs as [Hc Hs].
  apply orb_false_iff in He. destruct He as [Hne He].
  unfold utf8_encode. cbn [flat_map]. fold (utf8_encode s).
  intros Hin. apply in_app_or in Hin. destruct Hin as [Hin|Hin].
  - revert Hin. apply utf8_encode_char_no_ascii; [exact Hc|lia|].
    intros ->. rewrite N.eqb_refl in Hne. discriminate.
  - exact (IH Hs He Hin).
Qed.

Lemma decode_quoted_printable_plain_witness :
  _decode_quoted_printable (lit "<p>caf" ++ [233; 20013; 128512] ++ lit "</p>")
  = lit "<p>caf" ++ [233; 20013; 128512] ++ lit "</p>".
Proof.
  apply (@decode_quoted_printable_plain
           (lit "<p>caf" ++ [233; 20013; 128512] ++ lit "</p>")).
  - vm_compute. reflexivity.
  - vm_compute. reflexivity.
Defined.

End Utf8.

(** ** [process_single_file] *)

Import Main.

Lemma parse_keeps_decode_images (self : MHTMLParser) :
  decode_images (snd (parse self)) = decode_images self.
Proof.
  unfold parse. destruct (mhtml_content self) as [content|]; simpl; [|reflexivity].
  destruct (is_empty content); simpl; [reflexivity|].
  destruct (_find_boundary (splitlines content)) as [b|] eqn:Hb; simpl;
    [|reflexivity].
  destruct (is_empty b); simpl; [reflexivity|].
  destruct (parse_loop_appends b (splitlines content)
              (with_boundary self (Some b)) [] false) as [_ (_ & Hd & _)].
  unfold parse_loop in Hd.
  destruct (fold_left _ _ _) as [[s cur] inc]. simpl in *. exact Hd.
Qed.



Example direct_run :
  ended (process_single_file Files.read_file Files.no_files (lit "in/page.mht")
           (direct false)) = Returns true
  /\ images_saved (process_single_file Files.read_file Files.no_files
                     (lit "in/page.mht") (direct false))
     = [(lit "out/images/img1_9b90526b.png", [137; 80; 78; 71; 13; 10]%N)]
  /\ html_saved (process_single_file Files.read_file Files.no_files
                   (lit "in/page.mht") (direct false))
     = [(lit "out/page.html",
         lit "<html><body><img src=" ++ [dquote]
         ++ lit "images/img1_9b90526b.png" ++ [dquote] ++ lit "></body></html>")].
Proof. vm_compute. repeat split. Qed.

(** X20. With [--no-images] the direct mode writes no image and leaves
    the HTML as the document has it, with [--embed-images] or without:
    the parser is made with [decode_images=False] and nothing is
    extracted.  With an HTML content the file is written; the call then
    returns [True], unless [--debug] is given, which makes it return
    [False] after the file is written. *)
Theorem process_single_file_no_images (read_file : str -> str)
    (disk : str -> option N) (input_path : str) (args : Namespace) :
  no_split args = true -> no_images args = true ->
  let parsed := parse (__init__ (Some (read_file input_path)) false) in
  let html := first_html (dataset (snd parsed)) in
  let r := process_single_file read_file disk input_path args in
  images_saved r = [] /\ debug_saved r = []
  /\ match fst parsed with
     | Some _ => ended r = Returns false /\ html_saved r = []
     | None =>
         if is_empty html then ended r = Returns false /\ html_saved r = []
         else ended r = Returns (negb (debug args))
              /\ html_saved r
                 = [(path_join (output args)
                       (splitext_root (basename input_path) ++ lit ".html"),
                     html)]
     end.
Proof.
  intros Hsplit Himages. cbv zeta. unfold process_single_file.
  rewrite Hsplit, Himages. simpl negb. rewrite andb_false_r. cbv iota.
  pose proof (parse_keeps_decode_images
                (__init__ (Some (read_file input_path)) false)) as Hdec.
  pose proof (parse_new_no_paths (Some (read_file input_path)) false) as Hpaths.
  destruct (parse _) as [[e|] parser]; simpl in *; [repeat split|].
  assert (Hget : get_html parser (embed_images args)
                 = if is_empty (first_html (dataset parser))
                   then Raise (ValueError no_html_msg)
                   else Ok (first_html (dataset parser))).
  { destruct (embed_images args).
    - unfold get_html. rewrite Hdec, embed_nothing. reflexivity.
    - apply get_html_before_extraction, Hpaths. }
  rewrite Hget.
  destruct (is_empty (first_html (dataset parser))); [repeat split|].
  destruct (debug args); repeat split.
Qed.

Lemma process_single_file_no_images_witness :
  let parsed := parse (__init__ (Some (Files.read_file (lit "in/page.mht"))) false) in
  let html := first_html (dataset (snd parsed)) in
  let r :=
    process_single_file Files.read_file Files.no_files (lit "in/page.mht")
      (text_only true) in
  images_saved r = [] /\ debug_saved r = []
  /\ match fst parsed with
     | Some _ => ended r = Returns false /\ html_saved r = []
     | None =>
         if is_empty html then ended r = Returns false /\ html_saved r = []
         else ended r = Returns (negb (debug (text_only true)))
              /\ html_saved r
                 = [(path_join (output (text_only true))
                       (splitext_root (basename (lit "in/page.mht")) ++ lit ".html"),
                     html)]
     end.
Proof.
  exact (@process_single_file_no_images Files.read_file Files.no_files
           (lit "in/page.mht") (text_only true) eq_refl eq_refl).
Defined.

Example text_only_run :
  ended (process_single_file Files.read_file Files.no_files (lit "in/page.mht")
           (text_only false)) = Returns true
  /\ ended (process_single_file Files.read_file Files.no_files (lit "in/page.mht")
              (text_only true)) = Returns false
  /\ html_saved (process_single_file Files.read_file Files.no_files
                   (lit "in/page.mht") (text_only true))
     = [(lit "out/page.html",
         lit "<html><body><img src=" ++ [dquote] ++ lit "cid:img1" ++ [dquote]
         ++ lit "></body></html>")].
Proof. vm_compute. repeat split. Qed.

(** X21. With [--debug] the call returns [True] only in the direct mode
    with the images extracted.  With [--embed-images] or [--no-images]
    the debug report reads [images_dir], which is not assigned, inside
    the [try]; and in the split mode the last lines read [output_path],
    which is not assigned, after it: there the call, when [split_file]
    has returned, raises [UnboundLocalError]. *)
Theorem process_single_file_debug (read_file : str -> str)
    (disk : str -> option N) (input_path : str) (args : Namespace) :
  debug args = true ->
  let r := process_single_file read_file disk input_path args in
  (ended r = Returns true ->
   no_split args = true /\ embed_images args = false /\ no_images args = false)
  /\ (no_split args = false ->
      ended r
      = match returned (split_file read_file disk
                          {| max_size_mb := split_size args; missing_images := [] |}
                          input_path (output args)) with
        | Ok _ => UnboundLocalError (lit "output_path")
        | Raise _ => Returns false
        end).
Proof.
  intros Hdebug. cbv zeta. unfold process_single_file. rewrite Hdebug. split.
  - destruct (no_split args).
    + intros H. split; [reflexivity|].
      destruct (embed_images args); destruct (no_images args); simpl in H;
        try (split; reflexivity); exfalso;
        destruct (parse _) as [[e|] parser]; try discriminate H;
        destruct (get_html parser _) as [html|[msg|]]; discriminate H.
    + simpl. destruct (returned _) as [files|[msg|]]; discriminate.
  - intros Hsplit. rewrite Hsplit. simpl.
    pose proof (@split_file_raises_only read_file disk
                  {| max_size_mb := split_size args; missing_images := [] |}
                  input_path (output args)) as Hraise.
    destruct (returned _) as [files|[msg|]]; try reflexivity.
    destruct (Hraise TemplateEscape eq_refl) as [H|[H|H]]; discriminate H.
Qed.

Lemma process_single_file_debug_witness :
  (ended (process_single_file Files.read_file Files.no_files (lit "in/page.mht")
            (splitting true)) = Returns true ->
   no_split (splitting true) = true /\ embed_images (splitting true) = false
   /\ no_images (splitting true) = false)
  /\ (no_split (splitting true) = false ->
      ended (process_single_file Files.read_file Files.no_files (lit "in/page.mht")
               (splitting true))
      = match returned (split_file Files.read_file Files.no_files
                          {| max_size_mb := split_size (splitting true);
                             missing_images := [] |}
                          (lit "in/page.mht") (output (splitting true))) with
        | Ok _ => UnboundLocalError (lit "output_path")
        | Raise _ => Returns false
        end).
Proof.
  exact (@process_single_file_debug Files.read_file Files.no_files
           (lit "in/page.mht") (splitting true) eq_refl).
Defined.

Example debug_run_of_the_split_mode :
  ended (process_single_file Files.read_file Files.no_files (lit "in/page.mht")
           (splitting true))
  = UnboundLocalError (lit "output_path")
  /\ html_saved (process_single_file Files.read_file Files.no_files
                   (lit "in/page.mht") (splitting true))
     = [(lit "out/page.html",
         lit "<html><body><img src=" ++ [dquote] ++ lit "images/img1_9b90526b.png"
         ++ [dquote] ++ lit "></body></html>")].
Proof. vm_compute. split; reflexivity. Qed.

Example debug_run_of_the_direct_mode :
  ended (process_single_file Files.read_file Files.no_files (lit "in/page.mht")
           (direct true)) = Returns true
  /\ map fst (images_saved (process_single_file Files.read_file Files.no_files
                              (lit "in/page.mht") (direct true)))
     = [lit "out/images/img1_9b90526b.png"; lit "out/images/img1_9b90526b.png"]
  /\ debug_saved (process_single_file Files.read_file Files.no_files
                    (lit "in/page.mht") (direct true))
     = [lit "out/page_debug.json"].
Proof. vm_compute. repeat split. Qed.

(** ** [_extract_header_template] *)

Lemma search_ci_found (pat : list Re.atom) (s : str) :
  forall i, search_ci pat s = Some i -> Re.matches_at pat (skipn i s) = true.
Proof.
  induction s as [|c r IH]; intros i; cbn [search_ci].
  - destruct (Re.matches_at pat []) eqn:E; [|discriminate].
    intros H. injection H as <-. exact E.
  - destruct (Re.matches_at pat (c :: r)) eqn:E.
    + intros H. injection H as <-. exact E.
    + destruct (search_ci pat r) as [j|]; [|discriminate].
      intros H. injection H as <-. apply IH. reflexivity.
Qed.

Lemma find_found (p s : str) :
  forall k, find p s = Some k -> startswith p (skipn k s) = true.
Proof.
  induction s as [|c r IH]; intros k; cbn [find].
  - destruct (startswith p []) eqn:E; [|discriminate].
    intros H. injection H as <-. exact E.
  - destruct (startswith p (c :: r)) eqn:E.
    + intros H. injection H as <-. exact E.
    + destruct (find p r) as [j|]; [|discriminate].
      intros H. injection H as <-. apply IH. reflexivity.
Qed.

Lemma matches_at_firstn (pat : list Re.atom) :
  forall (s : str) (n : nat),
    Re.matches_at pat s = true -> (length pat <= n)%nat ->
    Re.matches_at pat (firstn n s) = true.
Proof.
  induction pat as [|a pat IH]; intros s n Hm Hn; [reflexivity|].
  destruct s as [|c s]; [discriminate|]. destruct n as [|n]; [simpl in Hn; lia|].
  simpl in *. apply andb_true_iff in Hm. destruct Hm as [Ha Hm].
  rewrite Ha. apply IH; [exact Hm|lia].
Qed.

Lemma last_firstn (s : str) :
  forall (n : nat) (x d : N),
    nth_error s n = Some x -> last (firstn (S n) s) d = x.
Proof.
  induction s as [|c s IH]; intros [|n] x d H; try discriminate.
  - simpl in H. injection H as ->. destruct s; reflexivity.
  - simpl in H. specialize (IH n x d H).
    change (firstn (S (S n)) (c :: s)) with (c :: firstn (S n) s).
    destruct s as [|c' s]; [destruct n; discriminate|].
    exact IH.
Qed.

(** X22. The header template is the default [<html><body>], or it is a
    piece of the HTML content that starts with [<html], letter case
    apart, and ends with the sign that closes a tag; what comes after
    that sign is not part of it. *)
Theorem extract_header_template_shape (html_content : str) :
  let template := _extract_header_template html_content in
  template = lit "<html><body>"
  \/ (occurs_in template html_content
      /\ Re.matches_at (Re.literal (lit "<html")) template = true
      /\ last template 0%N = 62%N).
Proof.
  cbv zeta. unfold _extract_header_template.
  destruct (search_ci (Re.literal (lit "<html")) html_content) as [i|] eqn:E1;
    [|now left].
  destruct (search_ci (Re.literal (lit "<body")) (skipn (i + 5) html_content))
    as [j|] eqn:E2; [|now left].
  destruct (find (lit ">") (skipn (j + 5) (skipn (i + 5) html_content)))
    as [k|] eqn:E3; [|now left].
  right. apply search_ci_found in E1. apply find_found in E3.
  split; [|split].
  - exists (firstn i html_content),
      (skipn (5 + j + 5 + k + 1) (skipn i html_content)).
    now rewrite !firstn_skipn.
  - apply matches_at_firstn; [exact E1|simpl; lia].
  - replace (5 + j + 5 + k + 1)%nat with (S (5 + j + 5 + k)) by lia.
    apply last_firstn.
    rewrite !skipn_skipn in E3.
    destruct (skipn (k + (j + 5) + (i + 5)) html_content) as [|c rest] eqn:Es;
      [vm_compute in E3; discriminate|].
    change (startswith (lit ">") (c :: rest)) with ((62 =? c)%N && true) in E3.
    rewrite andb_true_r in E3. apply N.eqb_eq in E3. subst c.
    rewrite nth_error_skipn, <- hd_error_skipn.
    replace (i + (5 + j + 5 + k))%nat with (k + (j + 5) + (i + 5))%nat by lia.
    now rewrite Es.
Qed.

Example header_template_samples :
  map _extract_header_template
    [lit "<!DOCTYPE html><HTML lang=en><head></head><Body class=x><p>text</p>";
     lit "<p>no tags</p>"; lit "<html><head></head><p>no body tag</p>"]
  = [lit "<HTML lang=en><head></head><Body class=x>"; lit "<html><body>";
     lit "<html><body>"].
Proof. vm_compute. reflexivity. Qed.

(** ** The images of a name *)

Lemma find_app {A} (f : A -> bool) (l1 l2 : list A) :
  List.find f (l1 ++ l2)
  = match List.find f l1 with
    | Some x => Some x
    | None => List.find f l2
    end.
Proof.
  induction l1 as [|x l1 IH]; simpl; [reflexivity|].
  destruct (f x); [reflexivity|exact IH].
Qed.

Lemma image_map_from (name : str) (d : list part) :
  forall m : dict (str * str),
    get name
      (fold_left
         (fun m '(ctype, name, content) =>
            if startswith (lit "image/") ctype then set name (ctype, content) m
            else m) d m)
    = match List.find
              (fun '(ctype, n, _) => startswith (lit "image/") ctype && str_eqb n name)
              (rev d) with
      | Some (ctype, _, content) => Some (ctype, content)
      | None => get name m
      end.
Proof.
  induction d as [|[[ctype n] content] d IH]; intros m; [reflexivity|].
  cbn [fold_left rev]. rewrite IH, find_app.
  match goal with
  | |- context [List.find ?f (rev d)] =>
      destruct (List.find f (rev d)) as [[[ct' n'] c']|]; [reflexivity|]
  end.
  cbn [List.find].
  destruct (startswith (lit "image/") ctype); [|reflexivity]. cbn [andb].
  destruct (str_eqb n name) eqn:E.
  - apply str_eqb_eq in E. subst n. apply get_set_same.
  - now apply get_set_other.
Qed.

(** X23. When several image parts of the dataset have the same name,
    [get_html] embeds the last of them: the map of the images gives, for
    a name, the content type and the payload of the last part of the
    dataset whose content type starts with [image/] and whose name it
    is, and nothing when there is none. *)
Theorem image_map_last_wins (d : list part) (name : str) :
  get name (image_map d)
  = match List.find
            (fun '(ctype, n, _) => startswith (lit "image/") ctype && str_eqb n name)
            (rev d) with
    | Some (ctype, _, content) => Some (ctype, content)
    | None => None
    end.
Proof. unfold image_map. now rewrite image_map_from. Qed.

Example image_map_of_two :
  image_map [(lit "image/png", lit "a", lit "AAAA"); (lit "image/gif", lit "b", lit "BBBB");
             (lit "text/html", lit "a", lit "<p>"); (lit "image/jpeg", lit "a", lit "CCCC")]
  = [(lit "a", (lit "image/jpeg", lit "CCCC")); (lit "b", (lit "image/gif", lit "BBBB"))].
Proof. vm_compute. reflexivity. Qed.

(** ** [_get_header_value] *)

Lemma dropwhile_idempotent (f : N -> bool) (s : str) :
  dropwhile f (dropwhile f s) = dropwhile f s.
Proof.
  induction s as [|c s IH]; [reflexivity|]. simpl.
  destruct (f c) eqn:E; [exact IH|]. simpl. now rewrite E.
Qed.

Lemma dropwhile_keeps_last (f : N -> bool) (s : str) (c : N) :
  f c = false -> dropwhile f (s ++ [c]) = dropwhile f s ++ [c].
Proof.
  intros Hc. induction s as [|x s IH]; simpl.
  - now rewrite Hc.
  - destruct (f x); [exact IH|reflexivity].
Qed.

Lemma rstrip_with_idempotent (f : N -> bool) (s : str) :
  rstrip_with f (rstrip_with f s) = rstrip_with f s.
Proof.
  unfold rstrip_with. rewrite !reverse_rev, rev_involutive.
  now rewrite dropwhile_idempotent.
Qed.

Lemma rstrip_with_keeps_head (f : N -> bool) (s : str) :
  dropwhile f s = s -> dropwhile f (rstrip_with f s) = rstrip_with f s.
Proof.
  unfold rstrip_with. rewrite !reverse_rev.
  destruct s as [|c s]; [reflexivity|]. simpl dropwhile at 1.
  destruct (f c) eqn:E.
  - intros H. exfalso.
    destruct (dropwhile_suffix f s) as (pre & Hpre).
    rewrite H in Hpre. apply (f_equal (@length N)) in Hpre.
    rewrite length_app in Hpre. simpl in Hpre. lia.
  - intros _. simpl rev. rewrite (@dropwhile_keeps_last f (rev s) c E).
    rewrite rev_app_distr. simpl. now rewrite E.
Qed.

Lemma strip_idempotent (s : str) : strip (strip s) = strip s.
Proof.
  unfold strip, lstrip_with.
  rewrite (@rstrip_with_keeps_head is_space (dropwhile is_space s)
             (dropwhile_idempotent is_space s)).
  apply rstrip_with_idempotent.
Qed.

Lemma find_char_absent (c : N) (s : str) :
  mem_char c s = false -> find [c] s = None.
Proof.
  unfold mem_char. induction s as [|x s IH]; intros H; [reflexivity|].
  cbn [existsb] in H. apply orb_false_iff in H. destruct H as [Hx Hs].
  cbn [find startswith]. rewrite Hx. simpl andb. cbv iota.
  now rewrite (IH Hs).
Qed.

(** X24. The value that [_get_header_value] reads has no white space
    around it, and a line without a colon gives the empty string. *)
Theorem get_header_value_trimmed (header_line : str) :
  strip (_get_header_value header_line) = _get_header_value header_line
  /\ (mem_char 58 header_line = false -> _get_header_value header_line = []).
Proof.
  unfold _get_header_value. split.
  - destruct (nth_error _ 1); [apply strip_idempotent|reflexivity].
  - intros H. unfold split1.
    change (lit ":") with [58%N]. now rewrite (@find_char_absent 58%N header_line H).
Qed.

Example header_values :
  map _get_header_value
    [lit "Content-Type:  text/html ; "; lit "Content-Type: text/html; charset=utf-8";
     lit "no colon here"; lit "X: a; ;"]
  = [lit "text/html"; lit "text/html; charset=utf-8"; lit ""; lit "a;"].
Proof. vm_compute. reflexivity. Qed.

(** ** [parse]: the lines before the first delimiter *)

Lemma recognized_from_preamble (b : str) (pre rest : list str) :
  Forall (fun l => contains b l = false) pre ->
  recognized_from b [] false (pre ++ rest) = recognized_from b [] false rest.
Proof.
  induction 1 as [|l pre Hl Hpre IH]; [reflexivity|].
  simpl. rewrite Hl. exact IH.
Qed.

(** X25. [parse] passes over the lines before the first line that holds
    the boundary: whatever they are, the parts stored are those
    recognized from that line on. *)
Theorem parse_skips_preamble (self : MHTMLParser) (content b : str)
    (pre rest : list str) :
  mhtml_content self = Some content ->
  _find_boundary (splitlines content) = Some b -> b <> [] ->
  splitlines content = pre ++ rest ->
  Forall (fun l => contains b l = false) pre ->
  fst (parse self) = None
  /\ dataset (snd (parse self)) = dataset self ++ recognized_from b [] false rest.
Proof.
  intros Hc Hb Hbne Hlines Hpre.
  assert (Hne : content <> []).
  { intros ->. rewrite Hlines in Hb. simpl in Hlines.
    destruct pre; [|discriminate]. simpl in Hlines. subst rest. discriminate. }
  rewrite (parse_success self Hc Hne Hb Hbne). simpl fst. simpl snd.
  split; [reflexivity|].
  destruct (parse_loop_appends b (splitlines content)
              (with_boundary self (Some b)) [] false) as [Hd _].
  rewrite Hd, Hlines. simpl dataset.
  now rewrite (@recognized_from_preamble b pre rest Hpre).
Qed.

Lemma parse_skips_preamble_witness :
  fst (parse (__init__ (Some Sample.doc) true)) = None
  /\ dataset (snd (parse (__init__ (Some Sample.doc) true)))
     = [] ++ recognized_from (lit "AAA") [] false (skipn 1 (splitlines Sample.doc)).
Proof.
  apply (@parse_skips_preamble (__init__ (Some Sample.doc) true) Sample.doc
           (lit "AAA") (firstn 1 (splitlines Sample.doc))
           (skipn 1 (splitlines Sample.doc))).
  - reflexivity.
  - vm_compute. reflexivity.
  - discriminate.
  - now rewrite firstn_skipn.
  - vm_compute. repeat constructor.
Defined.

(** ** The references written by [_save_html_file] *)

Lemma rfind_char_absent (c : N) (s : str) :
  Forall (fun x => x <> c) s ->
  forall (i : nat) (acc : option nat), rfind_char_from c i acc s = acc.
Proof.
  induction 1 as [|x s Hx Hs IH]; intros i acc; [reflexivity|].
  cbn [rfind_char_from]. apply N.eqb_neq in Hx. rewrite Hx. apply IH.
Qed.

Lemma safe_is_bare (filename : str) : Forall safe_char filename -> bare filename.
Proof.
  unfold bare. apply Forall_impl. intros c Hc ->. discriminate Hc.
Qed.

Lemma images_path_of_bare (filename : str) :
  bare filename ->
  path_join (lit "images") (basename filename) = lit "images/" ++ filename.
Proof.
  intros Hb. unfold basename, rfind_char.
  rewrite (rfind_char_absent Hb). unfold path_join.
  destruct Hb as [|c r Hc Hr]; [reflexivity|].
  cbn [startswith]. apply N.eqb_neq in Hc. rewrite N.eqb_sym in Hc.
  rewrite Hc. reflexivity.
Qed.

(** X26. The references that [_save_html_file] writes for the registry
    of [extract_images] point into the directory [images]: the registered
    file names have no directory part, so for each entry the rewrite
    puts [images/] and the file name in the place of [cid:] and the name,
    and then in the place of the name in double quotes. *)
Theorem extracted_references_point_into_images (self : MHTMLParser)
    (output_dir : str) :
  Forall
    (fun '(name, filename) =>
       forall content : str,
         rewrite_entry content (name, filename)
         = replace ([dquote] ++ name ++ [dquote])
             ([dquote] ++ (lit "images/" ++ filename) ++ [dquote])
             (replace (lit "cid:" ++ name) (lit "images/" ++ filename) content))
    (_image_paths (fst (extract_images self output_dir))).
Proof.
  assert (Hsafe : Forall (fun entry => Forall safe_char (snd entry))
                    (_image_paths (fst (extract_images self output_dir)))).
  { unfold extract_images. apply extract_images_safe_names. constructor. }
  eapply Forall_impl; [|exact Hsafe].
  intros [name filename] Hf content. simpl in Hf.
  unfold rewrite_entry. now rewrite (images_path_of_bare (safe_is_bare Hf)).
Qed.

Example sample_references :
  rewrite_references
    (_image_paths (fst (extract_images Sample.parsed (lit "out/images"))))
    (lit "<img src=cid:img1><a href=" ++ [dquote] ++ lit "img1" ++ [dquote] ++ lit ">")
  = lit "<img src=images/img1_9b90526b.png><a href=" ++ [dquote]
    ++ lit "images/img1_9b90526b.png" ++ [dquote] ++ lit ">".
Proof. vm_compute. reflexivity. Qed.
